(** * Logiscool catch-up tracker: a shallow embedding of [logiscool_app.py]

    The application is a FastAPI service over a SQLite file with two tables,
    [students(id, name UNIQUE)] and [catchups(id, student_id, date,
    lesson_missed)].  Every route handler opens a connection, runs one or two
    SQL statements and post-processes the fetched rows in Python.

    The embedding follows that shape:
    - the database is a record of two row lists kept in rowid order, with
      the two AUTOINCREMENT counters;
    - a handler is a computation in a state-and-exception monad over the
      database ([M]); the Python code that runs after [conn.close()] lives in
      the pure exception monad [result];
    - library calls the handlers rely on ([datetime.strptime], [strftime],
      [csv.writer], [StreamingResponse], SQLite's [ORDER BY] and [INSERT OR
      IGNORE]) are modelled from their behaviour under CPython 3.11 with
      glibc and SQLite 3.40;
    - a Python [str] is represented by its UTF-8 bytes, the form the
      database file holds it in and [ORDER BY] compares it in. *)

From Stdlib Require Import ZArith Ascii List Bool Lia.
From Stdlib Require Import Sorting.Sorted Sorting.Permutation.
From stdpp Require Import base option list gmap strings pretty sorting.

Local Open Scope Z_scope.

(* ===================================================================== *)
(** ** Exceptions *)
(* ===================================================================== *)

Inductive exn : Type :=
| ValueError          (* raised by datetime.strptime *)
| OverflowError       (* raised by sqlite3 when binding an int beyond 64 bits *)
| UnicodeEncodeError. (* raised by str.encode when a header is built *)

Inductive result (A : Type) : Type :=
| Ok (a : A)
| Raise (e : exn).
Arguments Ok {A} a.
Arguments Raise {A} e.

#[export] Instance result_ret : MRet result := λ A a, Ok a.
#[export] Instance result_bind : MBind result := λ A B f m,
  match m with
  | Ok a => f a
  | Raise e => Raise e
  end.

Definition is_Ok {A} (r : result A) : bool :=
  match r with Ok _ => true | Raise _ => false end.

(* ===================================================================== *)
(** ** Python's [datetime] on the two formats the handlers use *)
(* ===================================================================== *)

Module PyDate.

Record datetime : Type := mk_datetime { year : Z; month : Z; day : Z }.

Definition is_digit (c : ascii) : bool :=
  (("0" <=? c)%char && (c <=? "9")%char)%bool.

Definition in_range (lo hi c : ascii) : bool :=
  ((lo <=? c)%char && (c <=? hi)%char)%bool.

Definition digit_val (c : ascii) : Z := Z.of_N (N_of_ascii c) - 48.

(** The regular expressions [_strptime.TimeRE] compiles the directives to.
    A matcher returns every way it can consume a prefix, in the order the
    backtracking engine tries them: (value, unread rest). *)

(** [%Y] is [\d\d\d\d]; [\d] is modelled on the ASCII digits. *)
Definition re_Y (s : string) : list (Z * string) :=
  match s with
  | String a (String b (String c (String d r))) =>
      if (is_digit a && is_digit b && is_digit c && is_digit d)%bool
      then [(1000 * digit_val a + 100 * digit_val b
             + 10 * digit_val c + digit_val d, r)]
      else []
  | _ => []
  end.

(** Two characters [a][b] with [a] in [lo1..hi1] and [b] in [lo2..hi2]. *)
Definition re_two (lo1 hi1 lo2 hi2 : ascii) (s : string) : list (Z * string) :=
  match s with
  | String a (String b r) =>
      if (in_range lo1 hi1 a && in_range lo2 hi2 b)%bool
      then [(10 * digit_val a + digit_val b, r)] else []
  | _ => []
  end.

(** One character in [lo..hi]. *)
Definition re_one (lo hi : ascii) (s : string) : list (Z * string) :=
  match s with
  | String a r => if in_range lo hi a then [(digit_val a, r)] else []
  | _ => []
  end.

(** A space followed by one character in [1..9]. *)
Definition re_space_one (s : string) : list (Z * string) :=
  match s with
  | String " "%char (String a r) =>
      if in_range "1" "9" a then [(digit_val a, r)] else []
  | _ => []
  end.

(** [%m] is [1[0-2]|0[1-9]|[1-9]]. *)
Definition re_m (s : string) : list (Z * string) :=
  re_two "1" "1" "0" "2" s ++ re_two "0" "0" "1" "9" s ++ re_one "1" "9" s.

(** [%d] is [3[0-1]|[1-2]\d|0[1-9]|[1-9]| [1-9]]. *)
Definition re_d (s : string) : list (Z * string) :=
  re_two "3" "3" "0" "1" s ++ re_two "1" "2" "0" "9" s
  ++ re_two "0" "0" "1" "9" s ++ re_one "1" "9" s ++ re_space_one s.

Definition re_lit (c : ascii) (s : string) : list string :=
  match s with
  | String a r => if Ascii.eqb a c then [r] else []
  | _ => []
  end.

(** The tails [-%m] and [-%m-%d] of the two formats. *)
Definition re_dash_m (s : string) : list (Z * string) :=
  r ← re_lit "-" s; re_m r.

Definition re_dash_m_dash_d (s : string) : list (Z * Z * string) :=
  '(m, r1) ← re_dash_m s;
  r2 ← re_lit "-" r1;
  '(d, r3) ← re_d r2;
  [(m, d, r3)].

(** [format_regex.match(data_string)] for ['%Y-%m-%d']: the first match in
    backtracking order, with the text left after it. *)
Definition match_Ymd (s : string) : option (Z * Z * Z * string) :=
  head ('(y, r1) ← re_Y s;
        '(m, d, r2) ← re_dash_m_dash_d r1;
        [(y, m, d, r2)]).

(** The same for ['%Y-%m']. *)
Definition match_Ym (s : string) : option (Z * Z * string) :=
  head ('(y, r1) ← re_Y s;
        '(m, r2) ← re_dash_m r1;
        [(y, m, r2)]).

Definition _is_leap (y : Z) : bool :=
  ((y mod 4 =? 0) && (negb (y mod 100 =? 0) || (y mod 400 =? 0)))%bool.

Definition _days_in_month (y m : Z) : Z :=
  if ((m =? 2) && _is_leap y)%bool then 29
  else if (m =? 2) then 28
  else if ((m =? 4) || (m =? 6) || (m =? 9) || (m =? 11))%bool then 30
  else 31.

(** The range checks of the [date]/[datetime] constructor. *)
Definition check_date_fields (y m d : Z) : bool :=
  ((1 <=? y) && (y <=? 9999) && (1 <=? m) && (m <=? 12)
   && (1 <=? d) && (d <=? _days_in_month y m))%bool.

(** [datetime.strptime(s, '%Y-%m-%d')]: no match, unconverted data after
    the match and an impossible calendar date all raise [ValueError]. *)
Definition strptime_Ymd (s : string) : result datetime :=
  match match_Ymd s with
  | None => Raise ValueError
  | Some (y, m, d, rest) =>
      if negb (String.eqb rest "") then Raise ValueError
      else if check_date_fields y m d then Ok (mk_datetime y m d)
      else Raise ValueError
  end.

(** [datetime.strptime(s, '%Y-%m')]: the day defaults to 1. *)
Definition strptime_Ym (s : string) : result datetime :=
  match match_Ym s with
  | None => Raise ValueError
  | Some (y, m, rest) =>
      if negb (String.eqb rest "") then Raise ValueError
      else if check_date_fields y m 1 then Ok (mk_datetime y m 1)
      else Raise ValueError
  end.

Definition digit_char (d : Z) : ascii := ascii_of_N (Z.to_N (48 + d)).

Definition pad2 (n : Z) : string :=
  String (digit_char (n / 10 mod 10)) (String (digit_char (n mod 10)) "").

(** The decimal numeral of a number of at most [digits] digits, without
    padding, in front of [rest]. *)
Fixpoint decimal (digits : nat) (n : Z) (rest : string) : string :=
  match digits with
  | O => rest
  | S digits' =>
      let rest' := String (digit_char (n mod 10)) rest in
      if n <? 10 then rest' else decimal digits' (n / 10) rest'
  end.

(** [%Y] as glibc's [strftime] prints it, which CPython 3.11 calls: the
    year in decimal without padding, so a year below 1000 has fewer than
    four digits.  The year of a [datetime] is from 1 to 9999. *)
Definition year_text (y : Z) : string := decimal 4 y "".

(** [strftime('%Y-%m')]. *)
Definition strftime_Ym (t : datetime) : string :=
  year_text (year t) +:+ "-" +:+ pad2 (month t).

(** [%B] in the C locale. *)
Definition month_name (m : Z) : string :=
  match m with
  | 1 => "January" | 2 => "February" | 3 => "March" | 4 => "April"
  | 5 => "May" | 6 => "June" | 7 => "July" | 8 => "August"
  | 9 => "September" | 10 => "October" | 11 => "November"
  | _ => "December"
  end.

(** [strftime('%B %Y')]. *)
Definition strftime_BY (t : datetime) : string :=
  month_name (month t) +:+ " " +:+ year_text (year t).

End PyDate.

(* ===================================================================== *)
(** ** Python's [csv.writer] with the default dialect *)
(* ===================================================================== *)

Module Csv.

(** A value handed to [writerow]: the handlers pass ints and strs. *)
Inductive cell : Type :=
| CInt (i : Z)
| CStr (s : string).

(** [str(value)], which the writer applies to every field. *)
Definition str (c : cell) : string :=
  match c with
  | CInt i => pretty i
  | CStr s => s
  end.

Definition quotechar : ascii := "034"%char.
Definition delimiter : ascii := ","%char.
Definition CR : ascii := "013"%char.
Definition LF : ascii := "010"%char.
Definition lineterminator : string := String CR (String LF "").

(** QUOTE_MINIMAL: a field is quoted when it holds the delimiter, the quote
    character or a character of the line terminator. *)
Definition special (c : ascii) : bool :=
  (Ascii.eqb c delimiter || Ascii.eqb c quotechar
   || Ascii.eqb c CR || Ascii.eqb c LF)%bool.

Fixpoint has_special (s : string) : bool :=
  match s with
  | EmptyString => false
  | String c r => (special c || has_special r)%bool
  end.

(** doublequote=True: every quote character inside a field is doubled. *)
Fixpoint double_quotes (s : string) : string :=
  match s with
  | EmptyString => EmptyString
  | String c r =>
      if Ascii.eqb c quotechar then String c (String c (double_quotes r))
      else String c (double_quotes r)
  end.

Definition field (s : string) : string :=
  if has_special s
  then String quotechar (double_quotes s +:+ String quotechar "")
  else s.

Fixpoint join (fields : list string) : string :=
  match fields with
  | [] => ""
  | [f] => f
  | f :: fs => f +:+ String delimiter (join fs)
  end.

(** One [writer.writerow(row)]: a record that would come out empty although
    it has a field is written as a pair of quotes. *)
Definition record (row : list cell) : string :=
  let line := join (map (λ c, field (str c)) row) in
  (if (negb (Nat.eqb (length row) 0) && String.eqb line "")%bool
   then String quotechar (String quotechar "") else line)
  +:+ lineterminator.

(** The text in the [StringIO] after the given rows were written in order. *)
Definition getvalue (rows : list (list cell)) : string :=
  foldr (λ row acc, record row +:+ acc) "" rows.

End Csv.

(* ===================================================================== *)
(** ** The SQLite store *)
(* ===================================================================== *)

Record student_row : Type := mk_student { s_id : Z; s_name : string }.

Record catchup_row : Type := mk_catchup
  { c_id : Z; c_student_id : Z; c_date : string; c_lesson_missed : string }.

(** Both tables in rowid order, and the counters SQLite keeps in
    [sqlite_sequence] for the two AUTOINCREMENT keys.  Nothing in the program
    deletes or updates a row, so rowid order is insertion order. *)
Record db : Type := mk_db
  { students : list student_row; catchups : list catchup_row;
    students_seq : Z; catchups_seq : Z }.

(** [init_db()] on a fresh file. *)
Definition init_db : db := mk_db [] [] 0 0.

(** The schema's constraints: [id INTEGER PRIMARY KEY] on both tables and
    [name TEXT UNIQUE] on students. *)
Definition schema_ok (d : db) : Prop :=
  NoDup (map s_id (students d)) ∧ NoDup (map s_name (students d))
  ∧ NoDup (map c_id (catchups d)).

(** Handlers: state (the database file) and exceptions. *)
Definition M (A : Type) : Type := db → result A * db.

#[export] Instance M_ret : MRet M := λ A a d, (Ok a, d).
#[export] Instance M_bind : MBind M := λ A B f m d,
  match m d with
  | (Ok a, d') => f a d'
  | (Raise e, d') => (Raise e, d')
  end.

(** Python code that runs after the connection is closed. *)
Definition lift {A} (r : result A) : M A := λ d, (r, d).

Module Sql.

(** The rowid an AUTOINCREMENT table gives its next row: one more than the
    largest rowid the table ever used. *)
Definition next_rowid (seq : Z) (ids : list Z) : Z :=
  Z.max seq (foldr Z.max 0 ids) + 1.

(** What the sqlite3 module can bind as an INTEGER. *)
Definition fits_int64 (z : Z) : bool :=
  ((- 2 ^ 63 <=? z) && (z <? 2 ^ 63))%bool.

(** [INSERT OR IGNORE INTO students (name) VALUES (?)]: the UNIQUE
    constraint on name makes a second insert of a name leave the table as it
    is.  SQLite draws the rowid before it checks the constraint, so the
    counter advances either way. *)
Definition insert_or_ignore_student (name : string) : M unit := λ d,
  let rowid := next_rowid (students_seq d) (map s_id (students d)) in
  if existsb (λ s, String.eqb (s_name s) name) (students d)
  then (Ok tt, mk_db (students d) (catchups d) rowid (catchups_seq d))
  else (Ok tt,
        mk_db (students d ++ [mk_student rowid name]) (catchups d)
              rowid (catchups_seq d)).

(** [SELECT id, name FROM students]. *)
Definition select_students : M (list (Z * string)) := λ d,
  (Ok (map (λ s, (s_id s, s_name s)) (students d)), d).

(** [INSERT INTO catchups (student_id, date, lesson_missed)
    VALUES (?, ?, ?)]: no check against the students table. *)
Definition insert_catchup (student_id : Z) (date lesson_missed : string)
  : M unit := λ d,
  let rowid := next_rowid (catchups_seq d) (map c_id (catchups d)) in
  if fits_int64 student_id
  then (Ok tt,
        mk_db (students d)
              (catchups d ++ [mk_catchup rowid student_id date lesson_missed])
              (students_seq d) rowid)
  else (Raise OverflowError, d).

(** [SELECT id FROM students WHERE name=?] followed by [fetchone()]. *)
Definition select_student_id (name : string) : M (option Z) := λ d,
  (Ok (s_id <$> head (List.filter (λ s, String.eqb (s_name s) name)
                                  (students d))), d).

(** [SELECT date, lesson_missed FROM catchups WHERE student_id=?]: a table
    scan, rows come back in rowid order. *)
Definition select_catchups_of (student_id : Z) : M (list (string * string)) :=
  λ d,
  (Ok (map (λ c, (c_date c, c_lesson_missed c))
           (List.filter (λ c, c_student_id c =? student_id) (catchups d))), d).

(** [ORDER BY] on a TEXT column: ascending in the BINARY collation (byte by
    byte).  SQLite sorts the rows as the join produces them and keeps rows
    with equal keys in that order. *)
Fixpoint insert_by {A} (key : A → string) (x : A) (l : list A) : list A :=
  match l with
  | [] => [x]
  | y :: l' =>
      if String.leb (key x) (key y) then x :: y :: l'
      else y :: insert_by key x l'
  end.

Definition order_by {A} (key : A → string) (l : list A) : list A :=
  foldr (insert_by key) [] l.

(** [FROM students s JOIN catchups c ON s.id = c.student_id]: every pair of
    a catch-up and a student with that id, in the order of the plan SQLite
    picks for this schema (scan catchups, look the student up by rowid). *)
Definition join_rows (d : db) : list (student_row * catchup_row) :=
  c ← catchups d;
  s ← students d;
  if s_id s =? c_student_id c then [(s, c)] else [].

(** [... ORDER BY c.date] over the join. *)
Definition ordered_join (d : db) : list (student_row * catchup_row) :=
  order_by (λ '(s, c), c_date c) (join_rows d).

(** [SELECT s.name, c.date, c.student_id, c.lesson_missed FROM students s
    JOIN catchups c ON s.id = c.student_id ORDER BY c.date]. *)
Definition select_joined : M (list (string * string * Z * string)) := λ d,
  (Ok (map (λ '(s, c), (s_name s, c_date c, c_student_id c, c_lesson_missed c))
           (ordered_join d)), d).

(** [SELECT s.name, c.date, c.lesson_missed FROM students s JOIN catchups c
    ON s.id = c.student_id ORDER BY c.date]. *)
Definition select_joined_report : M (list (string * string * string)) := λ d,
  (Ok (map (λ '(s, c), (s_name s, c_date c, c_lesson_missed c))
           (ordered_join d)), d).

End Sql.

(* ===================================================================== *)
(** ** Python containers the handlers use *)
(* ===================================================================== *)

(** [enumerate(data, start=i)]. *)
Fixpoint enumerate {A} (start : Z) (data : list A) : list (Z * A) :=
  match data with
  | [] => []
  | x :: data' => (start, x) :: enumerate (start + 1) data'
  end.

(** [defaultdict(list)] keeps its keys in insertion order, and
    [d[k].append(v)] creates the key at the end the first time it is seen. *)
Fixpoint dict_append {V} (k : string) (v : V) (d : list (string * list V))
  : list (string * list V) :=
  match d with
  | [] => [(k, [v])]
  | (k', vs) :: d' =>
      if String.eqb k' k then (k', vs ++ [v]) :: d'
      else (k', vs) :: dict_append k v d'
  end.

(** A [for] loop whose body may raise. *)
Fixpoint for_each {A S} (body : S → A → result S) (l : list A) (s : S)
  : result S :=
  match l with
  | [] => Ok s
  | x :: l' => s' ← body s x; for_each body l' s'
  end.

(* ===================================================================== *)
(** ** Request and response models *)
(* ===================================================================== *)

Module Student.
Record t : Type := mk { name : string }.
End Student.

Module CatchUp.
Record t : Type := mk { student_id : Z; date : string; lesson_missed : string }.
End CatchUp.

(** The JSON object [{"message": ...}]. *)
Record message_json : Type := mk_message { message : string }.

(** The JSON object [{"id": ..., "name": ...}]. *)
Record student_json : Type := mk_student_json { id : Z; name : string }.

(** The JSON object [{"catchup_no": ..., "date": ..., "lesson_missed": ...,
    "charge": ...}]. *)
Record catchup_json : Type := mk_catchup_json
  { catchup_no : Z; date : string; lesson_missed : string; charge : string }.

(** Whether [s.encode("latin-1")] succeeds: every character is below
    U+0100.  In UTF-8 these are the single bytes and the two-byte forms led
    by 0xC2 or 0xC3; every other character starts with a byte from 0xC4
    on. *)
Fixpoint encodes_latin1 (s : string) : bool :=
  match s with
  | EmptyString => true
  | String c r => ((N_of_ascii c <? 196)%N && encodes_latin1 r)%bool
  end.

(** Starlette's [StreamingResponse]: [status_code] defaults to 200 and
    [headers] to none. *)
Record StreamingResponse : Type := mk_response
  { status_code : Z; media_type : string;
    headers : list (string * string); body : string }.

(** The constructor encodes every header name and value as latin-1 and so
    raises where one of them does not encode; the content is kept as it is
    until the response is sent. *)
Definition streaming_response (content media : string)
  (hdrs : list (string * string)) : result StreamingResponse :=
  if forallb (λ h, (encodes_latin1 h.1 && encodes_latin1 h.2)%bool) hdrs
  then Ok (mk_response 200 media hdrs content)
  else Raise UnicodeEncodeError.

(** [s.replace(' ', '_')]. *)
Fixpoint replace_spaces (s : string) : string :=
  match s with
  | EmptyString => EmptyString
  | String c r =>
      String (if Ascii.eqb c " " then "_"%char else c) (replace_spaces r)
  end.

(* ===================================================================== *)
(** ** Route handlers *)
(* ===================================================================== *)

(** ["Free" if i <= 2 else "Charge"], the expression all three reports
    share. *)
Definition charge_for (i : Z) : string := if i <=? 2 then "Free" else "Charge".

(** POST /students *)
Definition add_student (student : Student.t) : M message_json :=
  _ ← Sql.insert_or_ignore_student (Student.name student);
  mret (mk_message "Student added").

(** GET /students *)
Definition list_students : M (list student_json) :=
  rows ← Sql.select_students;
  mret (map (λ row, mk_student_json row.1 row.2) rows).

(** POST /catchups *)
Definition add_catchup (catchup : CatchUp.t) : M message_json :=
  _ ← Sql.insert_catchup (CatchUp.student_id catchup) (CatchUp.date catchup)
                         (CatchUp.lesson_missed catchup);
  mret (mk_message "Catch-up recorded").

(** GET /catchups/by_name/{student_name} *)
Definition list_catchups_by_name (student_name : string)
  : M (list catchup_json) :=
  student_id ← Sql.select_student_id student_name;
  match student_id with
  | None => mret []
  | Some sid =>
      data ← Sql.select_catchups_of sid;
      mret (map (λ '(i, row), mk_catchup_json i row.1 row.2 (charge_for i))
                (enumerate 1 data))
  end.

(** The grouping loop of GET /catchups/all. *)
Definition group_by_month (all_catchups : list (string * string * Z * string))
  : result (list (string * list (string * string * Z * string))) :=
  for_each
    (λ monthly_catchups '(name, date_str, student_id, lesson_missed),
       date_obj ← PyDate.strptime_Ymd date_str;
       let month_key := PyDate.strftime_Ym date_obj in
       mret (dict_append month_key (name, date_str, student_id, lesson_missed)
                         monthly_catchups))
    all_catchups [].

(** GET /catchups/all *)
Definition list_all_catchups
  : M (list (string * list (string * string * Z * string))) :=
  all_catchups ← Sql.select_joined;
  lift (group_by_month all_catchups).

(** The rows GET /catchups/download/by_name writes for a known student. *)
Definition student_report_rows (student_name : string)
  (data : list (string * string)) : list (list Csv.cell) :=
  [Csv.CStr ("Catch-up Tracker Report for " +:+ student_name)]
  :: [Csv.CStr "Catch-up Number"; Csv.CStr "Date"; Csv.CStr "Lesson Missed";
      Csv.CStr "Status"]
  :: map (λ '(i, row),
            [Csv.CInt i; Csv.CStr row.1; Csv.CStr row.2;
             Csv.CStr (charge_for i)])
         (enumerate 1 data).

(** GET /catchups/download/by_name/{student_name} *)
Definition download_catchups_by_name (student_name : string)
  : M StreamingResponse :=
  student_id ← Sql.select_student_id student_name;
  match student_id with
  | None => lift (streaming_response "Student not found." "text/plain" [])
  | Some sid =>
      data ← Sql.select_catchups_of sid;
      lift (streaming_response
              (Csv.getvalue (student_report_rows student_name data))
              "text/csv"
              [("Content-Disposition",
                "attachment; filename=catchups_report_"
                +:+ replace_spaces student_name +:+ ".csv")])
  end.

(** The grouping loop of GET /catchups/download/all. *)
Definition group_report_by_month (data : list (string * string * string))
  : result (list (string * list (string * string * string))) :=
  for_each
    (λ monthly_data '(student_name, catchup_date, lesson_missed),
       t ← PyDate.strptime_Ymd catchup_date;
       let month_key := PyDate.strftime_Ym t in
       mret (dict_append month_key (student_name, catchup_date, lesson_missed)
                         monthly_data))
    data [].

(** The inner loop of GET /catchups/download/all: one data row per entry of
    a month, under a [defaultdict(int)] that starts empty. *)
Definition month_rows_from (count : gmap string Z)
  (entries : list (string * string * string))
  : gmap string Z * list (list Csv.cell) :=
  fold_left
    (λ '(student_catchup_count, written) '(student_name, catchup_date, lesson_missed),
       let student_catchup_count :=
         <[student_name := default 0 (student_catchup_count !! student_name) + 1]>
           student_catchup_count in
       let charge_status :=
         charge_for (default 0 (student_catchup_count !! student_name)) in
       (student_catchup_count,
        written ++ [[Csv.CStr student_name; Csv.CStr catchup_date;
                     Csv.CStr lesson_missed; Csv.CStr charge_status]]))
    entries (count, []).

(** The data rows of one month: the counter starts empty. *)
Definition month_rows (entries : list (string * string * string))
  : list (list Csv.cell) :=
  (month_rows_from ∅ entries).2.

(** The rows one iteration of the outer loop writes. *)
Definition month_section (month_key : string)
  (entries : list (string * string * string)) : result (list (list Csv.cell)) :=
  t ← PyDate.strptime_Ym month_key;
  let month_name := PyDate.strftime_BY t in
  mret ([Csv.CStr ("Month: " +:+ month_name)]
        :: [Csv.CStr "Student Name"; Csv.CStr "Catch-up Date";
            Csv.CStr "Lesson Missed"; Csv.CStr "Status"]
        :: month_rows entries ++ [[]]).

(** All rows GET /catchups/download/all writes. *)
Definition full_report_rows (data : list (string * string * string))
  : result (list (list Csv.cell)) :=
  monthly_data ← group_report_by_month data;
  sections ← for_each
    (λ written '(month_key, entries),
       rows ← month_section month_key entries;
       mret (written ++ rows))
    monthly_data [];
  mret ([Csv.CStr "Catch-up Tracker - Full Report"] :: [] :: sections).

(** GET /catchups/download/all *)
Definition download_all_catchups : M StreamingResponse :=
  data ← Sql.select_joined_report;
  rows ← lift (full_report_rows data);
  lift (streaming_response
          (Csv.getvalue rows) "text/csv"
          [("Content-Disposition",
            "attachment; filename=all_catchups_monthly_report.csv")]).

(* ===================================================================== *)
(** ** Running the service *)
(* ===================================================================== *)

Inductive request : Type :=
| POST_students (student : Student.t)
| GET_students
| POST_catchups (catchup : CatchUp.t)
| GET_catchups_by_name (student_name : string)
| GET_catchups_all
| GET_catchups_download_by_name (student_name : string)
| GET_catchups_download_all.

(** The database a request leaves behind. *)
Definition handle (r : request) (d : db) : db :=
  match r with
  | POST_students student => (add_student student d).2
  | GET_students => (list_students d).2
  | POST_catchups catchup => (add_catchup catchup d).2
  | GET_catchups_by_name n => (list_catchups_by_name n d).2
  | GET_catchups_all => (list_all_catchups d).2
  | GET_catchups_download_by_name n => (download_catchups_by_name n d).2
  | GET_catchups_download_all => (download_all_catchups d).2
  end.

(** The database after a history of requests, oldest first. *)
Definition serve (history : list request) (d : db) : db :=
  fold_left (λ d r, handle r d) history d.

(* ===================================================================== *)
(** ** Vocabulary of the properties *)
(* ===================================================================== *)

(** The catch-ups a history recorded for one student id, oldest first:
    the POST /catchups bodies with that id which the store took. *)
Definition recorded_for (sid : Z) (history : list request) : list CatchUp.t :=
  omap (λ r,
          match r with
          | POST_catchups cu =>
              if ((CatchUp.student_id cu =? sid)
                  && Sql.fits_int64 (CatchUp.student_id cu))%bool
              then Some cu else None
          | _ => None
          end) history.

(** The id a student name resolves to, if any. *)
Definition resolve (student_name : string) (d : db) : option Z :=
  s_id <$> head (List.filter (λ s, String.eqb (s_name s) student_name)
                             (students d)).

(** The student records that carry a name. *)
Definition named (student_name : string) (d : db) : list student_row :=
  List.filter (λ s, String.eqb (s_name s) student_name) (students d).

(** The rows [SELECT date, lesson_missed FROM catchups WHERE student_id=?]
    fetches. *)
Definition rows_of_student (sid : Z) (d : db) : list (string * string) :=
  map (λ c, (c_date c, c_lesson_missed c))
      (List.filter (λ c, c_student_id c =? sid) (catchups d)).

(** The by-name report over fetched rows. *)
Definition report_of (data : list (string * string)) : list catchup_json :=
  map (λ '(i, row), mk_catchup_json i row.1 row.2 (charge_for i))
      (enumerate 1 data).

(** The rows the two join queries fetch. *)
Definition joined (d : db) : list (string * string * Z * string) :=
  map (λ '(s, c), (s_name s, c_date c, c_student_id c, c_lesson_missed c))
      (Sql.ordered_join d).

(** The same rows without the student id, as the full report fetches them. *)
Definition joined_report (d : db) : list (string * string * string) :=
  map (λ '(s, c), (s_name s, c_date c, c_lesson_missed c)) (Sql.ordered_join d).

(** Keys in the order a left-to-right scan first meets them. *)
Definition see (seen : list string) (k : string) : list string :=
  if existsb (String.eqb k) seen then seen else seen ++ [k].

Definition first_seen (ks : list string) : list string := fold_left see ks [].

(** Ascending order of the date text, as [ORDER BY c.date] gives it. *)
Definition date_le {A} (date_of : A → string) (a b : A) : Prop :=
  String.le (date_of a) (date_of b).

(** Rows grouped under their keys: the keys in first-seen order, each with
    the rows that carry it, in scan order. *)
Definition grouped {A} (key : A → string) (rows : list A)
  : list (string * list A) :=
  map (λ k, (k, List.filter (λ r, String.eqb (key r) k) rows))
      (first_seen (map key rows)).

(** The month key of a date string [strptime] accepts (and the empty string,
    which is no month key, for the others). *)
Definition month_key_of (date_str : string) : string :=
  match PyDate.strptime_Ymd date_str with
  | Ok t => PyDate.strftime_Ym t
  | Raise _ => ""
  end.

(** Whether [strptime] parses a date string. *)
Definition accepted (date_str : string) : bool :=
  is_Ok (PyDate.strptime_Ymd date_str).

(** How often a student name occurs among report entries. *)
Definition occurrences (student_name : string)
  (entries : list (string * string * string)) : Z :=
  Z.of_nat (length (List.filter (λ e, String.eqb e.1.1 student_name) entries)).

(** Whether the full report can be written with a date in it: [strptime]
    parses the date and its year has four digits, so that the month key
    printed from it reads back under ['%Y-%m']. *)
Definition reportable (date_str : string) : bool :=
  match PyDate.strptime_Ymd date_str with
  | Ok t => 1000 <=? PyDate.year t
  | Raise _ => false
  end.

(** Reading a month key: a decimal year, a dash and a two-digit month give
    the month counted in months. *)
Fixpoint read_month_key (year : option Z) (key : string) : option Z :=
  match key with
  | EmptyString => None
  | String c rest =>
      if Ascii.eqb c "-" then
        match year, rest with
        | Some y, String a (String b EmptyString) =>
            if (PyDate.is_digit a && PyDate.is_digit b)%bool
            then Some (12 * y + (10 * PyDate.digit_val a + PyDate.digit_val b))
            else None
        | _, _ => None
        end
      else if PyDate.is_digit c
      then read_month_key (Some (10 * default 0 year + PyDate.digit_val c)) rest
      else None
  end.

(** The month a key names, counted in months, when it is a month key. *)
Definition month_ordinal (key : string) : option Z := read_month_key None key.

(** Both keys name a month, the first an earlier one. *)
Definition month_before (k1 k2 : string) : Prop :=
  ∃ o1 o2, month_ordinal k1 = Some o1 ∧ month_ordinal k2 = Some o2 ∧ o1 < o2.

(** Month keys in chronological order. *)
Definition chronological (keys : list string) : Prop :=
  StronglySorted month_before keys.

(** A valid ISO calendar date [YYYY-MM-DD]: ten characters, zero-padded
    fields, a day that exists in that month, years 0001 to 9999 (the dates
    Python's [date] holds). *)
Definition is_iso_date (s : string) : bool :=
  match s with
  | String y1 (String y2 (String y3 (String y4 (String h1
      (String m1 (String m2 (String h2 (String d1 (String d2 EmptyString))))))))) =>
      let y := 1000 * PyDate.digit_val y1 + 100 * PyDate.digit_val y2
               + 10 * PyDate.digit_val y3 + PyDate.digit_val y4 in
      let m := 10 * PyDate.digit_val m1 + PyDate.digit_val m2 in
      let d := 10 * PyDate.digit_val d1 + PyDate.digit_val d2 in
      (PyDate.is_digit y1 && PyDate.is_digit y2 && PyDate.is_digit y3
       && PyDate.is_digit y4 && Ascii.eqb h1 "-"
       && PyDate.is_digit m1 && PyDate.is_digit m2 && Ascii.eqb h2 "-"
       && PyDate.is_digit d1 && PyDate.is_digit d2
       && (1 <=? y) && (1 <=? m) && (m <=? 12)
       && (1 <=? d) && (d <=? PyDate._days_in_month y m))%bool
  | _ => false
  end.

(** The title in a month section of the full report. *)
Definition month_title (month_key : string) : string :=
  match PyDate.strptime_Ym month_key with
  | Ok t => PyDate.strftime_BY t
  | Raise _ => ""
  end.

(** The rows of one month section of the full report. *)
Definition section_rows (month_key : string)
  (entries : list (string * string * string)) : list (list Csv.cell) :=
  [Csv.CStr ("Month: " +:+ month_title month_key)]
  :: [Csv.CStr "Student Name"; Csv.CStr "Catch-up Date";
      Csv.CStr "Lesson Missed"; Csv.CStr "Status"]
  :: month_rows entries ++ [[]].


(* ===================================================================== *)
(** ** Sample histories *)
(* ===================================================================== *)

(** The end-to-end example: Ana and three catch-ups in March. *)
Definition ana_history : list request :=
  [POST_students (Student.mk "Ana");
   POST_catchups (CatchUp.mk 1 "2024-03-01" "L1");
   POST_catchups (CatchUp.mk 1 "2024-03-15" "L2");
   POST_catchups (CatchUp.mk 1 "2024-03-20" "L3")].

(** Two catch-ups in January and one in February for Ana. *)
Definition jan_feb_history : list request :=
  [POST_students (Student.mk "Ana");
   POST_students (Student.mk "Bob");
   POST_catchups (CatchUp.mk 1 "2024-01-08" "L1");
   POST_catchups (CatchUp.mk 2 "2024-01-09" "B1");
   POST_catchups (CatchUp.mk 1 "2024-01-22" "L2");
   POST_catchups (CatchUp.mk 1 "2024-02-05" "L3")].

(** Dates with an unpadded month, which [strptime] accepts. *)
Definition unpadded_history : list request :=
  [POST_students (Student.mk "Ana");
   POST_catchups (CatchUp.mk 1 "2024-9-01" "L1");
   POST_catchups (CatchUp.mk 1 "2024-10-01" "L2")].

(** A date with unpadded month and day. *)
Definition lenient_history : list request :=
  [POST_students (Student.mk "Ana");
   POST_catchups (CatchUp.mk 1 "2024-3-1" "L1")].

(** A valid calendar date in the year 999. *)
Definition short_year_history : list request :=
  [POST_students (Student.mk "Ana");
   POST_catchups (CatchUp.mk 1 "0999-01-05" "L1")].


(* ===================================================================== *)
(** ** Checks run by enumeration *)
(* ===================================================================== *)

(** A year prints as four digits that read back as it when it has four
    digits, and as fewer than four characters when it is below 1000. *)
Definition year_text_checked (y : Z) : bool :=
  match PyDate.year_text y with
  | String a (String b (String c (String d EmptyString))) =>
      (PyDate.is_digit a && PyDate.is_digit b && PyDate.is_digit c
       && PyDate.is_digit d
       && (1000 * PyDate.digit_val a + 100 * PyDate.digit_val b
           + 10 * PyDate.digit_val c + PyDate.digit_val d =? y)
       && (1000 <=? y))%bool
  | String a (String b (String c EmptyString)) =>
      (PyDate.is_digit a && PyDate.is_digit b && PyDate.is_digit c
       && (y <? 1000))%bool
  | String a (String b EmptyString) =>
      (PyDate.is_digit a && PyDate.is_digit b && (y <? 1000))%bool
  | String a EmptyString => (PyDate.is_digit a && (y <? 1000))%bool
  | _ => false
  end.

(** The number a string of decimal digits spells, after the digits read so
    far. *)
Fixpoint read_digits (acc : Z) (s : string) : option Z :=
  match s with
  | EmptyString => Some acc
  | String c r =>
      if PyDate.is_digit c then read_digits (10 * acc + PyDate.digit_val c) r
      else None
  end.

(** The text of a year is a non-empty string of digits that spells it. *)
Definition year_text_reads_back (y : Z) : bool :=
  match PyDate.year_text y, read_digits 0 (PyDate.year_text y) with
  | String _ _, Some v => v =? y
  | _, _ => false
  end.

(** Both checks for the year with the decimal digits [a b c e]; the year 0
    is no year of a [datetime]. *)
Definition year_digits_checked (a b c e : Z) : bool :=
  let y := 1000 * a + 100 * b + 10 * c + e in
  ((y =? 0) || (year_text_checked y && year_text_reads_back y))%bool.

(** A month prints as two digits that spell it. *)
Definition pad2_reads_back (m : Z) : bool :=
  match PyDate.pad2 m with
  | String a (String b EmptyString) =>
      (PyDate.is_digit a && PyDate.is_digit b
       && (10 * PyDate.digit_val a + PyDate.digit_val b =? m))%bool
  | _ => false
  end.

(** A dash and a two-digit month read back as that month, nothing left. *)
Definition dash_month_reads_back (m : Z) : bool :=
  match PyDate.re_dash_m ("-" +:+ PyDate.pad2 m) with
  | (m', EmptyString) :: _ => m' =? m
  | _ => false
  end.

(** The text [-ab-ce] for four digit values. *)
Definition iso_tail (a b c e : Z) : string :=
  String "-" (String (PyDate.digit_char a) (String (PyDate.digit_char b)
    (String "-" (String (PyDate.digit_char c) (String (PyDate.digit_char e) ""))))).

(** When [ab] is a month and [ce] a day of some month, [-ab-ce] reads back
    as them, nothing left. *)
Definition tail_reads_back (a b c e : Z) : bool :=
  if ((1 <=? 10 * a + b) && (10 * a + b <=? 12)
      && (1 <=? 10 * c + e) && (10 * c + e <=? 31))%bool
  then match head (PyDate.re_dash_m_dash_d (iso_tail a b c e)) with
       | Some (m, d, EmptyString) => ((m =? 10 * a + b) && (d =? 10 * c + e))%bool
       | _ => false
       end
  else true.

(** The numbers four and two digit characters spell. *)
Definition val4 (a b c d : ascii) : Z :=
  1000 * PyDate.digit_val a + 100 * PyDate.digit_val b
  + 10 * PyDate.digit_val c + PyDate.digit_val d.

Definition val2 (a b : ascii) : Z := 10 * PyDate.digit_val a + PyDate.digit_val b.

(* ===================================================================== *)
(** * Further vocabulary: histories, counts and the schema file *)
(* ===================================================================== *)

(** The names a history posted to /students, oldest first. *)
Definition posted_names (history : list request) : list string :=
  omap (λ r,
          match r with
          | POST_students student => Some (Student.name student)
          | _ => None
          end) history.

(** Whether some student carries a catch-up's student id. *)
Definition registered (d : db) (c : catchup_row) : bool :=
  existsb (λ s, s_id s =? c_student_id c) (students d).

(** A written data row of a student with a given status. *)
Definition has_status (student_name status : string) (row : list Csv.cell)
  : bool :=
  match row with
  | [Csv.CStr n; _; _; Csv.CStr st] =>
      (String.eqb n student_name && String.eqb st status)%bool
  | _ => false
  end.

(** How many written rows a student has with a given status. *)
Definition status_count (student_name status : string)
  (rows : list (list Csv.cell)) : Z :=
  Z.of_nat (length (List.filter (has_status student_name status) rows)).

(** How many entries of a by-name report carry a given charge. *)
Definition charge_count (status : string) (report : list catchup_json) : Z :=
  Z.of_nat (length (List.filter (λ r, String.eqb (charge r) status) report)).

(** A joined row without its student id column: the projection the
    download's join query selects. *)
Definition drop_student_id (r : string * string * Z * string)
  : string * string * string := (r.1.1.1, r.1.1.2, r.2).

(** Student ids are positive and ascend along the table. *)
Definition ids_ascending (d : db) : Prop :=
  StronglySorted Z.lt (map s_id (students d))
  ∧ Forall (λ i, 0 < i) (map s_id (students d)).


(** A sum over the month groups of a report. *)
Definition sum_over {A} (f : A → Z) (l : list A) : Z :=
  foldr (λ x acc, f x + acc) 0 l.

(* ===================================================================== *)
(** ** The database file and [init_db()] *)
(* ===================================================================== *)

Module Schema.

(** The error [init_db] catches. *)
Inductive sqlite_error : Type := OperationalError.

(** A catchups row as the file holds it: in a table that an earlier run
    created without the [lesson_missed] column, and in rows written before
    the column was added, the lesson is NULL. *)
Record catchup_record : Type := mk_record
  { r_id : Z; r_student_id : Z; r_date : string;
    r_lesson_missed : option string }.

Record catchups_table : Type := mk_table
  { has_lesson_missed : bool; records : list catchup_record }.

(** The file, as this program or an earlier version of it without the
    [lesson_missed] column left it: each table is there or not, and the
    catchups table has the column or not. *)
Record file : Type := mk_file
  { students_table : option (list student_row);
    catchups_table_of : option catchups_table;
    sequences : Z * Z }.

(** What [sqlite3.connect] finds when there is no file yet. *)
Definition no_file : file := mk_file None None (0, 0).

(** [CREATE TABLE IF NOT EXISTS students (...)]. *)
Definition create_students (f : file) : file :=
  match students_table f with
  | Some _ => f
  | None => mk_file (Some []) (catchups_table_of f) (sequences f)
  end.

(** [CREATE TABLE IF NOT EXISTS catchups (..., lesson_missed TEXT, ...)]. *)
Definition create_catchups (f : file) : file :=
  match catchups_table_of f with
  | Some _ => f
  | None => mk_file (students_table f) (Some (mk_table true [])) (sequences f)
  end.

(** [ALTER TABLE catchups ADD COLUMN lesson_missed TEXT]: an error when the
    table already has the column (or there is no such table); else the rows
    stay and read NULL in the new column. *)
Definition add_lesson_missed (f : file) : sqlite_error + file :=
  match catchups_table_of f with
  | None => inl OperationalError
  | Some t =>
      if has_lesson_missed t then inl OperationalError
      else inr (mk_file (students_table f)
                        (Some (mk_table true (records t))) (sequences f))
  end.

(** [init_db()]: the two CREATE statements, then the ALTER inside
    [try ... except sqlite3.OperationalError: pass]. *)
Definition init_db (f : file) : file :=
  let f := create_students f in
  let f := create_catchups f in
  match add_lesson_missed f with
  | inr f' => f'
  | inl OperationalError => f
  end.

(** The store the handlers see in a file whose catch-ups all have a lesson. *)
Definition catchup_of (r : catchup_record) : option catchup_row :=
  mk_catchup (r_id r) (r_student_id r) (r_date r) <$> r_lesson_missed r.

Definition to_db (f : file) : option db :=
  sts ← students_table f;
  t ← catchups_table_of f;
  if has_lesson_missed t
  then cs ← mapM catchup_of (records t);
       Some (mk_db sts cs (sequences f).1 (sequences f).2)
  else None.

End Schema.

(* ===================================================================== *)
(** ** More sample histories *)
(* ===================================================================== *)

(** A catch-up recorded under id 2 before the second student registers. *)
Definition early_catchup_history : list request :=
  [POST_students (Student.mk "Ana");
   POST_catchups (CatchUp.mk 2 "2024-03-02" "early")].

(** Three catch-ups in January and three in February for one student. *)
Definition busy_history : list request :=
  [POST_students (Student.mk "Ana");
   POST_catchups (CatchUp.mk 1 "2024-01-08" "L1");
   POST_catchups (CatchUp.mk 1 "2024-01-15" "L2");
   POST_catchups (CatchUp.mk 1 "2024-01-22" "L3");
   POST_catchups (CatchUp.mk 1 "2024-02-05" "L4");
   POST_catchups (CatchUp.mk 1 "2024-02-12" "L5");
   POST_catchups (CatchUp.mk 1 "2024-02-19" "L6")].

(** A date that is no date, posted for a registered student. *)
Definition bad_date_history : list request :=
  [POST_students (Student.mk "Ana");
   POST_catchups (CatchUp.mk 1 "next week" "L1")].

(** A name with spaces. *)
Definition spaced_name_history : list request :=
  [POST_students (Student.mk "Ana Maria Lopez")].

(* ===================================================================== *)
(** * Properties *)
(* ===================================================================== *)

(** ** [strptime] and [strftime] on sample inputs *)
Example strptime_padded :
  PyDate.strptime_Ymd "2024-03-15" = Ok (PyDate.mk_datetime 2024 3 15).
Proof. reflexivity. Qed.

Example strptime_unpadded :
  PyDate.strptime_Ymd "2024-3-1" = Ok (PyDate.mk_datetime 2024 3 1).
Proof. reflexivity. Qed.

Example strptime_space_day :
  PyDate.strptime_Ymd "2024-03- 5" = Ok (PyDate.mk_datetime 2024 3 5).
Proof. reflexivity. Qed.

Example strptime_feb30 : PyDate.strptime_Ymd "2024-02-30" = Raise ValueError.
Proof. reflexivity. Qed.

Example strptime_trailing : PyDate.strptime_Ymd "2024-03-311" = Raise ValueError.
Proof. reflexivity. Qed.

Example strptime_garbage : PyDate.strptime_Ymd "next week" = Raise ValueError.
Proof. reflexivity. Qed.

Example strftime_key :
  PyDate.strftime_Ym (PyDate.mk_datetime 2024 3 1) = "2024-03".
Proof. reflexivity. Qed.

Example year_text_samples :
  map PyDate.year_text [1; 10; 999; 1000; 2024; 9999]
  = map pretty [1; 10; 999; 1000; 2024; 9999].
Proof. reflexivity. Qed.

Example strftime_key_short_year :
  PyDate.strptime_Ymd "0999-01-05" = Ok (PyDate.mk_datetime 999 1 5)
  ∧ PyDate.strftime_Ym (PyDate.mk_datetime 999 1 5) = "999-01"
  ∧ PyDate.strptime_Ym "999-01" = Raise ValueError.
Proof. repeat split. Qed.

(** ** [str.encode("latin-1")] on sample names *)

Example utf8_bytes :
  "Zoë" = String "Z" (String "o" (String "195" (String "171" "")))
  ∧ "李" = String "230" (String "157" (String "142" "")).
Proof. split; reflexivity. Qed.

Example latin1_names :
  encodes_latin1 "Ana" = true ∧ encodes_latin1 "Zoë" = true
  ∧ encodes_latin1 "李" = false ∧ encodes_latin1 "Erdős" = false.
Proof. repeat split. Qed.

(** ** [csv.writer] on sample rows *)

Example csv_plain_row :
  Csv.record [Csv.CInt 3; Csv.CStr "2024-03-20"; Csv.CStr "L3"; Csv.CStr "Charge"]
  = "3,2024-03-20,L3,Charge" +:+ Csv.lineterminator.
Proof. reflexivity. Qed.

Example csv_quoted_field :
  Csv.record [Csv.CStr "Doe, Jane"; Csv.CStr "L1"]
  = String Csv.quotechar ("Doe, Jane" +:+ String Csv.quotechar ",L1")
    +:+ Csv.lineterminator.
Proof. reflexivity. Qed.

Example title_with_line_break :
  Csv.record [Csv.CStr ("Catch-up Tracker Report for "
                        +:+ "Ana" +:+ String Csv.LF "Lee")]
  = String Csv.quotechar
      ("Catch-up Tracker Report for Ana"
       +:+ String Csv.LF ("Lee" +:+ String Csv.quotechar ""))
    +:+ Csv.lineterminator.
Proof. reflexivity. Qed.

Example csv_blank_row : Csv.record [] = Csv.lineterminator.
Proof. reflexivity. Qed.

Example csv_single_empty_field :
  Csv.record [Csv.CStr ""]
  = String Csv.quotechar (String Csv.quotechar "") +:+ Csv.lineterminator.
Proof. reflexivity. Qed.

(** ** SQLite rowids on a sample history *)

Example ignored_insert_draws_a_rowid :
  students (serve [POST_students (Student.mk "Ana");
                   POST_students (Student.mk "Ana");
                   POST_students (Student.mk "Bob")] init_db)
  = [mk_student 1 "Ana"; mk_student 3 "Bob"].
Proof. reflexivity. Qed.

Example equal_dates_keep_insertion_order :
  joined (serve [POST_students (Student.mk "Ana");
                 POST_students (Student.mk "Bob");
                 POST_catchups (CatchUp.mk 2 "2024-01-10" "b1");
                 POST_catchups (CatchUp.mk 1 "2024-01-10" "a1");
                 POST_catchups (CatchUp.mk 2 "2024-01-09" "b0")] init_db)
  = [("Bob", "2024-01-09", 2, "b0"); ("Bob", "2024-01-10", 2, "b1");
     ("Ana", "2024-01-10", 1, "a1")].
Proof. reflexivity. Qed.

(** ** Handlers as equations *)

Lemma list_catchups_by_name_eq (student_name : string) (d : db) :
  list_catchups_by_name student_name d =
  (Ok (match resolve student_name d with
       | None => []
       | Some sid => report_of (rows_of_student sid d)
       end), d).
Proof.
  unfold list_catchups_by_name, resolve, mbind, M_bind, Sql.select_student_id.
  destruct (head _) as [s|]; reflexivity.
Qed.

Lemma encodes_latin1_app s1 s2 :
  encodes_latin1 (s1 +:+ s2) = (encodes_latin1 s1 && encodes_latin1 s2)%bool.
Proof.
  induction s1 as [|c s1 IH]; simpl; [done|]. by rewrite IH, andb_assoc.
Qed.

Lemma encodes_latin1_replace_spaces s :
  encodes_latin1 (replace_spaces s) = encodes_latin1 s.
Proof.
  induction s as [|c s IH]; simpl; [done|]. rewrite IH.
  by destruct (Ascii.eqb_spec c " ") as [->|].
Qed.

Lemma streaming_response_attachment content media prefix student_name :
  encodes_latin1 prefix = true →
  streaming_response content media
    [("Content-Disposition",
      prefix +:+ replace_spaces student_name +:+ ".csv")]
  = if encodes_latin1 student_name
    then Ok (mk_response 200 media
               [("Content-Disposition",
                 prefix +:+ replace_spaces student_name +:+ ".csv")] content)
    else Raise UnicodeEncodeError.
Proof.
  intros Hp. unfold streaming_response. cbn [forallb fst snd].
  rewrite !encodes_latin1_app, encodes_latin1_replace_spaces, Hp.
  change (encodes_latin1 "Content-Disposition") with true.
  change (encodes_latin1 ".csv") with true.
  by destruct (encodes_latin1 student_name).
Qed.

Lemma download_catchups_by_name_eq (student_name : string) (d : db) :
  download_catchups_by_name student_name d =
  (match resolve student_name d with
   | None => Ok (mk_response 200 "text/plain" [] "Student not found.")
   | Some sid =>
       if encodes_latin1 student_name
       then Ok (mk_response 200 "text/csv"
                  [("Content-Disposition",
                    "attachment; filename=catchups_report_"
                    +:+ replace_spaces student_name +:+ ".csv")]
                  (Csv.getvalue
                     (student_report_rows student_name (rows_of_student sid d))))
       else Raise UnicodeEncodeError
   end, d).
Proof.
  unfold download_catchups_by_name, resolve, mbind, M_bind, Sql.select_student_id.
  destruct (head _) as [s|]; [|reflexivity].
  unfold Sql.select_catchups_of, lift.
  change (s_id <$> Some s) with (Some (s_id s)). cbv beta iota.
  by rewrite streaming_response_attachment.
Qed.

Lemma resolve_None (student_name : string) (d : db) :
  resolve student_name d = None ↔
  Forall (λ s, s_name s ≠ student_name) (students d).
Proof.
  unfold resolve. induction (students d) as [|s l IH]; simpl.
  - split; [constructor | reflexivity].
  - destruct (String.eqb_spec (s_name s) student_name) as [E|E]; simpl.
    + split; [discriminate | inversion 1; contradiction].
    + rewrite IH. split; [by constructor | by inversion 1].
Qed.

Lemma resolve_Some (student_name : string) (d : db) (sid : Z) :
  resolve student_name d = Some sid →
  ∃ s, s ∈ students d ∧ s_name s = student_name ∧ s_id s = sid.
Proof.
  unfold resolve. induction (students d) as [|s l IH]; simpl; [discriminate|].
  destruct (String.eqb_spec (s_name s) student_name) as [E|E]; simpl.
  - intros [= <-]. exists s. split; [left | done].
  - intros H. destruct (IH H) as (s' & ? & ? & ?). exists s'. split; [by right | done].
Qed.

(** ** Reads and writes *)
Lemma list_students_frame d : (list_students d).2 = d.
Proof. reflexivity. Qed.

Lemma list_all_catchups_frame d : (list_all_catchups d).2 = d.
Proof. reflexivity. Qed.

Lemma download_all_catchups_frame d : (download_all_catchups d).2 = d.
Proof.
  unfold download_all_catchups, mbind, M_bind, lift. simpl.
  destruct (full_report_rows _); reflexivity.
Qed.

Lemma list_catchups_by_name_frame n d : (list_catchups_by_name n d).2 = d.
Proof. by rewrite list_catchups_by_name_eq. Qed.

Lemma download_catchups_by_name_frame n d : (download_catchups_by_name n d).2 = d.
Proof. by rewrite download_catchups_by_name_eq. Qed.

Lemma add_student_eq student d :
  add_student student d =
  (Ok (mk_message "Student added"),
   let rowid := Sql.next_rowid (students_seq d) (map s_id (students d)) in
   mk_db (if existsb (λ s, String.eqb (s_name s) (Student.name student))
                     (students d)
          then students d
          else students d ++ [mk_student rowid (Student.name student)])
         (catchups d) rowid (catchups_seq d)).
Proof.
  unfold add_student, mbind, M_bind, Sql.insert_or_ignore_student.
  destruct (existsb _ _); reflexivity.
Qed.

Lemma add_catchup_eq cu d :
  add_catchup cu d =
  if Sql.fits_int64 (CatchUp.student_id cu)
  then (Ok (mk_message "Catch-up recorded"),
        mk_db (students d)
              (catchups d
               ++ [mk_catchup
                     (Sql.next_rowid (catchups_seq d) (map c_id (catchups d)))
                     (CatchUp.student_id cu) (CatchUp.date cu)
                     (CatchUp.lesson_missed cu)])
              (students_seq d)
              (Sql.next_rowid (catchups_seq d) (map c_id (catchups d))))
  else (Raise OverflowError, d).
Proof.
  unfold add_catchup, mbind, M_bind, Sql.insert_catchup.
  destruct (Sql.fits_int64 _); reflexivity.
Qed.

(** ** The by-name report *)
Lemma enumerate_lookup {A} (l : list A) (start : Z) (n : nat) :
  enumerate start l !! n = (λ x, (start + Z.of_nat n, x)) <$> l !! n.
Proof.
  revert start n. induction l as [|x l IH]; intros start [|n]; simpl; try done.
  - by rewrite Z.add_0_r.
  - rewrite IH. destruct (l !! n); simpl; [|done]. do 2 f_equal. lia.
Qed.

Lemma enumerate_length {A} (l : list A) (start : Z) :
  length (enumerate start l) = length l.
Proof. revert start. induction l; intros; simpl; [done | by rewrite IHl]. Qed.

Lemma report_of_lookup data n :
  report_of data !! n =
  (λ row, mk_catchup_json (Z.of_nat n + 1) row.1 row.2 (charge_for (Z.of_nat n + 1)))
    <$> data !! n.
Proof.
  unfold report_of. rewrite list_lookup_fmap, enumerate_lookup.
  destruct (data !! n); simpl; [|done]. by rewrite (Z.add_comm 1).
Qed.

Lemma charge_for_Free i : charge_for i = "Free" ↔ i ≤ 2.
Proof. unfold charge_for. destruct (Z.leb_spec i 2); split; (done || lia). Qed.

Lemma charge_for_Charge i : charge_for i = "Charge" ↔ 3 ≤ i.
Proof. unfold charge_for. destruct (Z.leb_spec i 2); split; (done || lia). Qed.

(** ** Catch-ups recorded by a history *)
Lemma rows_of_student_handle sid r d :
  rows_of_student sid (handle r d) =
  rows_of_student sid d
  ++ map (λ cu, (CatchUp.date cu, CatchUp.lesson_missed cu)) (recorded_for sid [r]).
Proof.
  destruct r as [st| |cu|n| |n|]; simpl;
    rewrite ?list_catchups_by_name_frame, ?download_catchups_by_name_frame,
            ?download_all_catchups_frame, ?app_nil_r; try done.
  - rewrite add_student_eq; simpl. by destruct (existsb _ _).
  - rewrite add_catchup_eq. destruct (Sql.fits_int64 _); simpl.
    + unfold rows_of_student; simpl. rewrite List.filter_app, map_app; simpl.
      rewrite andb_true_r. by destruct (_ =? _).
    + by rewrite andb_false_r, app_nil_r.
Qed.

Lemma recorded_for_app sid h1 h2 :
  recorded_for sid (h1 ++ h2) = recorded_for sid h1 ++ recorded_for sid h2.
Proof. apply omap_app. Qed.

Lemma rows_of_student_serve sid history d :
  rows_of_student sid (serve history d) =
  rows_of_student sid d
  ++ map (λ cu, (CatchUp.date cu, CatchUp.lesson_missed cu)) (recorded_for sid history).
Proof.
  revert d. induction history as [|r h IH]; intros d.
  - simpl. by rewrite app_nil_r.
  - change (serve (r :: h) d) with (serve h (handle r d)).
    rewrite IH, rows_of_student_handle.
    change (recorded_for sid (r :: h)) with (recorded_for sid ([r] ++ h)).
    rewrite recorded_for_app, map_app. by rewrite <- app_assoc.
Qed.

(** C1.  After any history of requests, the N-th catch-up recorded for a
    student id is row N of the by-name report of the name that resolves to
    that id: [catchup_no] is N, date and lesson are the recorded ones, and
    the charge is Free for N <= 2 and Charge for N >= 3.  The tier expression
    is Free exactly for positions at most 2. *)
Theorem by_name_reports_nth_recorded
  (history : list request) (student_name : string) (sid : Z)
  (N : nat) (cu : CatchUp.t) :
  (1 ≤ N)%nat →
  resolve student_name (serve history init_db) = Some sid →
  recorded_for sid history !! (N - 1)%nat = Some cu →
  (∃ report,
     list_catchups_by_name student_name (serve history init_db)
     = (Ok report, serve history init_db)
     ∧ length report = length (recorded_for sid history)
     ∧ report !! (N - 1)%nat
       = Some (mk_catchup_json (Z.of_nat N) (CatchUp.date cu)
                 (CatchUp.lesson_missed cu)
                 (if decide (N ≤ 2)%nat then "Free" else "Charge")))
  ∧ (∀ i : Z, (charge_for i = "Free" ↔ i ≤ 2) ∧ (charge_for i = "Charge" ↔ 3 ≤ i)).
Proof.
  intros HN Hres Hrec. split.
  - rewrite list_catchups_by_name_eq, Hres. eexists; split; [reflexivity|].
    rewrite rows_of_student_serve. simpl. split.
    + unfold report_of. by rewrite length_map, enumerate_length, length_map.
    + rewrite report_of_lookup, list_lookup_fmap, Hrec. simpl.
      replace (Z.of_nat (N - 1) + 1) with (Z.of_nat N) by lia.
      f_equal. f_equal. unfold charge_for.
      destruct (decide (N ≤ 2)%nat), (Z.leb_spec (Z.of_nat N) 2); (done || lia).
  - intros i. split; [apply charge_for_Free | apply charge_for_Charge].
Qed.

(** ** The students table *)

Lemma next_rowid_above seq ids x : x ∈ ids → x < Sql.next_rowid seq ids.
Proof.
  unfold Sql.next_rowid. induction 1 as [x l | x y l _ IH]; simpl; lia.
Qed.

Lemma next_rowid_fresh seq ids : Sql.next_rowid seq ids ∉ ids.
Proof. intros H%(next_rowid_above seq). lia. Qed.

Lemma filter_name_absent n (l : list student_row) :
  existsb (λ s, String.eqb (s_name s) n) l = false →
  List.filter (λ s, String.eqb (s_name s) n) l = [].
Proof.
  induction l as [|s l IH]; simpl; [done|].
  destruct (String.eqb _ _); simpl; [done | exact IH].
Qed.

Lemma absent_not_in n (l : list student_row) :
  existsb (λ s, String.eqb (s_name s) n) l = false → n ∉ map s_name l.
Proof.
  induction l as [|s l IH]; simpl; [intros _; apply not_elem_of_nil|].
  destruct (String.eqb_spec (s_name s) n) as [E|E]; simpl; [done|].
  intros H. apply not_elem_of_cons. split; [congruence | by apply IH].
Qed.

Lemma filter_name_unique n (l : list student_row) :
  NoDup (map s_name l) →
  existsb (λ s, String.eqb (s_name s) n) l = true →
  length (List.filter (λ s, String.eqb (s_name s) n) l) = 1%nat.
Proof.
  induction l as [|s l IH]; simpl; [done|].
  intros [Hs Hl]%NoDup_cons.
  destruct (String.eqb_spec (s_name s) n) as [E|E]; simpl.
  - intros _. f_equal. rewrite filter_name_absent; [done|].
    destruct (existsb _ l) eqn:Ex; [|done].
    apply existsb_exists in Ex as (s' & Hin & Es').
    apply String.eqb_eq in Es'. exfalso. apply Hs. rewrite E, <- Es'.
    apply list_elem_of_In, in_map, Hin.
  - by apply IH.
Qed.

Lemma add_student_registers student d :
  schema_ok d →
  let d' := handle (POST_students student) d in
  schema_ok d'
  ∧ existsb (λ s, String.eqb (s_name s) (Student.name student)) (students d') = true
  ∧ length (named (Student.name student) d') = 1%nat.
Proof.
  intros (Hid & Hname & Hc). simpl. rewrite add_student_eq. simpl.
  destruct (existsb _ (students d)) eqn:Ex.
  - split; [done|]. split; [done|]. by apply filter_name_unique.
  - unfold schema_ok, named; simpl. rewrite !map_app; simpl.
    split; [split; [|split; [|done]]|split].
    + apply NoDup_app. split; [done|]. split; [|apply NoDup_singleton].
      intros x Hx ->%list_elem_of_singleton. by apply next_rowid_fresh in Hx.
    + apply NoDup_app. split; [done|]. split; [|apply NoDup_singleton].
      intros x Hx ->%list_elem_of_singleton. by apply absent_not_in in Ex.
    + rewrite existsb_app; simpl. by rewrite String.eqb_refl, orb_true_r.
    + rewrite List.filter_app, filter_name_absent by done. simpl.
      by rewrite String.eqb_refl.
Qed.

Lemma add_student_again student d :
  existsb (λ s, String.eqb (s_name s) (Student.name student)) (students d) = true →
  students (handle (POST_students student) d) = students d.
Proof. intros Ex. simpl. rewrite add_student_eq. simpl. by rewrite Ex. Qed.

Lemma add_student_catchups student d :
  catchups (handle (POST_students student) d) = catchups d.
Proof. simpl. by rewrite add_student_eq. Qed.

Lemma handle_schema_ok (r : request) (d : db) :
  schema_ok d → schema_ok (handle r d).
Proof.
  intros Hok. destruct r as [st| |cu|n| |n|]; simpl;
    rewrite ?list_catchups_by_name_frame, ?download_catchups_by_name_frame,
            ?download_all_catchups_frame; try done.
  - by apply (add_student_registers st d).
  - rewrite add_catchup_eq. destruct (Sql.fits_int64 _); [|done].
    destruct Hok as (Hid & Hname & Hc). unfold schema_ok; simpl.
    split; [done|]. split; [done|]. rewrite map_app; simpl.
    apply NoDup_app. split; [done|]. split; [|apply NoDup_singleton].
    intros x Hx ->%list_elem_of_singleton. by apply next_rowid_fresh in Hx.
Qed.

(** Every store the service can reach satisfies the schema's constraints. *)
Lemma serve_schema_ok (history : list request) :
  schema_ok (serve history init_db).
Proof.
  assert (H : ∀ d, schema_ok d → schema_ok (serve history d)).
  { induction history as [|r h IH]; intros d Hd; [done|].
    apply (IH (handle r d)), handle_schema_ok, Hd. }
  apply H. unfold schema_ok, init_db; simpl. repeat split; constructor.
Qed.

Lemma add_student_repeated student d n :
  schema_ok d →
  let d' := Nat.iter (S n) (handle (POST_students student)) d in
  schema_ok d'
  ∧ students d' = students (handle (POST_students student) d)
  ∧ catchups d' = catchups d.
Proof.
  intros Hok. induction n as [|n (IHok & IHs & IHc)]; cbv zeta.
  - split; [by apply handle_schema_ok|]. split; [done|].
    apply add_student_catchups.
  - rewrite Nat.iter_succ. split; [by apply handle_schema_ok|]. split.
    + rewrite add_student_again; [done|]. rewrite IHs.
      by apply add_student_registers.
    + by rewrite add_student_catchups.
Qed.

(** C3.  Posting the same student once or any number of times leaves exactly
    one record with that name, the same students table as a single post and
    the catchups table untouched, and answers with the same confirmation
    message every time. *)
Theorem add_student_idempotent (student : Student.t) (d : db) (n : nat) :
  schema_ok d →
  (1 ≤ n)%nat →
  length (named (Student.name student)
                (Nat.iter n (handle (POST_students student)) d)) = 1%nat
  ∧ students (Nat.iter n (handle (POST_students student)) d)
    = students (handle (POST_students student) d)
  ∧ catchups (Nat.iter n (handle (POST_students student)) d) = catchups d
  ∧ (∀ d0, (add_student student d0).1 = Ok (mk_message "Student added")).
Proof.
  intros Hok Hn. destruct n as [|n]; [lia|].
  destruct (add_student_repeated student d n Hok) as (_ & Hs & Hc).
  split; [|split; [done|split; [done|]]].
  - unfold named. rewrite Hs. by apply add_student_registers.
  - intros d0. by rewrite add_student_eq.
Qed.

(** ** Names without rows, and the by-name download *)
(** C5.  A name that resolves to no student, or to a student without
    catch-up rows, gets the empty list from the by-name report, not an
    error. *)
Theorem by_name_empty (student_name : string) (d : db) :
  resolve student_name d = None
  ∨ (∃ sid, resolve student_name d = Some sid
            ∧ Forall (λ c, c_student_id c ≠ sid) (catchups d)) →
  list_catchups_by_name student_name d = (Ok [], d).
Proof.
  rewrite list_catchups_by_name_eq. intros [-> | (sid & -> & Hnone)]; [done|].
  do 2 f_equal. unfold rows_of_student.
  induction Hnone as [|c l Hc _ IH]; simpl; [done|].
  destruct (Z.eqb_spec (c_student_id c) sid); [done | exact IH].
Qed.

(** C6.  For a name no student carries, the by-name download is a 200
    response of media type text/plain whose body is the not-found sentence,
    with no Content-Disposition header. *)
Theorem download_unknown_name (student_name : string) (d : db) :
  Forall (λ s, s_name s ≠ student_name) (students d) →
  download_catchups_by_name student_name d
  = (Ok (mk_response 200 "text/plain" [] "Student not found."), d).
Proof.
  intros H%resolve_None. by rewrite download_catchups_by_name_eq, H.
Qed.

Lemma resolve_registered (student_name : string) (d : db) :
  student_name ∈ map s_name (students d) → is_Some (resolve student_name d).
Proof.
  intros Hin. destruct (resolve student_name d) eqn:E; [done|].
  apply resolve_None in E. apply list_elem_of_fmap in Hin as (s & -> & Hs).
  rewrite Forall_forall in E. by destruct (E s Hs).
Qed.







(** C10.  The five read handlers return the store they were given; a post
    of a new student name and a post of a catch-up change it. *)
Theorem reads_leave_store_unchanged (d : db) (student_name : string) :
  (list_students d).2 = d
  ∧ (list_catchups_by_name student_name d).2 = d
  ∧ (list_all_catchups d).2 = d
  ∧ (download_catchups_by_name student_name d).2 = d
  ∧ (download_all_catchups d).2 = d
  ∧ (∀ student,
       Student.name student ∉ map s_name (students d) →
       (add_student student d).2 ≠ d)
  ∧ (∀ catchup,
       Sql.fits_int64 (CatchUp.student_id catchup) = true →
       (add_catchup catchup d).2 ≠ d).
Proof.
  split; [apply list_students_frame|].
  split; [apply list_catchups_by_name_frame|].
  split; [apply list_all_catchups_frame|].
  split; [apply download_catchups_by_name_frame|].
  split; [apply download_all_catchups_frame|].
  split.
  - intros student Hnew. rewrite add_student_eq. simpl.
    destruct (existsb _ _) eqn:Ex.
    + apply existsb_exists in Ex as (s & Hin & E%String.eqb_eq).
      exfalso. apply Hnew. rewrite <- E. apply list_elem_of_In, in_map, Hin.
    + intros E%(f_equal (λ x, length (students x))). simpl in E.
      rewrite length_app in E. simpl in E. lia.
  - intros cu Hfit. rewrite add_catchup_eq, Hfit. simpl.
    intros E%(f_equal (λ x, length (catchups x))). simpl in E.
    rewrite length_app in E. simpl in E. lia.
Qed.

(** ** ORDER BY *)
Section order_by.
Context {A : Type} (key : A → string).

#[local] Instance date_le_trans : Transitive (date_le key).
Proof. intros a b c. unfold date_le. apply transitivity. Qed.

Lemma insert_by_Permutation x l : Sql.insert_by key x l ≡ₚ x :: l.
Proof.
  induction l as [|y l IH]; simpl; [done|].
  destruct (String.leb _ _); [done|]. rewrite IH. apply Permutation_swap.
Qed.

Lemma order_by_Permutation l : Sql.order_by key l ≡ₚ l.
Proof.
  induction l as [|x l IH]; simpl; [done|].
  rewrite insert_by_Permutation. by rewrite IH.
Qed.

Lemma insert_by_sorted x l :
  StronglySorted (date_le key) l → StronglySorted (date_le key) (Sql.insert_by key x l).
Proof.
  induction 1 as [|y l Hl IH Hy]; simpl.
  - repeat constructor.
  - destruct (String.leb (key x) (key y)) eqn:E.
    + constructor; [by constructor|]. constructor.
      * unfold date_le, String.le. by rewrite E.
      * eapply Forall_impl; [exact Hy|]. intros z Hz. etrans; [|exact Hz].
        unfold date_le, String.le. by rewrite E.
    + constructor; [done|]. rewrite insert_by_Permutation. constructor; [|done].
      destruct (total String.le (key x) (key y)) as [H|H]; [|done].
      unfold String.le in H. by rewrite E in H.
Qed.

Lemma order_by_sorted l : StronglySorted (date_le key) (Sql.order_by key l).
Proof.
  induction l as [|x l IH]; simpl; [constructor | by apply insert_by_sorted].
Qed.

Lemma order_by_elem_of x l : x ∈ Sql.order_by key l ↔ x ∈ l.
Proof. by rewrite order_by_Permutation. Qed.

End order_by.

Lemma StronglySorted_map {A B} (R : relation A) (R' : relation B) (f : A → B) l :
  (∀ a b, R a b → R' (f a) (f b)) →
  StronglySorted R l → StronglySorted R' (map f l).
Proof.
  intros HR. induction 1 as [|x l _ IH Hx]; simpl; constructor; [done|].
  apply Forall_map. eapply Forall_impl; [exact Hx|]. auto.
Qed.

Lemma StronglySorted_filter_bool {A} (R : relation A) (p : A → bool) l :
  StronglySorted R l → StronglySorted R (List.filter p l).
Proof.
  induction 1 as [|x l _ IH Hx]; simpl; [constructor|].
  destruct (p x); [|done]. constructor; [done|].
  apply Forall_forall. intros y Hy%list_elem_of_In%filter_In.
  rewrite Forall_forall in Hx. apply Hx, list_elem_of_In, Hy.
Qed.

(** ** The join *)
Lemma elem_of_join_rows s c d :
  (s, c) ∈ Sql.join_rows d ↔
  c ∈ catchups d ∧ s ∈ students d ∧ s_id s = c_student_id c.
Proof.
  unfold Sql.join_rows. rewrite list_elem_of_bind. split.
  - intros (c' & (s' & Hin & Hs')%list_elem_of_bind & Hc').
    destruct (Z.eqb_spec (s_id s') (c_student_id c')); [|by apply elem_of_nil in Hin].
    apply list_elem_of_singleton in Hin as [= -> ->]. done.
  - intros (Hc & Hs & E). exists c. split; [|done].
    apply list_elem_of_bind. exists s. split; [|done].
    rewrite E, Z.eqb_refl. by apply list_elem_of_singleton.
Qed.

Lemma elem_of_ordered_join s c d :
  (s, c) ∈ Sql.ordered_join d ↔
  c ∈ catchups d ∧ s ∈ students d ∧ s_id s = c_student_id c.
Proof. unfold Sql.ordered_join. by rewrite order_by_elem_of, elem_of_join_rows. Qed.

Lemma joined_sorted d : StronglySorted (date_le (λ r, r.1.1.2)) (joined d).
Proof.
  unfold joined, Sql.ordered_join.
  eapply StronglySorted_map; [|apply order_by_sorted].
  by intros [s c] [s' c'].
Qed.

Lemma joined_report_sorted d :
  StronglySorted (date_le (λ r, r.1.2)) (joined_report d).
Proof.
  unfold joined_report, Sql.ordered_join.
  eapply StronglySorted_map; [|apply order_by_sorted].
  by intros [s c] [s' c'].
Qed.

(** ** Grouping into an insertion-ordered dict *)

Lemma existsb_eqb_elem_of k (l : list string) :
  existsb (String.eqb k) l = true ↔ k ∈ l.
Proof.
  rewrite existsb_exists. split.
  - intros (x & Hin & ->%String.eqb_eq). by apply list_elem_of_In.
  - intros Hin. exists k. split; [by apply list_elem_of_In | apply String.eqb_refl].
Qed.

Lemma see_elem_of x seen k : x ∈ see seen k ↔ x ∈ seen ∨ x = k.
Proof.
  unfold see. destruct (existsb _ _) eqn:E.
  - apply existsb_eqb_elem_of in E. split; [auto | by intros [?| ->]].
  - rewrite elem_of_app, list_elem_of_singleton. done.
Qed.

Lemma see_NoDup seen k : NoDup seen → NoDup (see seen k).
Proof.
  intros H. unfold see. destruct (existsb _ _) eqn:E; [done|].
  apply NoDup_app. split; [done|]. split; [|apply NoDup_singleton].
  intros x Hx ->%list_elem_of_singleton.
  apply existsb_eqb_elem_of in Hx. congruence.
Qed.

Lemma fold_see_elem_of x ks seen :
  x ∈ fold_left see ks seen ↔ x ∈ seen ∨ x ∈ ks.
Proof.
  revert seen. induction ks as [|k ks IH]; intros seen; simpl.
  - rewrite elem_of_nil. tauto.
  - rewrite IH, see_elem_of, elem_of_cons. tauto.
Qed.

Lemma fold_see_NoDup ks seen : NoDup seen → NoDup (fold_left see ks seen).
Proof.
  revert seen. induction ks as [|k ks IH]; intros seen H; simpl; [done|].
  by apply IH, see_NoDup.
Qed.

Lemma first_seen_elem_of x ks : x ∈ first_seen ks ↔ x ∈ ks.
Proof. unfold first_seen. rewrite fold_see_elem_of, elem_of_nil. tauto. Qed.

Lemma first_seen_NoDup ks : NoDup (first_seen ks).
Proof. apply fold_see_NoDup, NoDup_nil_2. Qed.

Lemma first_seen_snoc ks k : first_seen (ks ++ [k]) = see (first_seen ks) k.
Proof. unfold first_seen. by rewrite fold_left_app. Qed.

Section grouping.
Context {A : Type} (key : A → string).

Lemma dict_append_present (k : string) (r : A) (f : string → list A) keys :
  NoDup keys → k ∈ keys →
  dict_append k r (map (λ k', (k', f k')) keys)
  = map (λ k', (k', if String.eqb k' k then f k' ++ [r] else f k')) keys.
Proof.
  induction keys as [|k' keys IH]; simpl; [by intros _ ?%elem_of_nil|].
  intros [Hk' Hkeys]%NoDup_cons Hin.
  destruct (String.eqb_spec k' k) as [->|Hne].
  - f_equal. apply map_ext_in. intros k'' Hk''%list_elem_of_In.
    destruct (String.eqb_spec k'' k) as [->|]; [done | done].
  - f_equal. apply IH; [done|]. apply elem_of_cons in Hin as [?|?]; [congruence | done].
Qed.

Lemma dict_append_absent (k : string) (r : A) (f : string → list A) keys :
  k ∉ keys →
  dict_append k r (map (λ k', (k', f k')) keys)
  = map (λ k', (k', f k')) keys ++ [(k, [r])].
Proof.
  induction keys as [|k' keys IH]; simpl; [done|].
  intros [Hne Hnin]%not_elem_of_cons.
  destruct (String.eqb_spec k' k) as [->|_]; [done|]. f_equal. by apply IH.
Qed.

Lemma filter_key_absent k rows :
  k ∉ map key rows → List.filter (λ r, String.eqb (key r) k) rows = [].
Proof.
  induction rows as [|r rows IH]; simpl; [done|].
  intros [Hne Hnin]%not_elem_of_cons.
  destruct (String.eqb_spec (key r) k); [congruence | by apply IH].
Qed.

Lemma grouped_snoc rows r :
  grouped key (rows ++ [r]) = dict_append (key r) r (grouped key rows).
Proof.
  unfold grouped. rewrite (map_app key). change (map key [r]) with [key r].
  rewrite first_seen_snoc.
  unfold see. destruct (existsb _ _) eqn:E.
  - apply existsb_eqb_elem_of in E.
    rewrite dict_append_present by (done || apply first_seen_NoDup).
    apply map_ext. intros k. f_equal. rewrite List.filter_app. simpl.
    destruct (String.eqb_spec k (key r)) as [->|Hne].
    + by rewrite String.eqb_refl.
    + destruct (String.eqb_spec (key r) k); [congruence | by rewrite app_nil_r].
  - assert (Hnew : key r ∉ first_seen (map key rows)).
    { intros H%existsb_eqb_elem_of. congruence. }
    rewrite dict_append_absent by done. rewrite map_app. simpl. f_equal.
    + apply map_ext_in. intros k Hk%list_elem_of_In. f_equal.
      rewrite List.filter_app. simpl.
      destruct (String.eqb_spec (key r) k) as [<-|]; [done | by rewrite app_nil_r].
    + do 2 f_equal. rewrite List.filter_app. simpl. rewrite String.eqb_refl.
      rewrite filter_key_absent; [done|]. by rewrite <- first_seen_elem_of.
Qed.

Lemma fold_dict_append_grouped rows :
  fold_left (λ m r, dict_append (key r) r m) rows [] = grouped key rows.
Proof.
  induction rows as [|r rows IH] using rev_ind; [done|].
  by rewrite fold_left_app, IH, grouped_snoc.
Qed.

End grouping.

Lemma strptime_Ymd_raises s e : PyDate.strptime_Ymd s = Raise e → e = ValueError.
Proof.
  unfold PyDate.strptime_Ymd. repeat case_match; congruence.
Qed.

Lemma for_each_month {A} (date_of : A → string)
  (body : list (string * list A) → A → result (list (string * list A)))
  (rows : list A) (acc : list (string * list A)) :
  (∀ m r, body m r
          = (t ← PyDate.strptime_Ymd (date_of r);
             mret (dict_append (PyDate.strftime_Ym t) r m))) →
  for_each body rows acc
  = if forallb (λ r, accepted (date_of r)) rows
    then Ok (fold_left (λ m r, dict_append (month_key_of (date_of r)) r m) rows acc)
    else Raise ValueError.
Proof.
  intros Hbody. revert acc. induction rows as [|r rows IH]; intros acc; simpl; [done|].
  rewrite Hbody. unfold accepted, month_key_of.
  destruct (PyDate.strptime_Ymd (date_of r)) as [t|e] eqn:E; simpl.
  - apply IH.
  - by rewrite (strptime_Ymd_raises _ _ E).
Qed.

Lemma group_by_month_eq rows :
  group_by_month rows
  = if forallb (λ r, accepted r.1.1.2) rows
    then Ok (grouped (λ r, month_key_of r.1.1.2) rows)
    else Raise ValueError.
Proof.
  unfold group_by_month.
  rewrite (for_each_month (λ r, r.1.1.2)) by (by intros m [[[??]?]?]).
  by rewrite (fold_dict_append_grouped (λ r, month_key_of r.1.1.2)).
Qed.

Lemma group_report_by_month_eq data :
  group_report_by_month data
  = if forallb (λ r, accepted r.1.2) data
    then Ok (grouped (λ r, month_key_of r.1.2) data)
    else Raise ValueError.
Proof.
  unfold group_report_by_month.
  rewrite (for_each_month (λ r, r.1.2)) by (by intros m [[??]?]).
  by rewrite (fold_dict_append_grouped (λ r, month_key_of r.1.2)).
Qed.

(** ** Dates *)

Lemma strptime_Ymd_fields s t :
  PyDate.strptime_Ymd s = Ok t →
  PyDate.check_date_fields (PyDate.year t) (PyDate.month t) (PyDate.day t) = true.
Proof.
  unfold PyDate.strptime_Ymd. repeat case_match; try discriminate.
  by intros [= <-].
Qed.

Lemma strptime_Ym_raises s e : PyDate.strptime_Ym s = Raise e → e = ValueError.
Proof.
  unfold PyDate.strptime_Ym. repeat case_match; congruence.
Qed.

Lemma in_digits x : 0 ≤ x ≤ 9 → In x (seqZ 0 10).
Proof. intros. apply list_elem_of_In, elem_of_seqZ. lia. Qed.

Lemma year_digits_all :
  forallb (λ a, forallb (λ b, forallb (λ c, forallb (λ e,
    year_digits_checked a b c e) (seqZ 0 10)) (seqZ 0 10)) (seqZ 0 10))
    (seqZ 0 10)
  = true.
Proof. vm_compute. reflexivity. Qed.

Lemma year_checks y :
  1 ≤ y ≤ 9999 → year_text_checked y = true ∧ year_text_reads_back y = true.
Proof.
  intros Hy. pose proof year_digits_all as H.
  pose proof (Z.div_mod y 10 ltac:(lia)) as E1.
  pose proof (Z.div_mod (y / 10) 10 ltac:(lia)) as E2.
  pose proof (Z.div_mod (y / 10 / 10) 10 ltac:(lia)) as E3.
  pose proof (Z.mod_pos_bound y 10 ltac:(lia)) as He.
  pose proof (Z.mod_pos_bound (y / 10) 10 ltac:(lia)) as Hc.
  pose proof (Z.mod_pos_bound (y / 10 / 10) 10 ltac:(lia)) as Hb.
  assert (Ha : 0 ≤ y / 10 / 10 / 10 ≤ 9) by lia.
  assert (Hdec : y = 1000 * (y / 10 / 10 / 10) + 100 * (y / 10 / 10 mod 10)
                     + 10 * (y / 10 mod 10) + y mod 10) by lia.
  assert (Hb' : 0 ≤ y / 10 / 10 mod 10 ≤ 9) by lia.
  assert (Hc' : 0 ≤ y / 10 mod 10 ≤ 9) by lia.
  assert (He' : 0 ≤ y mod 10 ≤ 9) by lia.
  clear Hb Hc He. rename Hb' into Hb, Hc' into Hc, He' into He.
  rewrite forallb_forall in H. specialize (H _ (in_digits _ Ha)).
  rewrite forallb_forall in H. specialize (H _ (in_digits _ Hb)).
  rewrite forallb_forall in H. specialize (H _ (in_digits _ Hc)).
  rewrite forallb_forall in H. specialize (H _ (in_digits _ He)).
  unfold year_digits_checked in H. cbv zeta in H. rewrite <- Hdec in H.
  apply orb_true_iff in H as [H%Z.eqb_eq|H]; [lia|].
  by apply andb_true_iff in H.
Qed.

Lemma year_text_check y : 1 ≤ y ≤ 9999 → year_text_checked y = true.
Proof. intros Hy. by destruct (year_checks y Hy). Qed.

Lemma re_Y_year_text y rest :
  1000 ≤ y ≤ 9999 → PyDate.re_Y (PyDate.year_text y +:+ rest) = [(y, rest)].
Proof.
  intros Hy. pose proof (year_text_check y ltac:(lia)) as H.
  unfold year_text_checked in H.
  destruct (PyDate.year_text y) as [|a [|b [|c [|d [|]]]]]; try discriminate H.
  - rewrite !andb_true_iff in H. lia.
  - rewrite !andb_true_iff in H. lia.
  - rewrite !andb_true_iff in H. lia.
  - apply andb_true_iff in H as [H _].
    apply andb_true_iff in H as [Hd E%Z.eqb_eq].
    change (PyDate.re_Y (String a (String b (String c (String d rest))))
            = [(y, rest)]).
    unfold PyDate.re_Y. by rewrite Hd, E.
Qed.

Lemma re_Y_short_year y m :
  1 ≤ y < 1000 →
  PyDate.re_Y (PyDate.year_text y +:+ "-" +:+ PyDate.pad2 m) = [].
Proof.
  intros Hy. pose proof (year_text_check y ltac:(lia)) as H.
  unfold year_text_checked in H.
  destruct (PyDate.year_text y) as [|a [|b [|c [|d [|]]]]]; try discriminate H.
  - apply andb_true_iff in H as [Ha _].
    change (PyDate.re_Y (String a (String "-" (PyDate.pad2 m))) = []).
    unfold PyDate.pad2, PyDate.re_Y. by rewrite Ha.
  - apply andb_true_iff in H as [[Ha Hb]%andb_true_iff _].
    change (PyDate.re_Y (String a (String b (String "-" (PyDate.pad2 m))))
            = []).
    unfold PyDate.pad2, PyDate.re_Y. by rewrite Ha, Hb.
  - apply andb_true_iff in H as [[[Ha Hb]%andb_true_iff Hc]%andb_true_iff _].
    change (PyDate.re_Y (String a (String b (String c
              (String "-" (PyDate.pad2 m))))) = []).
    unfold PyDate.re_Y. by rewrite Ha, Hb, Hc.
  - rewrite !andb_true_iff in H. lia.
Qed.

Lemma dash_month_all : forallb dash_month_reads_back (seqZ 1 12) = true.
Proof. vm_compute. reflexivity. Qed.

(** A key printed from a date reads back under ['%Y-%m'] exactly when the
    year has four digits. *)
Lemma strptime_strftime_Ym y m d :
  PyDate.check_date_fields y m d = true →
  PyDate.strptime_Ym (PyDate.strftime_Ym (PyDate.mk_datetime y m d))
  = if 1000 <=? y then Ok (PyDate.mk_datetime y m 1) else Raise ValueError.
Proof.
  unfold PyDate.check_date_fields. rewrite !andb_true_iff, !Z.leb_le.
  intros (((((Hy1 & Hy2) & Hm1) & Hm2) & Hd1) & Hd2).
  unfold PyDate.strptime_Ym, PyDate.match_Ym, PyDate.strftime_Ym.
  cbn [PyDate.year PyDate.month].
  destruct (Z.leb_spec 1000 y) as [Hy|Hy].
  - rewrite re_Y_year_text by lia. cbn [mbind list_bind]. rewrite app_nil_r.
    pose proof dash_month_all as H. rewrite forallb_forall in H.
    specialize (H m). unfold dash_month_reads_back in H.
    destruct (PyDate.re_dash_m _) as [|[m' [|]] l];
      try (discriminate H; apply list_elem_of_In, elem_of_seqZ; lia).
    assert (Hin : In m (seqZ 1 12)) by (apply list_elem_of_In, elem_of_seqZ; lia).
    apply H, Z.eqb_eq in Hin as ->. simpl.
    unfold PyDate.check_date_fields.
    assert (PyDate._days_in_month y m >= 28).
    { unfold PyDate._days_in_month. repeat case_match; lia. }
    repeat (rewrite (proj2 (Z.leb_le _ _)) by lia). reflexivity.
  - rewrite re_Y_short_year by lia. reflexivity.
Qed.

Lemma pad2_reads_back_all : forallb pad2_reads_back (seqZ 1 12) = true.
Proof. vm_compute. reflexivity. Qed.

Lemma digit_not_dash c : PyDate.is_digit c = true → Ascii.eqb c "-" = false.
Proof. destruct (Ascii.eqb_spec c "-") as [->|]; [by vm_compute | done]. Qed.

Lemma read_month_key_digits ds acc v rest :
  ds ≠ EmptyString →
  read_digits (default 0 acc) ds = Some v →
  read_month_key acc (ds +:+ String "-" rest)
  = read_month_key (Some v) (String "-" rest).
Proof.
  revert acc. induction ds as [|c ds IH]; intros acc Hne Hv; [done|].
  cbn [read_digits] in Hv.
  destruct (PyDate.is_digit c) eqn:Hc; [|done].
  change (String c ds +:+ String "-" rest)
    with (String c (ds +:+ String "-" rest)).
  cbn [read_month_key]. rewrite (digit_not_dash c Hc), Hc.
  destruct ds as [|c' ds'].
  - cbn [read_digits] in Hv. by injection Hv as <-.
  - by apply IH.
Qed.

(** ** ISO dates *)

Lemma ascii_leb_le a b :
  (a <=? b)%char = true ↔ (N_of_ascii a <= N_of_ascii b)%N.
Proof.
  unfold Ascii.leb, Ascii.compare. rewrite <- N.compare_le_iff.
  destruct (N_of_ascii a ?= N_of_ascii b)%N; split; congruence.
Qed.

Lemma is_digit_val c : PyDate.is_digit c = true → 0 ≤ PyDate.digit_val c ≤ 9.
Proof.
  unfold PyDate.is_digit, PyDate.digit_val.
  rewrite andb_true_iff, !ascii_leb_le. simpl. lia.
Qed.

Lemma digit_char_val c :
  PyDate.is_digit c = true → PyDate.digit_char (PyDate.digit_val c) = c.
Proof.
  intros H. pose proof (is_digit_val c H) as Hv. revert Hv.
  unfold PyDate.digit_char, PyDate.digit_val. intros Hv.
  replace (Z.to_N (48 + (Z.of_N (N_of_ascii c) - 48))) with (N_of_ascii c) by lia.
  apply ascii_N_embedding.
Qed.

Lemma tail_reads_back_all :
  forallb (λ a, forallb (λ b, forallb (λ c, forallb (λ e,
    tail_reads_back a b c e) (seqZ 0 10)) (seqZ 0 10)) (seqZ 0 10)) (seqZ 0 10)
  = true.
Proof. vm_compute. reflexivity. Qed.

Lemma iso_tail_parse a b c e :
  0 ≤ a ≤ 9 → 0 ≤ b ≤ 9 → 0 ≤ c ≤ 9 → 0 ≤ e ≤ 9 →
  1 ≤ 10 * a + b ≤ 12 → 1 ≤ 10 * c + e ≤ 31 →
  head (PyDate.re_dash_m_dash_d (iso_tail a b c e))
  = Some (10 * a + b, 10 * c + e, "").
Proof.
  intros Ha Hb Hc He Hm Hd. pose proof tail_reads_back_all as H.
  rewrite forallb_forall in H. specialize (H a (in_digits a Ha)).
  rewrite forallb_forall in H. specialize (H b (in_digits b Hb)).
  rewrite forallb_forall in H. specialize (H c (in_digits c Hc)).
  rewrite forallb_forall in H. specialize (H e (in_digits e He)).
  unfold tail_reads_back in H.
  rewrite !(proj2 (Z.leb_le _ _)) in H by lia. simpl andb in H. cbv iota in H.
  destruct (head _) as [[[m d] [|]]|]; try discriminate.
  apply andb_true_iff in H as [->%Z.eqb_eq ->%Z.eqb_eq]. done.
Qed.

Lemma iso_date_shape s :
  is_iso_date s = true →
  ∃ y1 y2 y3 y4 m1 m2 d1 d2,
    s = String y1 (String y2 (String y3 (String y4 (String "-"
          (String m1 (String m2 (String "-" (String d1 (String d2 "")))))))))
    ∧ Forall (λ c, PyDate.is_digit c = true) [y1; y2; y3; y4; m1; m2; d1; d2]
    ∧ 1 ≤ val4 y1 y2 y3 y4 ∧ 1 ≤ val2 m1 m2 ≤ 12
    ∧ 1 ≤ val2 d1 d2 ≤ PyDate._days_in_month (val4 y1 y2 y3 y4) (val2 m1 m2).
Proof.
  destruct s as [|y1 [|y2 [|y3 [|y4 [|h1 [|m1 [|m2 [|h2 [|d1 [|d2 [|]]]]]]]]]]];
    try discriminate.
  unfold is_iso_date. rewrite !andb_true_iff, !Z.leb_le.
  intros ((((((((((((((Y1 & Y2) & Y3) & Y4) & ->%Ascii.eqb_eq) & M1) & M2)
    & ->%Ascii.eqb_eq) & D1) & D2) & Hy) & Hm1) & Hm2) & Hd1) & Hd2).
  exists y1, y2, y3, y4, m1, m2, d1, d2. split; [done|].
  split; [by repeat constructor|]. unfold val4, val2. lia.
Qed.

Lemma iso_date_parse y1 y2 y3 y4 m1 m2 d1 d2 :
  Forall (λ c, PyDate.is_digit c = true) [y1; y2; y3; y4; m1; m2; d1; d2] →
  1 ≤ val4 y1 y2 y3 y4 → 1 ≤ val2 m1 m2 ≤ 12 →
  1 ≤ val2 d1 d2 ≤ PyDate._days_in_month (val4 y1 y2 y3 y4) (val2 m1 m2) →
  PyDate.strptime_Ymd
    (String y1 (String y2 (String y3 (String y4 (String "-"
       (String m1 (String m2 (String "-" (String d1 (String d2 ""))))))))))
  = Ok (PyDate.mk_datetime (val4 y1 y2 y3 y4) (val2 m1 m2) (val2 d1 d2)).
Proof.
  intros Hdig Hy Hm Hd.
  repeat (apply Forall_cons in Hdig as [? Hdig]).
  pose proof (is_digit_val y1 ltac:(done)). pose proof (is_digit_val y2 ltac:(done)).
  pose proof (is_digit_val y3 ltac:(done)). pose proof (is_digit_val y4 ltac:(done)).
  pose proof (is_digit_val m1 ltac:(done)). pose proof (is_digit_val m2 ltac:(done)).
  pose proof (is_digit_val d1 ltac:(done)). pose proof (is_digit_val d2 ltac:(done)).
  assert (Hdim : PyDate._days_in_month (val4 y1 y2 y3 y4) (val2 m1 m2) ≤ 31).
  { unfold PyDate._days_in_month. repeat case_match; lia. }
  unfold PyDate.strptime_Ymd, PyDate.match_Ymd, PyDate.re_Y.
  repeat match goal with H : PyDate.is_digit _ = true |- _ => rewrite H end.
  simpl andb. cbv iota. cbn [mbind list_bind]. rewrite app_nil_r.
  rewrite <- (digit_char_val m1), <- (digit_char_val m2),
          <- (digit_char_val d1), <- (digit_char_val d2) by done.
  unfold val4, val2 in *.
  assert (Ht := iso_tail_parse (PyDate.digit_val m1) (PyDate.digit_val m2)
                  (PyDate.digit_val d1) (PyDate.digit_val d2)
                  ltac:(lia) ltac:(lia) ltac:(lia) ltac:(lia) ltac:(lia) ltac:(lia)).
  unfold iso_tail in Ht.
  destruct (PyDate.re_dash_m_dash_d _) as [|x l]; simpl in Ht; [discriminate|].
  injection Ht as ->. simpl. rewrite !digit_char_val by done.
  unfold PyDate.check_date_fields.
  repeat (rewrite (proj2 (Z.leb_le _ _)) by lia). reflexivity.
Qed.

Lemma iso_date_accepted s : is_iso_date s = true → accepted s = true.
Proof.
  intros (y1&y2&y3&y4&m1&m2&d1&d2&->&Hdig&Hy&Hm&Hd)%iso_date_shape.
  unfold accepted. by rewrite iso_date_parse.
Qed.

(** ** Date text order against calendar order *)

Lemma ascii_compare_digit a b :
  Ascii.compare a b = (PyDate.digit_val a ?= PyDate.digit_val b).
Proof.
  unfold Ascii.compare, PyDate.digit_val.
  destruct (N.compare_spec (N_of_ascii a) (N_of_ascii b)); symmetry;
    [apply Z.compare_eq_iff | apply Z.compare_lt_iff | apply Z.compare_gt_iff]; lia.
Qed.

Lemma iso_text_order y1 y2 y3 y4 m1 m2 d1 d2 y1' y2' y3' y4' m1' m2' d1' d2' :
  Forall (λ c, PyDate.is_digit c = true) [y1; y2; y3; y4; m1; m2] →
  Forall (λ c, PyDate.is_digit c = true) [y1'; y2'; y3'; y4'; m1'; m2'] →
  1 ≤ val2 m1 m2 ≤ 12 → 1 ≤ val2 m1' m2' ≤ 12 →
  String.leb
    (String y1 (String y2 (String y3 (String y4 (String "-"
       (String m1 (String m2 (String "-" (String d1 (String d2 ""))))))))))
    (String y1' (String y2' (String y3' (String y4' (String "-"
       (String m1' (String m2' (String "-" (String d1' (String d2' ""))))))))))
  = true →
  12 * val4 y1 y2 y3 y4 + val2 m1 m2 ≤ 12 * val4 y1' y2' y3' y4' + val2 m1' m2'.
Proof.
  intros Hdig Hdig' Hm Hm'.
  repeat (apply Forall_cons in Hdig as [?%is_digit_val Hdig]).
  repeat (apply Forall_cons in Hdig' as [?%is_digit_val Hdig']).
  unfold String.leb. cbn [String.compare]. rewrite !ascii_compare_digit.
  unfold val4, val2 in *.
  repeat match goal with
         | |- context [?a ?= ?b] =>
             destruct (Z.compare_spec a b); cbn [Ascii.compare]; try (intros; lia)
         end;
    try discriminate.
  all: try (intros; lia).
Qed.

Lemma month_ordinal_key s t :
  PyDate.strptime_Ymd s = Ok t →
  month_ordinal (month_key_of s) = Some (12 * PyDate.year t + PyDate.month t)
  ∧ 1 ≤ PyDate.month t ≤ 12.
Proof.
  intros E. pose proof (strptime_Ymd_fields s t E) as Hf.
  unfold month_key_of. rewrite E. destruct t as [y m d].
  cbn [PyDate.year PyDate.month PyDate.day] in *.
  revert Hf. unfold PyDate.check_date_fields. rewrite !andb_true_iff, !Z.leb_le.
  intros (((((Hy1 & Hy2) & Hm1) & Hm2) & Hd1) & Hd2). split; [|lia].
  destruct (year_checks y ltac:(lia)) as [_ Hy].
  pose proof pad2_reads_back_all as Hm. rewrite forallb_forall in Hm.
  specialize (Hm m ltac:(apply list_elem_of_In, elem_of_seqZ; lia)).
  unfold year_text_reads_back in Hy. unfold pad2_reads_back in Hm.
  unfold month_ordinal, PyDate.strftime_Ym. cbn [PyDate.year PyDate.month].
  change ("-" +:+ PyDate.pad2 m) with (String "-" (PyDate.pad2 m)).
  destruct (read_digits 0 (PyDate.year_text y)) as [v|] eqn:Ev;
    [|by destruct (PyDate.year_text y)].
  assert (Hne : PyDate.year_text y ≠ EmptyString)
    by (by destruct (PyDate.year_text y)).
  assert (v = y) as -> by (destruct (PyDate.year_text y); [done | lia]).
  rewrite (read_month_key_digits _ None y _ Hne Ev).
  destruct (PyDate.pad2 m) as [|a [|b [|]]]; try discriminate Hm.
  apply andb_true_iff in Hm as [Hab Hval%Z.eqb_eq].
  cbn [read_month_key]. change (Ascii.eqb "-" "-") with true. cbv iota.
  by rewrite Hab, Hval.
Qed.

Lemma string_length_app (s t : string) :
  String.length (s +:+ t) = (String.length s + String.length t)%nat.
Proof.
  induction s as [|c s IH]; [done|].
  change (S (String.length (s +:+ t))
          = S (String.length s + String.length t)). by rewrite IH.
Qed.

Lemma year_text_length y :
  1 ≤ y ≤ 9999 → String.length (PyDate.year_text y) = 4%nat ↔ 1000 ≤ y.
Proof.
  intros Hy. pose proof (year_text_check y Hy) as H.
  unfold year_text_checked in H.
  destruct (PyDate.year_text y) as [|a [|b [|c [|d [|]]]]]; try discriminate H;
    rewrite !andb_true_iff in H; simpl; split; (lia || done).
Qed.

Lemma month_key_length s t :
  PyDate.strptime_Ymd s = Ok t →
  String.length (month_key_of s) = 7%nat ↔ 1000 ≤ PyDate.year t.
Proof.
  intros E. pose proof (strptime_Ymd_fields s t E) as Hf.
  unfold month_key_of. rewrite E. unfold PyDate.strftime_Ym.
  rewrite !string_length_app. change (String.length "-") with 1%nat.
  change (String.length (PyDate.pad2 (PyDate.month t))) with 2%nat.
  revert Hf. unfold PyDate.check_date_fields. rewrite !andb_true_iff, !Z.leb_le.
  intros (((((Hy1 & Hy2) & _) & _) & _) & _).
  rewrite <- (year_text_length (PyDate.year t)) by lia. lia.
Qed.

Lemma month_key_inj s1 s2 :
  accepted s1 = true → accepted s2 = true →
  month_ordinal (month_key_of s1) = month_ordinal (month_key_of s2) →
  month_key_of s1 = month_key_of s2.
Proof.
  unfold accepted.
  destruct (PyDate.strptime_Ymd s1) as [t1|] eqn:E1; [|done].
  destruct (PyDate.strptime_Ymd s2) as [t2|] eqn:E2; [|done].
  intros _ _.
  destruct (month_ordinal_key s1 t1 E1) as [-> ?].
  destruct (month_ordinal_key s2 t2 E2) as [-> ?].
  intros [= Ho]. unfold month_key_of. rewrite E1, E2.
  unfold PyDate.strftime_Ym.
  assert (PyDate.year t1 = PyDate.year t2) as -> by lia.
  assert (PyDate.month t1 = PyDate.month t2) as -> by lia. done.
Qed.

Lemma iso_month_order s1 s2 :
  is_iso_date s1 = true → is_iso_date s2 = true →
  String.le s1 s2 →
  default 0 (month_ordinal (month_key_of s1))
  ≤ default 0 (month_ordinal (month_key_of s2)).
Proof.
  intros (y1&y2&y3&y4&m1&m2&d1&d2&->&Hdig&Hy&Hm&Hd)%iso_date_shape.
  intros (y1'&y2'&y3'&y4'&m1'&m2'&d1'&d2'&->&Hdig'&Hy'&Hm'&Hd')%iso_date_shape.
  intros Hle%Is_true_true.
  pose proof (iso_date_parse _ _ _ _ _ _ _ _ Hdig Hy Hm Hd) as E.
  pose proof (iso_date_parse _ _ _ _ _ _ _ _ Hdig' Hy' Hm' Hd') as E'.
  destruct (month_ordinal_key _ _ E) as [-> _].
  destruct (month_ordinal_key _ _ E') as [-> _]. simpl.
  apply (iso_text_order _ _ _ _ _ _ d1 d2 _ _ _ _ _ _ d1' d2'); try done.
  - repeat (apply Forall_cons in Hdig as [? Hdig]). by repeat constructor.
  - repeat (apply Forall_cons in Hdig' as [? Hdig']). by repeat constructor.
Qed.

(** ** Keys of a scan in ascending order *)

Lemma StronglySorted_map_elem_of {A B} (R : relation A) (R' : relation B)
  (f : A → B) l :
  (∀ a b, a ∈ l → b ∈ l → R a b → R' (f a) (f b)) →
  StronglySorted R l → StronglySorted R' (map f l).
Proof.
  intros HR Hl. induction Hl as [|x l _ IH Hx]; simpl; constructor.
  - apply IH. intros a b Ha Hb. apply HR; by right.
  - apply Forall_map, Forall_forall. intros y Hy.
    rewrite Forall_forall in Hx. apply HR; [left | by right | by apply Hx].
Qed.

Lemma fold_see_strict (f : string → Z) ks seen :
  (∀ k k', k ∈ seen ++ ks → k' ∈ seen ++ ks → f k = f k' → k = k') →
  (∀ a b, a ∈ seen → b ∈ ks → f a ≤ f b) →
  StronglySorted (λ a b, f a < f b) seen →
  StronglySorted (λ a b, f a ≤ f b) ks →
  StronglySorted (λ a b, f a < f b) (fold_left see ks seen).
Proof.
  revert seen. induction ks as [|k ks IH]; intros seen Hinj Hle Hseen Hks; [done|].
  simpl. apply StronglySorted_inv in Hks as [Hks Hk].
  rewrite Forall_forall in Hk.
  assert (Hsub : ∀ x, x ∈ see seen k ++ ks → x ∈ seen ++ k :: ks).
  { intros x. rewrite !elem_of_app, see_elem_of, elem_of_cons. tauto. }
  apply IH; [by auto | | | done].
  - intros a b [Ha| ->]%see_elem_of Hb; [apply Hle; [done | by right] | by apply Hk].
  - unfold see. destruct (existsb _ _) eqn:E; [done|].
    apply StronglySorted_app_2; [|done|repeat constructor].
    intros a b Ha ->%list_elem_of_singleton.
    assert (f a ≤ f k) by (apply Hle; [done | left]).
    assert (f a ≠ f k); [|lia].
    intros Heq. apply Hinj in Heq; [| apply elem_of_app; by left
                                    | apply elem_of_app; right; left].
    subst a. apply existsb_eqb_elem_of in Ha. congruence.
Qed.

Lemma first_seen_strict (f : string → Z) ks :
  (∀ k k', k ∈ ks → k' ∈ ks → f k = f k' → k = k') →
  StronglySorted (λ a b, f a ≤ f b) ks →
  StronglySorted (λ a b, f a < f b) (first_seen ks).
Proof.
  intros Hinj Hks. apply fold_see_strict; [done | | constructor | done].
  by intros a b ?%elem_of_nil.
Qed.

Lemma StronglySorted_impl_elem_of {A} (R R' : relation A) l :
  (∀ a b, a ∈ l → b ∈ l → R a b → R' a b) →
  StronglySorted R l → StronglySorted R' l.
Proof.
  intros H Hl. rewrite <- (map_id l).
  by apply (StronglySorted_map_elem_of R R' (λ x, x)).
Qed.

Lemma iso_keys_chronological (dates : list string) :
  Forall (λ s, is_iso_date s = true) dates →
  StronglySorted String.le dates →
  chronological (first_seen (map month_key_of dates)).
Proof.
  intros Hiso Hsorted. rewrite Forall_forall in Hiso.
  set (f := λ k, default 0 (month_ordinal k)).
  apply (StronglySorted_impl_elem_of (λ a b, f a < f b)).
  - intros a b (s & -> & Hs)%first_seen_elem_of%list_elem_of_fmap
               (s' & -> & Hs')%first_seen_elem_of%list_elem_of_fmap Hlt.
    pose proof (iso_date_accepted s (Hiso s Hs)) as Ha.
    pose proof (iso_date_accepted s' (Hiso s' Hs')) as Ha'.
    unfold accepted in Ha, Ha'. unfold f in Hlt.
    destruct (PyDate.strptime_Ymd s) as [t|] eqn:E; [|done].
    destruct (PyDate.strptime_Ymd s') as [t'|] eqn:E'; [|done].
    destruct (month_ordinal_key s t E) as [Ho _].
    destruct (month_ordinal_key s' t' E') as [Ho' _].
    rewrite Ho, Ho' in Hlt. simpl in Hlt. by eexists _, _.
  - apply first_seen_strict.
    + intros k k' (s & -> & Hs)%list_elem_of_fmap (s' & -> & Hs')%list_elem_of_fmap Heq.
      pose proof (iso_date_accepted s (Hiso s Hs)) as Ha.
      pose proof (iso_date_accepted s' (Hiso s' Hs')) as Ha'.
      apply month_key_inj; [done..|]. unfold f, accepted in *.
      destruct (PyDate.strptime_Ymd s) as [t|] eqn:E; [|done].
      destruct (PyDate.strptime_Ymd s') as [t'|] eqn:E'; [|done].
      destruct (month_ordinal_key s t E) as [Ho _].
      destruct (month_ordinal_key s' t' E') as [Ho' _].
      rewrite Ho, Ho' in *. simpl in Heq. by rewrite Heq.
    + apply (StronglySorted_map_elem_of String.le); [|done].
      intros a b Ha Hb Hab. apply iso_month_order; auto.
Qed.

(** ** GET /catchups/all *)

Lemma list_all_catchups_eq d :
  list_all_catchups d
  = (if forallb (λ r, accepted r.1.1.2) (joined d)
     then Ok (grouped (λ r, month_key_of r.1.1.2) (joined d))
     else Raise ValueError, d).
Proof.
  unfold list_all_catchups, mbind, M_bind, lift, Sql.select_joined.
  fold (joined d). by rewrite group_by_month_eq.
Qed.

Lemma joined_Permutation d :
  joined d
  ≡ₚ map (λ '(s, c), (s_name s, c_date c, c_student_id c, c_lesson_missed c))
         (Sql.join_rows d).
Proof. unfold joined, Sql.ordered_join. by rewrite order_by_Permutation. Qed.

Lemma grouped_keys {A} (key : A → string) rows :
  map fst (grouped key rows) = first_seen (map key rows).
Proof. unfold grouped. rewrite map_map. simpl. apply List.map_id. Qed.

Lemma elem_of_grouped {A} (key : A → string) rows k vs :
  (k, vs) ∈ grouped key rows →
  k ∈ map key rows ∧ vs = List.filter (λ r, String.eqb (key r) k) rows.
Proof.
  unfold grouped. intros (k' & [= -> ->] & Hk)%list_elem_of_fmap.
  rewrite first_seen_elem_of in Hk. by split.
Qed.

Lemma forallb_true_Forall {A} (p : A → bool) l :
  forallb p l = true ↔ Forall (λ x, p x = true) l.
Proof.
  induction l as [|x l IH]; simpl; [by split|].
  by rewrite andb_true_iff, Forall_cons, IH.
Qed.

Lemma forallb_false_Exists {A} (p : A → bool) l :
  forallb p l = false ↔ Exists (λ x, p x = false) l.
Proof.
  induction l as [|x l IH]; simpl; [split; [done | inversion 1]|].
  by rewrite andb_false_iff, Exists_cons, IH.
Qed.

(** C4 (amended).  When every joined date parses, GET /catchups/all returns
    the month mapping: its rows are the join of catch-ups with students in
    ascending order of the date text; the keys are the month keys in the
    order the scan first meets them; each key holds the rows of that month in
    scan order, hence ascending in the date text; when every joined date is a
    zero-padded ISO date the keys are in chronological order; and the key of
    a date is its year in decimal without padding, a dash and its two-digit
    month, seven characters long exactly for the years from 1000 on. *)
Theorem list_all_catchups_by_month (d : db) :
  Forall (λ r, accepted r.1.1.2 = true) (joined d) →
  ∃ monthly,
    list_all_catchups d = (Ok monthly, d)
    ∧ joined d
      ≡ₚ map (λ '(s, c), (s_name s, c_date c, c_student_id c, c_lesson_missed c))
             (Sql.join_rows d)
    ∧ StronglySorted (date_le (λ r, r.1.1.2)) (joined d)
    ∧ map fst monthly = first_seen (map (λ r, month_key_of r.1.1.2) (joined d))
    ∧ (∀ month_key rows,
         (month_key, rows) ∈ monthly →
         rows = List.filter
                  (λ r, String.eqb (month_key_of r.1.1.2) month_key) (joined d)
         ∧ StronglySorted (date_le (λ r, r.1.1.2)) rows)
    ∧ (Forall (λ r, is_iso_date r.1.1.2 = true) (joined d) →
       chronological (map fst monthly))
    ∧ (∀ r t,
         r ∈ joined d → PyDate.strptime_Ymd r.1.1.2 = Ok t →
         month_key_of r.1.1.2
         = PyDate.year_text (PyDate.year t) +:+ "-"
           +:+ PyDate.pad2 (PyDate.month t)
         ∧ month_ordinal (month_key_of r.1.1.2)
           = Some (12 * PyDate.year t + PyDate.month t)
         ∧ (String.length (month_key_of r.1.1.2) = 7%nat
            ↔ 1000 ≤ PyDate.year t)).
Proof.
  intros Hacc. rewrite list_all_catchups_eq.
  rewrite (proj2 (forallb_true_Forall (λ r, accepted r.1.1.2) _) Hacc).
  eexists. split; [reflexivity|]. split; [apply joined_Permutation|].
  split; [apply joined_sorted|]. split; [apply grouped_keys|].
  split; [|split].
  - intros k rows [_ ->]%elem_of_grouped. split; [done|].
    apply StronglySorted_filter_bool, joined_sorted.
  - intros Hiso. rewrite grouped_keys.
    rewrite <- (map_map (λ r, r.1.1.2) month_key_of).
    apply iso_keys_chronological.
    + by apply Forall_map.
    + apply (StronglySorted_map (date_le (λ r, r.1.1.2))); [done | apply joined_sorted].
  - intros r t _ E. split; [|split].
    + unfold month_key_of. by rewrite E.
    + by destruct (month_ordinal_key _ _ E).
    + by apply month_key_length.
Qed.

(** C8 (amended).  GET /catchups/all raises [ValueError] exactly when
    [strptime] rejects the date of some joined row, and succeeds exactly when
    it accepts them all.  Every valid zero-padded ISO date is accepted, so
    the request succeeds when all joined dates are such dates, and a failure
    implies a joined date that is not one. *)
Theorem list_all_catchups_fails_iff (d : db) :
  ((list_all_catchups d).1 = Raise ValueError
   ↔ Exists (λ r, accepted r.1.1.2 = false) (joined d))
  ∧ (is_Ok (list_all_catchups d).1 = true
     ↔ Forall (λ r, accepted r.1.1.2 = true) (joined d))
  ∧ (∀ s, is_iso_date s = true → accepted s = true)
  ∧ (Forall (λ r, is_iso_date r.1.1.2 = true) (joined d) →
     is_Ok (list_all_catchups d).1 = true)
  ∧ ((list_all_catchups d).1 = Raise ValueError →
     Exists (λ r, is_iso_date r.1.1.2 = false) (joined d)).
Proof.
  rewrite list_all_catchups_eq. cbn [fst].
  pose proof (forallb_true_Forall (λ r, accepted r.1.1.2) (joined d)) as Hall.
  pose proof (forallb_false_Exists (λ r, accepted r.1.1.2) (joined d)) as Hex.
  cbv beta in Hall, Hex.
  assert (Hiso : Forall (λ r, is_iso_date r.1.1.2 = true) (joined d) →
                 Forall (λ r, accepted r.1.1.2 = true) (joined d)).
  { intros H. eapply Forall_impl; [exact H|]. intros r. apply iso_date_accepted. }
  split; [|split; [|split; [|split]]].
  - rewrite <- Hex. by destruct (forallb _ _).
  - rewrite <- Hall. by destruct (forallb _ _).
  - apply iso_date_accepted.
  - intros H%Hiso%Hall. by rewrite H.
  - destruct (forallb _ _) eqn:E; [done|]. intros _.
    pose proof (proj1 Hex eq_refl) as Hx.
    apply Exists_exists in Hx as (r & Hr & Hacc).
    apply Exists_exists. exists r. split; [done|].
    destruct (is_iso_date r.1.1.2) eqn:Ei; [|done].
    apply iso_date_accepted in Ei. congruence.
Qed.

(** ** GET /catchups/download/all *)

Lemma occurrences_snoc n entries e :
  occurrences n (entries ++ [e])
  = occurrences n entries + (if String.eqb e.1.1 n then 1 else 0).
Proof.
  unfold occurrences. rewrite List.filter_app, length_app. simpl.
  destruct (String.eqb _ _); simpl; lia.
Qed.

Lemma month_rows_from_spec entries :
  (∀ n, default 0 ((month_rows_from ∅ entries).1 !! n) = occurrences n entries)
  ∧ length (month_rows_from ∅ entries).2 = length entries
  ∧ (∀ i name date lesson,
       entries !! i = Some (name, date, lesson) →
       (month_rows_from ∅ entries).2 !! i
       = Some [Csv.CStr name; Csv.CStr date; Csv.CStr lesson;
               Csv.CStr (charge_for (occurrences name (take (S i) entries)))]).
Proof.
  induction entries as [|[[name date] lesson] entries IH] using rev_ind.
  - unfold month_rows_from. simpl. split; [|split]; [| done | done].
    intros n. by rewrite lookup_empty.
  - unfold month_rows_from in *. rewrite fold_left_app. simpl.
    destruct (fold_left _ entries _) as [cnt rows]. simpl in *.
    destruct IH as (Hcnt & Hlen & Hrows). split; [|split].
    + intros n. rewrite occurrences_snoc. simpl.
      destruct (String.eqb_spec name n) as [->|Hne].
      * rewrite lookup_insert_eq. simpl. by rewrite Hcnt.
      * rewrite lookup_insert_ne by done. rewrite Hcnt. lia.
    + rewrite !length_app. simpl. lia.
    + intros i n dt ls Hi.
      destruct (decide (i < length entries)%nat) as [Hlt|Hge].
      * rewrite lookup_app_l in Hi by done. rewrite lookup_app_l by lia.
        rewrite (Hrows i n dt ls Hi). do 6 f_equal.
        rewrite take_app_le by lia. done.
      * assert (i = length entries) as ->.
        { apply lookup_lt_Some in Hi. rewrite length_app in Hi. simpl in Hi. lia. }
        rewrite list_lookup_middle in Hi by done. injection Hi as <- <- <-.
        rewrite <- Hlen at 1. rewrite list_lookup_middle by done.
        rewrite lookup_insert_eq. simpl. do 6 f_equal.
        rewrite take_ge by (rewrite length_app; simpl; lia).
        rewrite occurrences_snoc, Hcnt. simpl. by rewrite String.eqb_refl.
Qed.


Lemma grouped_holds {A} (key : A → string) (rows : list A) r :
  r ∈ rows → ∃ vs, (key r, vs) ∈ grouped key rows ∧ r ∈ vs.
Proof.
  intros Hr. eexists. split.
  - unfold grouped. apply list_elem_of_fmap. exists (key r).
    split; [reflexivity|]. apply first_seen_elem_of.
    by apply (list_elem_of_fmap_2 key).
  - apply list_elem_of_In, filter_In. split; [by apply list_elem_of_In|].
    apply String.eqb_refl.
Qed.


Lemma reportable_accepted s : reportable s = true → accepted s = true.
Proof.
  unfold reportable, accepted. by destruct (PyDate.strptime_Ymd s).
Qed.

Lemma month_section_key s entries :
  accepted s = true →
  month_section (month_key_of s) entries
  = if reportable s then Ok (section_rows (month_key_of s) entries)
    else Raise ValueError.
Proof.
  unfold accepted, reportable.
  destruct (PyDate.strptime_Ymd s) as [t|] eqn:E; [|done].
  intros _. pose proof (strptime_Ymd_fields s t E) as Hf.
  unfold month_section, section_rows, month_title, month_key_of. rewrite E.
  destruct t as [y m dd]. simpl in Hf.
  rewrite (strptime_strftime_Ym y m dd Hf). cbn [PyDate.year].
  by destruct (1000 <=? y).
Qed.

Lemma for_each_sections (groups : list (string * list (string * string * string)))
  (written : list (list Csv.cell)) :
  Forall (λ g, month_section g.1 g.2 = Ok (section_rows g.1 g.2)) groups →
  for_each (λ written '(month_key, entries),
              rows ← month_section month_key entries; mret (written ++ rows))
           groups written
  = Ok (written ++ concat (map (λ g, section_rows g.1 g.2) groups)).
Proof.
  intros H. revert written.
  induction H as [|[k e] groups Hg _ IH]; intros written; simpl.
  - by rewrite app_nil_r.
  - simpl in Hg. rewrite Hg. simpl. rewrite IH. by rewrite <- app_assoc.
Qed.

Lemma month_section_raises month_key entries e :
  month_section month_key entries = Raise e → e = ValueError.
Proof.
  unfold month_section.
  destruct (PyDate.strptime_Ym month_key) as [t|e'] eqn:E; [done|].
  intros [= <-]. by apply strptime_Ym_raises in E.
Qed.

Lemma for_each_sections_raise
  (groups : list (string * list (string * string * string)))
  (written : list (list Csv.cell)) :
  Exists (λ g, month_section g.1 g.2 = Raise ValueError) groups →
  for_each (λ written '(month_key, entries),
              rows ← month_section month_key entries; mret (written ++ rows))
           groups written
  = Raise ValueError.
Proof.
  intros H. revert written.
  induction H as [[k e] groups Hg|[k e] groups _ IH]; intros written; simpl.
  - simpl in Hg. by rewrite Hg.
  - destruct (month_section k e) as [rows|x] eqn:E; simpl; [apply IH|].
    by rewrite (month_section_raises _ _ _ E).
Qed.

Lemma full_report_rows_eq data :
  full_report_rows data
  = if forallb (λ r, reportable r.1.2) data
    then Ok ([Csv.CStr "Catch-up Tracker - Full Report"] :: []
             :: concat (map (λ g, section_rows g.1 g.2)
                            (grouped (λ r, month_key_of r.1.2) data)))
    else Raise ValueError.
Proof.
  unfold full_report_rows. rewrite group_report_by_month_eq.
  destruct (forallb (λ r, accepted r.1.2) data) eqn:E.
  - rewrite forallb_true_Forall, Forall_forall in E. simpl.
    destruct (forallb (λ r, reportable r.1.2) data) eqn:R.
    + rewrite forallb_true_Forall, Forall_forall in R.
      rewrite for_each_sections; [done|].
      apply Forall_forall. intros [k e] [Hk _]%elem_of_grouped.
      apply list_elem_of_fmap in Hk as (r & -> & Hr). simpl.
      rewrite month_section_key by (by apply E). by rewrite (R r Hr).
    + apply forallb_false_Exists, Exists_exists in R as (r & Hr & Hno).
      rewrite for_each_sections_raise; [done|].
      destruct (grouped_holds (λ r, month_key_of r.1.2) data r Hr)
        as (vs & Hg & _).
      apply Exists_exists. eexists. split; [exact Hg|]. simpl.
      rewrite month_section_key by (by apply E). by rewrite Hno.
  - destruct (forallb (λ r, reportable r.1.2) data) eqn:R; [|done].
    rewrite forallb_true_Forall, Forall_forall in R.
    apply forallb_false_Exists, Exists_exists in E as (r & Hr & Hno).
    by rewrite (reportable_accepted _ (R r Hr)) in Hno.
Qed.

Lemma download_all_catchups_eq d :
  download_all_catchups d
  = (if forallb (λ r, reportable r.1.2) (joined_report d)
     then Ok (mk_response 200 "text/csv"
                [("Content-Disposition",
                  "attachment; filename=all_catchups_monthly_report.csv")]
                (Csv.getvalue
                   ([Csv.CStr "Catch-up Tracker - Full Report"] :: []
                    :: concat (map (λ g, section_rows g.1 g.2)
                         (grouped (λ r, month_key_of r.1.2) (joined_report d))))))
     else Raise ValueError, d).
Proof.
  unfold download_all_catchups, mbind, M_bind, lift, Sql.select_joined_report.
  fold (joined_report d). rewrite full_report_rows_eq.
  by destruct (forallb _ _).
Qed.

Lemma NoDup_map_inj {A B} (f : A → B) l x y :
  NoDup (map f l) → x ∈ l → y ∈ l → f x = f y → x = y.
Proof.
  induction l as [|a l IH]; simpl; [by intros _ ?%elem_of_nil|].
  intros [Ha Hl]%NoDup_cons [->|Hx]%elem_of_cons [->|Hy]%elem_of_cons E; auto.
  - exfalso. apply Ha. rewrite E. by apply list_elem_of_fmap_2.
  - exfalso. apply Ha. rewrite <- E. by apply list_elem_of_fmap_2.
Qed.




(** ** Catch-ups without a student *)

Lemma join_rows_orphan (d d' : db) c :
  students d' = students d →
  catchups d' = catchups d ++ [c] →
  Forall (λ s, s_id s ≠ c_student_id c) (students d) →
  Sql.join_rows d' = Sql.join_rows d.
Proof.
  intros Hs Hc H. unfold Sql.join_rows. rewrite Hs, Hc, bind_app. simpl.
  rewrite app_nil_r. clear Hs Hc.
  assert ((students d ≫= λ s, if s_id s =? c_student_id c then [(s, c)] else [])
          = []) as ->.
  { induction H as [|s l Hne _ IH]; simpl; [done|].
    destruct (Z.eqb_spec (s_id s) (c_student_id c)); [done | exact IH]. }
  by rewrite app_nil_r.
Qed.

Lemma rows_of_student_other sid (d d' : db) c :
  catchups d' = catchups d ++ [c] →
  c_student_id c ≠ sid →
  rows_of_student sid d' = rows_of_student sid d.
Proof.
  intros Hc H. unfold rows_of_student. rewrite Hc, List.filter_app. simpl.
  destruct (Z.eqb_spec (c_student_id c) sid); [done | by rewrite app_nil_r].
Qed.

(** C9.  A catch-up whose student id (a 64-bit integer) belongs to no
    student is accepted and stored at the end of the catchups table, yet the
    month mapping, the full report and every by-name report and download
    answer as before, and no joined row carries that id. *)
Theorem orphan_catchup_in_no_report (d : db) (catchup : CatchUp.t) :
  Sql.fits_int64 (CatchUp.student_id catchup) = true →
  Forall (λ s, s_id s ≠ CatchUp.student_id catchup) (students d) →
  ∃ d',
    add_catchup catchup d = (Ok (mk_message "Catch-up recorded"), d')
    ∧ students d' = students d
    ∧ catchups d'
      = catchups d
        ++ [mk_catchup (Sql.next_rowid (catchups_seq d) (map c_id (catchups d)))
              (CatchUp.student_id catchup) (CatchUp.date catchup)
              (CatchUp.lesson_missed catchup)]
    ∧ (list_all_catchups d').1 = (list_all_catchups d).1
    ∧ (download_all_catchups d').1 = (download_all_catchups d).1
    ∧ (∀ n, (list_catchups_by_name n d').1 = (list_catchups_by_name n d).1)
    ∧ (∀ n, (download_catchups_by_name n d').1
            = (download_catchups_by_name n d).1)
    ∧ Forall (λ r, r.1.2 ≠ CatchUp.student_id catchup) (joined d').
Proof.
  intros Hfit Horphan. rewrite add_catchup_eq, Hfit.
  eexists. split; [reflexivity|].
  match goal with |- students ?x = _ ∧ _ => set (d' := x) end.
  set (c := mk_catchup (Sql.next_rowid (catchups_seq d) (map c_id (catchups d)))
              (CatchUp.student_id catchup) (CatchUp.date catchup)
              (CatchUp.lesson_missed catchup)).
  assert (Hs : students d' = students d) by done.
  assert (Hc : catchups d' = catchups d ++ [c]) by done.
  split; [done|]. split; [done|].
  assert (Hjoin : Sql.ordered_join d' = Sql.ordered_join d).
  { unfold Sql.ordered_join. by rewrite (join_rows_orphan d d' c Hs Hc). }
  assert (Hres : ∀ n, resolve n d' = resolve n d) by done.
  assert (Hrows : ∀ n sid, resolve n d = Some sid →
            rows_of_student sid d' = rows_of_student sid d).
  { intros n sid (s & Hin & _ & <-)%resolve_Some.
    apply (rows_of_student_other _ d d' c Hc). simpl.
    rewrite Forall_forall in Horphan. intros E. by apply (Horphan s Hin). }
  clearbody d'.
  split; [|split; [|split; [|split]]].
  - rewrite !list_all_catchups_eq. unfold joined. by rewrite Hjoin.
  - rewrite !download_all_catchups_eq. unfold joined_report. by rewrite Hjoin.
  - intros n. rewrite !list_catchups_by_name_eq, Hres. simpl.
    destruct (resolve n d) as [sid|] eqn:E; [|done]. by rewrite (Hrows n sid E).
  - intros n. rewrite !download_catchups_by_name_eq, Hres. simpl.
    destruct (resolve n d) as [sid|] eqn:E; [|done]. by rewrite (Hrows n sid E).
  - unfold joined. rewrite Hjoin. apply Forall_forall.
    intros r ([s c'] & -> & (Hc' & Hin & E)%elem_of_ordered_join)%list_elem_of_fmap.
    simpl. rewrite <- E. rewrite Forall_forall in Horphan. by apply Horphan.
Qed.

(** ** The claims on sample histories *)

Example ana_report :
  (list_catchups_by_name "Ana" (serve ana_history init_db)).1
  = Ok [mk_catchup_json 1 "2024-03-01" "L1" "Free";
        mk_catchup_json 2 "2024-03-15" "L2" "Free";
        mk_catchup_json 3 "2024-03-20" "L3" "Charge"].
Proof. reflexivity. Qed.

Example jan_feb_all_free :
  body <$> (match (download_all_catchups (serve jan_feb_history init_db)).1 with
            | Ok resp => Some resp
            | Raise _ => None
            end)
  = Some (Csv.getvalue
      [[Csv.CStr "Catch-up Tracker - Full Report"]; [];
       [Csv.CStr "Month: January 2024"];
       [Csv.CStr "Student Name"; Csv.CStr "Catch-up Date";
        Csv.CStr "Lesson Missed"; Csv.CStr "Status"];
       [Csv.CStr "Ana"; Csv.CStr "2024-01-08"; Csv.CStr "L1"; Csv.CStr "Free"];
       [Csv.CStr "Bob"; Csv.CStr "2024-01-09"; Csv.CStr "B1"; Csv.CStr "Free"];
       [Csv.CStr "Ana"; Csv.CStr "2024-01-22"; Csv.CStr "L2"; Csv.CStr "Free"];
       [];
       [Csv.CStr "Month: February 2024"];
       [Csv.CStr "Student Name"; Csv.CStr "Catch-up Date";
        Csv.CStr "Lesson Missed"; Csv.CStr "Status"];
       [Csv.CStr "Ana"; Csv.CStr "2024-02-05"; Csv.CStr "L3"; Csv.CStr "Free"];
       []]).
Proof. vm_compute. reflexivity. Qed.

Example short_year_views :
  (list_all_catchups (serve short_year_history init_db)).1
  = Ok [("999-01", [("Ana", "0999-01-05", 1, "L1")])]
  ∧ (download_all_catchups (serve short_year_history init_db)).1
    = Raise ValueError.
Proof. split; vm_compute; reflexivity. Qed.

Lemma by_name_reports_nth_recorded_witness :
  (1 ≤ 3)%nat
  ∧ resolve "Ana" (serve ana_history init_db) = Some 1
  ∧ recorded_for 1 ana_history !! (3 - 1)%nat
    = Some (CatchUp.mk 1 "2024-03-20" "L3")
  ∧ ∃ report,
      list_catchups_by_name "Ana" (serve ana_history init_db)
      = (Ok report, serve ana_history init_db)
      ∧ report !! 2%nat = Some (mk_catchup_json 3 "2024-03-20" "L3" "Charge").
Proof.
  split; [lia|]. split; [reflexivity|]. split; [reflexivity|].
  destruct (by_name_reports_nth_recorded ana_history "Ana" 1 3
              (CatchUp.mk 1 "2024-03-20" "L3") ltac:(lia) eq_refl eq_refl)
    as [(report & E & _ & Hrow) _].
  exists report. split; [exact E | exact Hrow].
Defined.


Lemma add_student_idempotent_witness :
  schema_ok init_db
  ∧ (1 ≤ 2)%nat
  ∧ length (named "Ana" (Nat.iter 2 (handle (POST_students (Student.mk "Ana")))
                                  init_db)) = 1%nat
  ∧ students (Nat.iter 2 (handle (POST_students (Student.mk "Ana"))) init_db)
    = students (handle (POST_students (Student.mk "Ana")) init_db).
Proof.
  assert (H1 : schema_ok init_db) by (unfold schema_ok; compute_done).
  split; [exact H1|]. split; [lia|].
  destruct (add_student_idempotent (Student.mk "Ana") init_db 2 H1 ltac:(lia))
    as (Hone & Hsame & _).
  split; [exact Hone | exact Hsame].
Defined.

Lemma list_all_catchups_by_month_witness :
  Forall (λ r, accepted r.1.1.2 = true) (joined (serve jan_feb_history init_db))
  ∧ ∃ monthly,
      list_all_catchups (serve jan_feb_history init_db)
      = (Ok monthly, serve jan_feb_history init_db)
      ∧ map fst monthly
        = first_seen (map (λ r, month_key_of r.1.1.2)
                          (joined (serve jan_feb_history init_db))).
Proof.
  assert (H1 : Forall (λ r, accepted r.1.1.2 = true)
                 (joined (serve jan_feb_history init_db)))
    by (apply forallb_true_Forall; vm_compute; reflexivity).
  split; [exact H1|].
  destruct (list_all_catchups_by_month _ H1) as (monthly & E & _ & _ & Hk & _).
  exists monthly. split; [exact E | exact Hk].
Defined.

Lemma unpadded_months_out_of_order :
  ∃ monthly,
    list_all_catchups (serve unpadded_history init_db)
    = (Ok monthly, serve unpadded_history init_db)
    ∧ map fst monthly = ["2024-10"; "2024-09"]
    ∧ ¬ chronological (map fst monthly).
Proof.
  eexists. split; [vm_compute; reflexivity|]. split; [reflexivity|].
  simpl. intros H. apply StronglySorted_inv in H as [_ H].
  apply Forall_cons in H as [(o1 & o2 & E1 & E2 & Hlt) _].
  vm_compute in E1, E2. injection E1 as <-. injection E2 as <-. lia.
Qed.

Lemma by_name_empty_witness :
  (resolve "Zed" (serve ana_history init_db) = None
   ∨ ∃ sid, resolve "Zed" (serve ana_history init_db) = Some sid
            ∧ Forall (λ c, c_student_id c ≠ sid)
                     (catchups (serve ana_history init_db)))
  ∧ list_catchups_by_name "Zed" (serve ana_history init_db)
    = (Ok [], serve ana_history init_db).
Proof.
  assert (H1 : resolve "Zed" (serve ana_history init_db) = None) by reflexivity.
  split; [left; exact H1|].
  exact (by_name_empty "Zed" (serve ana_history init_db) (or_introl H1)).
Defined.

Lemma download_unknown_name_witness :
  Forall (λ s, s_name s ≠ "Zed") (students (serve ana_history init_db))
  ∧ download_catchups_by_name "Zed" (serve ana_history init_db)
    = (Ok (mk_response 200 "text/plain" [] "Student not found."),
       serve ana_history init_db).
Proof.
  assert (H1 : Forall (λ s, s_name s ≠ "Zed")
                 (students (serve ana_history init_db))) by compute_done.
  split; [exact H1|].
  exact (download_unknown_name "Zed" (serve ana_history init_db) H1).
Defined.


Lemma unpadded_date_served :
  is_Ok (list_all_catchups (serve lenient_history init_db)).1 = true
  ∧ Exists (λ r, is_iso_date r.1.1.2 = false)
           (joined (serve lenient_history init_db))
  ∧ ¬ ((list_all_catchups (serve lenient_history init_db)).1 = Raise ValueError
       ↔ Exists (λ r, is_iso_date r.1.1.2 = false)
                (joined (serve lenient_history init_db))).
Proof.
  assert (H1 : Exists (λ r, is_iso_date r.1.1.2 = false)
                 (joined (serve lenient_history init_db)))
    by (apply forallb_false_Exists; vm_compute; reflexivity).
  split; [vm_compute; reflexivity|]. split; [exact H1|].
  intros [_ H]. specialize (H H1). vm_compute in H. discriminate H.
Qed.


Lemma orphan_catchup_in_no_report_witness :
  Sql.fits_int64 7 = true
  ∧ Forall (λ s, s_id s ≠ 7) (students (serve ana_history init_db))
  ∧ ∃ d',
      add_catchup (CatchUp.mk 7 "2024-03-02" "L9") (serve ana_history init_db)
      = (Ok (mk_message "Catch-up recorded"), d')
      ∧ (list_all_catchups d').1
        = (list_all_catchups (serve ana_history init_db)).1
      ∧ (download_all_catchups d').1
        = (download_all_catchups (serve ana_history init_db)).1.
Proof.
  assert (H1 : Sql.fits_int64 7 = true) by reflexivity.
  assert (H2 : Forall (λ s, s_id s ≠ 7) (students (serve ana_history init_db)))
    by compute_done.
  split; [exact H1|]. split; [exact H2|].
  destruct (orphan_catchup_in_no_report (serve ana_history init_db)
              (CatchUp.mk 7 "2024-03-02" "L9") H1 H2)
    as (d' & E & _ & _ & Hall & Hdl & _).
  exists d'. split; [exact E|]. split; [exact Hall | exact Hdl].
Defined.

(* ===================================================================== *)
(** * Further properties of the handlers *)
(* ===================================================================== *)

(** ** The students table over a history *)

Lemma existsb_name_see (name : string) (l : list student_row) :
  existsb (λ s, String.eqb (s_name s) name) l
  = existsb (String.eqb name) (map s_name l).
Proof.
  induction l as [|s l IH]; simpl; [done|].
  by rewrite IH, (String.eqb_sym (s_name s) name).
Qed.

Lemma handle_student_names (r : request) (d : db) :
  map s_name (students (handle r d))
  = fold_left see (posted_names [r]) (map s_name (students d)).
Proof.
  destruct r as [st| |cu|n| |n|]; simpl;
    rewrite ?list_catchups_by_name_frame, ?download_catchups_by_name_frame,
            ?download_all_catchups_frame; try done.
  - rewrite add_student_eq. simpl. unfold see.
    rewrite <- existsb_name_see. destruct (existsb _ _); [done|].
    by rewrite map_app.
  - rewrite add_catchup_eq. by destruct (Sql.fits_int64 _).
Qed.

Lemma posted_names_cons r h :
  posted_names (r :: h) = posted_names [r] ++ posted_names h.
Proof. apply (omap_app _ [r] h). Qed.

Lemma serve_student_names (history : list request) (d : db) :
  map s_name (students (serve history d))
  = fold_left see (posted_names history) (map s_name (students d)).
Proof.
  revert d. induction history as [|r h IH]; intros d; [done|].
  change (serve (r :: h) d) with (serve h (handle r d)).
  by rewrite IH, handle_student_names, (posted_names_cons r h), fold_left_app.
Qed.

Lemma next_rowid_positive seq ids : 0 < Sql.next_rowid seq ids.
Proof.
  unfold Sql.next_rowid.
  assert (0 ≤ foldr Z.max 0 ids) by (induction ids; simpl; lia). lia.
Qed.

Lemma handle_ids_ascending (r : request) (d : db) :
  ids_ascending d → ids_ascending (handle r d).
Proof.
  intros [Hs Hp]. destruct r as [st| |cu|n| |n|]; simpl;
    rewrite ?list_catchups_by_name_frame, ?download_catchups_by_name_frame,
            ?download_all_catchups_frame; try done.
  - rewrite add_student_eq. unfold ids_ascending. simpl.
    destruct (existsb _ _); [done|]. rewrite map_app. simpl. split.
    + apply StronglySorted_app_2; [|done|repeat constructor].
      intros x y Hx ->%list_elem_of_singleton. by apply next_rowid_above.
    + apply Forall_app. split; [done|]. repeat constructor.
      apply next_rowid_positive.
  - rewrite add_catchup_eq. by destruct (Sql.fits_int64 _).
Qed.

Lemma serve_ids_ascending (history : list request) (d : db) :
  ids_ascending d → ids_ascending (serve history d).
Proof.
  revert d. induction history as [|r h IH]; intros d Hd; [done|].
  apply (IH (handle r d)), handle_ids_ascending, Hd.
Qed.

(** X1.  After any history of requests on a fresh store, GET /students lists
    every posted name once, in the order the names were first posted, with
    positive ids that ascend along the list. *)
Theorem list_students_first_posted (history : list request) :
  ∃ listed,
    list_students (serve history init_db) = (Ok listed, serve history init_db)
    ∧ map name listed = first_seen (posted_names history)
    ∧ NoDup (map name listed)
    ∧ StronglySorted Z.lt (map id listed)
    ∧ Forall (λ i, 0 < i) (map id listed).
Proof.
  eexists. split; [reflexivity|].
  assert (Hn : ∀ l : list student_row,
            map name (map (λ row : Z * string, mk_student_json row.1 row.2)
                          (map (λ s, (s_id s, s_name s)) l)) = map s_name l).
  { intros l. rewrite !map_map. by apply map_ext. }
  assert (Hi : ∀ l : list student_row,
            map id (map (λ row : Z * string, mk_student_json row.1 row.2)
                        (map (λ s, (s_id s, s_name s)) l)) = map s_id l).
  { intros l. rewrite !map_map. by apply map_ext. }
  rewrite Hn, Hi, serve_student_names.
  split; [done|]. split; [apply first_seen_NoDup|].
  apply (serve_ids_ascending history init_db). split; constructor.
Qed.

(** ** Nothing is deleted or rewritten *)

Lemma handle_append_only (r : request) (d : db) :
  students d `prefix_of` students (handle r d)
  ∧ catchups d `prefix_of` catchups (handle r d).
Proof.
  destruct r as [st| |cu|n| |n|]; simpl;
    rewrite ?list_catchups_by_name_frame, ?download_catchups_by_name_frame,
            ?download_all_catchups_frame; try done.
  - rewrite add_student_eq. simpl. split; [|done].
    destruct (existsb _ _); [done | by apply prefix_app_r].
  - rewrite add_catchup_eq. destruct (Sql.fits_int64 _); [|done]. simpl.
    split; [done | by apply prefix_app_r].
Qed.

(** X2.  No request deletes or changes a stored row: after any history the
    students table and the catchups table both start with the rows they had
    before, in the same order. *)
Theorem serve_append_only (history : list request) (d : db) :
  students d `prefix_of` students (serve history d)
  ∧ catchups d `prefix_of` catchups (serve history d).
Proof.
  revert d. induction history as [|r h IH]; intros d; [done|].
  change (serve (r :: h) d) with (serve h (handle r d)).
  destruct (handle_append_only r d) as [Hs Hc].
  destruct (IH (handle r d)) as [Hs' Hc'].
  split; etrans; eauto.
Qed.

Lemma serve_tables (history : list request) (d : db) :
  ∃ new_students new_catchups,
    students (serve history d) = students d ++ new_students
    ∧ catchups (serve history d) = catchups d ++ new_catchups.
Proof.
  revert d. induction history as [|r h IH]; intros d.
  - exists [], []. by rewrite !app_nil_r.
  - change (serve (r :: h) d) with (serve h (handle r d)).
    destruct (handle_append_only r d) as [[s1 Hs] [c1 Hc]].
    destruct (IH (handle r d)) as (s2 & c2 & Hs' & Hc').
    exists (s1 ++ s2), (c1 ++ c2).
    by rewrite Hs', Hc', Hs, Hc, <- !app_assoc.
Qed.

Lemma resolve_app (student_name : string) (d d' : db) (sid : Z) more :
  students d' = students d ++ more →
  resolve student_name d = Some sid → resolve student_name d' = Some sid.
Proof.
  unfold resolve. intros ->. rewrite List.filter_app.
  by destruct (List.filter _ (students d)).
Qed.

(** X3.  A student's id is permanent: once a name resolves to an id, it
    resolves to the same id after any further requests. *)
Theorem resolve_permanent (history : list request) (student_name : string)
  (d : db) (sid : Z) :
  resolve student_name d = Some sid →
  resolve student_name (serve history d) = Some sid.
Proof.
  destruct (serve_tables history d) as (s & c & Hs & Hc).
  by apply resolve_app with s.
Qed.

Lemma enumerate_app {A} (l k : list A) (start : Z) :
  enumerate start (l ++ k)
  = enumerate start l ++ enumerate (start + Z.of_nat (length l)) k.
Proof.
  revert start. induction l as [|x l IH]; intros start; simpl.
  - by rewrite Z.add_0_r.
  - rewrite IH. do 3 f_equal. lia.
Qed.

Lemma report_of_app (data more : list (string * string)) :
  report_of data `prefix_of` report_of (data ++ more).
Proof.
  unfold report_of. rewrite enumerate_app, map_app. by apply prefix_app_r.
Qed.

(** X4.  The by-name report only grows at its end: for a name that already
    resolves, the report after any further requests starts with the report
    as it was, so an entry's number and charge never change. *)
Theorem by_name_report_grows (history : list request) (student_name : string)
  (d : db) (sid : Z) :
  resolve student_name d = Some sid →
  ∃ before after,
    list_catchups_by_name student_name d = (Ok before, d)
    ∧ list_catchups_by_name student_name (serve history d)
      = (Ok after, serve history d)
    ∧ before `prefix_of` after
    ∧ length after
      = (length before + length (recorded_for sid history))%nat.
Proof.
  intros Hres.
  destruct (serve_tables history d) as (s & c & Hs & Hc).
  rewrite !list_catchups_by_name_eq, Hres, (resolve_app _ d _ sid s Hs Hres).
  do 2 eexists. split; [done|]. split; [done|].
  rewrite rows_of_student_serve. split; [apply report_of_app|].
  unfold report_of.
  rewrite !length_map, !enumerate_length, length_app, !length_map. done.
Qed.

Lemma resolve_None_absent (student_name : string) (d : db) :
  resolve student_name d = None →
  existsb (λ s, String.eqb (s_name s) student_name) (students d) = false.
Proof.
  unfold resolve. induction (students d) as [|s l IH]; simpl; [done|].
  destruct (String.eqb _ _); simpl; [discriminate | exact IH].
Qed.

Lemma resolve_new_student (student : Student.t) (d : db) :
  resolve (Student.name student) d = None →
  resolve (Student.name student) (handle (POST_students student) d)
  = Some (Sql.next_rowid (students_seq d) (map s_id (students d))).
Proof.
  intros Hex%resolve_None_absent. simpl. rewrite add_student_eq.
  unfold resolve. simpl.
  rewrite Hex, List.filter_app, filter_name_absent by done. simpl.
  by rewrite String.eqb_refl.
Qed.

(** X5.  Registering a name that is not yet known gives it a fresh id above
    every stored student id; the by-name report of the new student lists
    exactly the catch-ups that were already stored under that id, so it is
    empty when no catch-up carries an id that high. *)
Theorem register_new_student (student : Student.t) (d : db) :
  resolve (Student.name student) d = None →
  ∃ sid,
    resolve (Student.name student) (handle (POST_students student) d) = Some sid
    ∧ sid = Sql.next_rowid (students_seq d) (map s_id (students d))
    ∧ Forall (λ s, s_id s < sid) (students d)
    ∧ list_catchups_by_name (Student.name student)
        (handle (POST_students student) d)
      = (Ok (report_of (rows_of_student sid d)),
         handle (POST_students student) d)
    ∧ (Forall (λ c, c_student_id c < sid) (catchups d) →
       list_catchups_by_name (Student.name student)
         (handle (POST_students student) d)
       = (Ok [], handle (POST_students student) d)).
Proof.
  intros Hnone. pose proof (resolve_new_student student d Hnone) as Hres.
  eexists. split; [exact Hres|]. split; [reflexivity|].
  assert (Hrows : rows_of_student
                    (Sql.next_rowid (students_seq d) (map s_id (students d)))
                    (handle (POST_students student) d)
                  = rows_of_student
                      (Sql.next_rowid (students_seq d) (map s_id (students d)))
                      d).
  { unfold rows_of_student. by rewrite add_student_catchups. }
  split; [|split].
  - apply Forall_forall. intros s Hs. apply next_rowid_above.
    by apply list_elem_of_fmap_2.
  - by rewrite list_catchups_by_name_eq, Hres, Hrows.
  - intros Hlow. rewrite list_catchups_by_name_eq, Hres, Hrows.
    do 2 f_equal. unfold rows_of_student.
    induction Hlow as [|c l Hc _ IH]; simpl; [done|].
    destruct (Z.eqb_spec (c_student_id c)
                (Sql.next_rowid (students_seq d) (map s_id (students d))));
      [lia | exact IH].
Qed.

(** ** The two monthly views side by side *)

Lemma joined_report_drop (d : db) :
  joined_report d = map drop_student_id (joined d).
Proof.
  unfold joined_report, joined. rewrite map_map. apply map_ext. by intros [s c].
Qed.

Lemma filter_map_comm {A B} (f : A → B) (p : B → bool) (l : list A) :
  List.filter p (map f l) = map f (List.filter (λ x, p (f x)) l).
Proof.
  induction l as [|x l IH]; simpl; [done|].
  destruct (p (f x)); simpl; by rewrite IH.
Qed.

Lemma grouped_map {A B} (f : A → B) (key : A → string) (key' : B → string)
  (rows : list A) :
  (∀ r, key' (f r) = key r) →
  grouped key' (map f rows)
  = map (λ g, (g.1, map f g.2)) (grouped key rows).
Proof.
  intros Hkey. unfold grouped. rewrite !map_map.
  replace (map (λ x, key' (f x)) rows) with (map key rows)
    by (apply map_ext; intros; by rewrite Hkey).
  apply map_ext. intros k. simpl. f_equal. rewrite filter_map_comm.
  f_equal. induction rows as [|r rows IH]; simpl; [done|].
  by rewrite Hkey, IH.
Qed.

Lemma accepted_joined_report (d : db) :
  forallb (λ r, accepted r.1.2) (joined_report d)
  = forallb (λ r, accepted r.1.1.2) (joined d).
Proof.
  rewrite joined_report_drop. induction (joined d) as [|r l IH]; simpl; [done|].
  by rewrite IH.
Qed.

Lemma reportable_joined_report (d : db) :
  forallb (λ r, reportable r.1.2) (joined_report d)
  = forallb (λ r, reportable r.1.1.2) (joined d).
Proof.
  rewrite joined_report_drop. induction (joined d) as [|r l IH]; simpl; [done|].
  by rewrite IH.
Qed.

Lemma key_reads_back_reportable s :
  accepted s = true →
  is_Ok (PyDate.strptime_Ym (month_key_of s)) = reportable s.
Proof.
  unfold accepted, reportable, month_key_of.
  destruct (PyDate.strptime_Ymd s) as [t|] eqn:E; [|done]. intros _.
  pose proof (strptime_Ymd_fields s t E) as Hf. destruct t as [y m dd].
  simpl in Hf. rewrite (strptime_strftime_Ym y m dd Hf). cbn [PyDate.year].
  by destruct (1000 <=? y).
Qed.

Lemma forallb_ext_elem {A} (p q : A → bool) l :
  (∀ x, x ∈ l → p x = q x) → forallb p l = forallb q l.
Proof.
  induction l as [|x l IH]; intros H; simpl; [done|].
  rewrite (H x) by left. rewrite IH; [done|]. intros y Hy. apply H. by right.
Qed.

Lemma forallb_first_seen (p : string → bool) ks :
  forallb p (first_seen ks) = forallb p ks.
Proof.
  apply eq_true_iff_eq. rewrite !forallb_forall.
  split; intros H k Hk%list_elem_of_In; apply H, list_elem_of_In.
  - by apply first_seen_elem_of.
  - by apply first_seen_elem_of.
Qed.

Lemma forallb_grouped_keys {A} (p : string → bool) (key : A → string) rows :
  forallb (λ g, p g.1) (grouped key rows) = forallb (λ r, p (key r)) rows.
Proof.
  assert (Hmap : ∀ B (f : B → string) l,
            forallb (λ x, p (f x)) l = forallb p (map f l)).
  { intros B f l. induction l as [|x l IH]; simpl; [done | by rewrite IH]. }
  by rewrite (Hmap _ fst), grouped_keys, forallb_first_seen, <- Hmap.
Qed.

(** X6.  The full download follows the month mapping.  It succeeds only when
    GET /catchups/all does; when the mapping is served, the download succeeds
    exactly when every key of the mapping reads back under ['%Y-%m'], and
    then the CSV has one section per key of the mapping, in the same order,
    each made from the rows the mapping holds under that key (without the
    student id); with a key that does not read back it raises
    [ValueError]. *)
Theorem monthly_download_follows_mapping (d : db) :
  (is_Ok (download_all_catchups d).1 = true →
   is_Ok (list_all_catchups d).1 = true)
  ∧ ∀ monthly,
      list_all_catchups d = (Ok monthly, d) →
      download_all_catchups d
      = (if forallb (λ g, is_Ok (PyDate.strptime_Ym g.1)) monthly
         then Ok (mk_response 200 "text/csv"
                    [("Content-Disposition",
                      "attachment; filename=all_catchups_monthly_report.csv")]
                    (Csv.getvalue
                       ([Csv.CStr "Catch-up Tracker - Full Report"] :: []
                        :: concat
                             (map (λ g, section_rows g.1
                                          (map drop_student_id g.2))
                                  monthly))))
         else Raise ValueError, d).
Proof.
  rewrite list_all_catchups_eq, download_all_catchups_eq,
    reportable_joined_report.
  split.
  - destruct (forallb (λ r, reportable r.1.1.2) (joined d)) eqn:R; [|done].
    intros _. rewrite forallb_true_Forall in R.
    rewrite (proj2 (forallb_true_Forall (λ r, accepted r.1.1.2) _)); [done|].
    eapply Forall_impl; [exact R|]. intros r. apply reportable_accepted.
  - intros monthly.
    destruct (forallb (λ r, accepted r.1.1.2) (joined d)) eqn:A; [|done].
    intros [= <-].
    rewrite (forallb_grouped_keys (λ k, is_Ok (PyDate.strptime_Ym k))).
    replace (forallb (λ r, is_Ok (PyDate.strptime_Ym (month_key_of r.1.1.2)))
               (joined d))
      with (forallb (λ r, reportable r.1.1.2) (joined d)).
    + destruct (forallb (λ r, reportable r.1.1.2) (joined d)); [|done].
      do 5 f_equal. rewrite joined_report_drop.
      rewrite (grouped_map drop_student_id (λ r, month_key_of r.1.1.2)) by done.
      by rewrite map_map.
    + rewrite forallb_true_Forall, Forall_forall in A.
      apply forallb_ext_elem. intros r Hr.
      by rewrite key_reads_back_reportable by (by apply A).
Qed.

(** ** Every joined row lands in one month *)

Lemma dict_append_values {V} (k : string) (v : V) (d : list (string * list V)) :
  concat (map snd (dict_append k v d)) ≡ₚ concat (map snd d) ++ [v].
Proof.
  induction d as [|[k' vs] d IH]; simpl; [done|].
  destruct (String.eqb k' k); simpl.
  - rewrite <- !app_assoc. apply Permutation_app_head, Permutation_app_comm.
  - by rewrite IH, app_assoc.
Qed.

Lemma grouped_values {A} (key : A → string) (rows : list A) :
  concat (map snd (grouped key rows)) ≡ₚ rows.
Proof.
  induction rows as [|r rows IH] using rev_ind; [done|].
  by rewrite grouped_snoc, dict_append_values, IH.
Qed.

Lemma grouped_nonempty {A} (key : A → string) (rows : list A) :
  Forall (λ g, g.2 ≠ []) (grouped key rows).
Proof.
  apply Forall_forall. intros [k vs] [Hk ->]%elem_of_grouped. simpl.
  apply list_elem_of_fmap in Hk as (r & -> & Hr). intros Hnil.
  assert (Hin : In r (List.filter (λ r0, String.eqb (key r0) (key r)) rows)).
  { apply filter_In. split; [by apply list_elem_of_In | apply String.eqb_refl]. }
  by rewrite Hnil in Hin.
Qed.

(** X7.  Grouping by month loses and invents nothing: when GET /catchups/all
    succeeds, the rows under all keys together are the joined rows (each as
    often as the join has it), no key occurs twice and no key holds an empty
    list. *)
Theorem months_partition_joined (d : db) monthly :
  list_all_catchups d = (Ok monthly, d) →
  concat (map snd monthly) ≡ₚ joined d
  ∧ NoDup (map fst monthly)
  ∧ Forall (λ g, g.2 ≠ []) monthly
  ∧ ∀ r, r ∈ joined d → ∃ rows, (month_key_of r.1.1.2, rows) ∈ monthly ∧ r ∈ rows.
Proof.
  rewrite list_all_catchups_eq. destruct (forallb _ _); [|done]. intros [= <-].
  split; [apply grouped_values|].
  split; [rewrite grouped_keys; apply first_seen_NoDup|].
  split; [apply grouped_nonempty|].
  intros r Hr. by apply (grouped_holds (λ r, month_key_of r.1.1.2)).
Qed.

(** ** Which catch-ups the join sees *)

Lemma students_of_id (c : catchup_row) (l : list student_row) :
  NoDup (map s_id l) →
  map snd (l ≫= λ s, if s_id s =? c_student_id c then [(s, c)] else [])
  = if existsb (λ s, s_id s =? c_student_id c) l then [c] else [].
Proof.
  induction l as [|s l IH]; [done|].
  intros [Hs Hl]%NoDup_cons. specialize (IH Hl).
  rewrite bind_cons, map_app, IH. cbn [existsb].
  destruct (Z.eqb_spec (s_id s) (c_student_id c)) as [E|E]; simpl; [|done].
  f_equal. destruct (existsb _ l) eqn:Ex; [|done].
  apply existsb_exists in Ex as (s' & Hin & E'%Z.eqb_eq).
  exfalso. apply Hs. rewrite E, <- E'. by apply list_elem_of_fmap_2, list_elem_of_In.
Qed.

Lemma join_rows_catchups (d : db) :
  NoDup (map s_id (students d)) →
  map snd (Sql.join_rows d) = List.filter (registered d) (catchups d).
Proof.
  intros Hid. unfold Sql.join_rows, registered.
  induction (catchups d) as [|c l IH]; [done|].
  rewrite bind_cons, map_app, IH, (students_of_id c _ Hid). simpl.
  by destruct (existsb _ _).
Qed.

(** X8.  Under the schema's constraints the join holds each stored catch-up of
    a registered student exactly once and nothing else: the catch-up columns
    of the joined rows are a rearrangement of the catch-ups whose student id
    some student carries. *)
Theorem joined_rows_are_registered_catchups (d : db) :
  schema_ok d →
  map (λ r, (r.1.1.2, r.1.2, r.2)) (joined d)
  ≡ₚ map (λ c, (c_date c, c_student_id c, c_lesson_missed c))
         (List.filter (registered d) (catchups d))
  ∧ length (joined d) = length (List.filter (registered d) (catchups d)).
Proof.
  intros (Hid & _ & _).
  assert (H : map (λ r : string * string * Z * string, (r.1.1.2, r.1.2, r.2))
                (joined d)
              ≡ₚ map (λ c, (c_date c, c_student_id c, c_lesson_missed c))
                     (List.filter (registered d) (catchups d))).
  { rewrite <- (join_rows_catchups d Hid). unfold joined, Sql.ordered_join.
    rewrite !map_map. rewrite order_by_Permutation.
    match goal with |- ?a ≡ₚ ?b => replace a with b; [done|] end.
    apply map_ext. by intros [s c]. }
  split; [exact H|].
  apply Permutation_length in H. by rewrite !length_map in H.
Qed.

(** ** One bad date *)

Lemma joined_elem_of (d : db) (s : student_row) (c : catchup_row) :
  c ∈ catchups d → s ∈ students d → s_id s = c_student_id c →
  (s_name s, c_date c, c_student_id c, c_lesson_missed c) ∈ joined d.
Proof.
  intros Hc Hs E. unfold joined. apply list_elem_of_fmap. exists (s, c).
  split; [done|]. by apply elem_of_ordered_join.
Qed.

Lemma monthly_fails_on (d : db) r :
  r ∈ joined d → accepted r.1.1.2 = false →
  (list_all_catchups d).1 = Raise ValueError
  ∧ (download_all_catchups d).1 = Raise ValueError.
Proof.
  intros Hr Hacc.
  assert (Hf : forallb (λ r, accepted r.1.1.2) (joined d) = false).
  { apply forallb_false_Exists, Exists_exists. by exists r. }
  assert (Hg : forallb (λ r, reportable r.1.1.2) (joined d) = false).
  { apply forallb_false_Exists, Exists_exists. exists r. split; [done|].
    destruct (reportable r.1.1.2) eqn:R; [|done].
    apply reportable_accepted in R. congruence. }
  rewrite list_all_catchups_eq, download_all_catchups_eq.
  by rewrite reportable_joined_report, Hf, Hg.
Qed.

Lemma resolve_of_student (d : db) (s : student_row) :
  schema_ok d → s ∈ students d → resolve (s_name s) d = Some (s_id s).
Proof.
  intros (_ & Hname & _) Hs.
  destruct (resolve_registered (s_name s) d) as [sid Hsid].
  { by apply list_elem_of_fmap_2. }
  rewrite Hsid. apply resolve_Some in Hsid as (s' & Hs' & E & <-).
  by rewrite (NoDup_map_inj s_name _ s' s Hname Hs' Hs E).
Qed.

Lemma report_of_length data : length (report_of data) = length data.
Proof. unfold report_of. by rewrite length_map, enumerate_length. Qed.

Lemma report_of_snoc data (row : string * string) :
  report_of (data ++ [row])
  = report_of data
    ++ [mk_catchup_json (Z.of_nat (length data) + 1) row.1 row.2
          (charge_for (Z.of_nat (length data) + 1))].
Proof.
  unfold report_of. rewrite enumerate_app, map_app. simpl.
  by rewrite (Z.add_comm 1).
Qed.

(** X9.  POST /catchups stores any date text.  When the date of a catch-up
    posted for a registered student is one [strptime] rejects, the post
    still succeeds, and from then on GET /catchups/all and GET
    /catchups/download/all raise [ValueError], while the by-name report of
    that student still answers and ends with the new entry. *)
Theorem bad_date_breaks_monthly_views (d : db) (catchup : CatchUp.t)
  (s : student_row) :
  schema_ok d →
  Sql.fits_int64 (CatchUp.student_id catchup) = true →
  s ∈ students d →
  s_id s = CatchUp.student_id catchup →
  accepted (CatchUp.date catchup) = false →
  ∃ d' report,
    add_catchup catchup d = (Ok (mk_message "Catch-up recorded"), d')
    ∧ (list_all_catchups d').1 = Raise ValueError
    ∧ (download_all_catchups d').1 = Raise ValueError
    ∧ list_catchups_by_name (s_name s) d' = (Ok report, d')
    ∧ last report
      = Some (mk_catchup_json (Z.of_nat (length report))
                (CatchUp.date catchup) (CatchUp.lesson_missed catchup)
                (charge_for (Z.of_nat (length report)))).
Proof.
  intros Hok Hfit Hs Hid Hacc.
  pose proof (resolve_of_student d s Hok Hs) as Hres.
  rewrite add_catchup_eq, Hfit.
  set (c := mk_catchup (Sql.next_rowid (catchups_seq d) (map c_id (catchups d)))
              (CatchUp.student_id catchup) (CatchUp.date catchup)
              (CatchUp.lesson_missed catchup)).
  match goal with |- context [(_, ?x)] => set (d' := x) end.
  assert (Hin : (s_name s, c_date c, c_student_id c, c_lesson_missed c)
                  ∈ joined d').
  { apply joined_elem_of; [|done|done]. subst d'. simpl.
    apply elem_of_app. right. by apply list_elem_of_singleton. }
  destruct (monthly_fails_on d' _ Hin Hacc) as [Hall Hdl].
  assert (Hres' : resolve (s_name s) d' = Some (s_id s)) by done.
  assert (Hrows : rows_of_student (s_id s) d'
                  = rows_of_student (s_id s) d
                    ++ [(CatchUp.date catchup, CatchUp.lesson_missed catchup)]).
  { unfold rows_of_student. subst d'. simpl.
    rewrite List.filter_app, map_app. simpl. by rewrite Hid, Z.eqb_refl. }
  exists d', (report_of (rows_of_student (s_id s) d')).
  split; [done|]. split; [done|]. split; [done|].
  rewrite list_catchups_by_name_eq, Hres'. split; [done|].
  rewrite Hrows, report_of_snoc, last_snoc, length_app, report_of_length. simpl.
  replace (Z.of_nat (length (rows_of_student (s_id s) d) + 1))
    with (Z.of_nat (length (rows_of_student (s_id s) d)) + 1) by lia.
  done.
Qed.

Lemma joined_serve (history : list request) (d : db) r :
  r ∈ joined d → r ∈ joined (serve history d).
Proof.
  destruct (serve_tables history d) as (s' & c' & Hs & Hc).
  unfold joined.
  intros ([s c] & -> & (Hc0 & Hs0 & E)%elem_of_ordered_join)%list_elem_of_fmap.
  apply list_elem_of_fmap. exists (s, c). split; [done|].
  apply elem_of_ordered_join. rewrite Hs, Hc.
  split; [apply elem_of_app; by left|]. split; [apply elem_of_app; by left | done].
Qed.

(** X10.  A failure of the monthly views is permanent: since nothing is ever
    deleted, once GET /catchups/all raises it raises after every further
    history of requests, and so does GET /catchups/download/all. *)
Theorem monthly_failure_is_permanent (history : list request) (d : db) :
  (list_all_catchups d).1 = Raise ValueError →
  (list_all_catchups (serve history d)).1 = Raise ValueError
  ∧ (download_all_catchups (serve history d)).1 = Raise ValueError.
Proof.
  rewrite (list_all_catchups_eq d). cbn [fst].
  destruct (forallb _ (joined d)) eqn:E; [done|]. intros _.
  apply forallb_false_Exists, Exists_exists in E as (r & Hr & Hacc).
  apply (monthly_fails_on _ r); [by apply joined_serve | done].
Qed.

(** X11.  When every joined date is a valid zero-padded ISO date with a
    year from 1000 on, the full report is served and its month sections come
    in chronological order. *)
Theorem download_all_sections_chronological (d : db) :
  Forall (λ r, is_iso_date r.1.2 = true) (joined_report d) →
  Forall (λ r, reportable r.1.2 = true) (joined_report d) →
  ∃ resp,
    download_all_catchups d = (Ok resp, d)
    ∧ body resp
      = Csv.getvalue
          ([Csv.CStr "Catch-up Tracker - Full Report"] :: []
           :: concat (map (λ g, section_rows g.1 g.2)
                (grouped (λ r, month_key_of r.1.2) (joined_report d))))
    ∧ chronological
        (map fst (grouped (λ r, month_key_of r.1.2) (joined_report d))).
Proof.
  intros Hiso Hacc. rewrite download_all_catchups_eq.
  rewrite (proj2 (forallb_true_Forall (λ r, reportable r.1.2) _) Hacc).
  eexists. split; [reflexivity|]. split; [done|].
  rewrite grouped_keys, <- (map_map (λ r, r.1.2) month_key_of).
  apply iso_keys_chronological; [by apply Forall_map|].
  apply (StronglySorted_map (date_le (λ r, r.1.2))); [done|].
  apply joined_report_sorted.
Qed.

(** ** Two free catch-ups *)

Lemma charge_for_eqb_Free i : String.eqb (charge_for i) "Free" = (i <=? 2).
Proof. unfold charge_for. by destruct (i <=? 2). Qed.

Lemma charge_for_eqb_Charge i : String.eqb (charge_for i) "Charge" = negb (i <=? 2).
Proof. unfold charge_for. by destruct (i <=? 2). Qed.

Lemma charge_count_snoc status report r :
  charge_count status (report ++ [r])
  = charge_count status report + (if String.eqb (charge r) status then 1 else 0).
Proof.
  unfold charge_count. rewrite List.filter_app, length_app. simpl.
  destruct (String.eqb _ _); simpl; lia.
Qed.

Lemma charge_count_report_of data :
  charge_count "Free" (report_of data) = Z.min 2 (Z.of_nat (length data))
  ∧ charge_count "Charge" (report_of data)
    = Z.max 0 (Z.of_nat (length data) - 2).
Proof.
  induction data as [|row data [IHf IHc]] using rev_ind; [done|].
  rewrite report_of_snoc, !charge_count_snoc, IHf, IHc, length_app. simpl.
  rewrite charge_for_eqb_Free, charge_for_eqb_Charge.
  destruct (Z.leb_spec (Z.of_nat (length data) + 1) 2); simpl; lia.
Qed.

(** X12.  The by-name report always answers, and with n entries it marks
    min(2, n) of them Free and the other max(0, n - 2) Charge. *)
Theorem by_name_two_free (student_name : string) (d : db) :
  ∃ report,
    list_catchups_by_name student_name d = (Ok report, d)
    ∧ charge_count "Free" report = Z.min 2 (Z.of_nat (length report))
    ∧ charge_count "Charge" report = Z.max 0 (Z.of_nat (length report) - 2).
Proof.
  rewrite list_catchups_by_name_eq. eexists. split; [reflexivity|].
  destruct (resolve student_name d) as [sid|]; [|done].
  rewrite report_of_length. apply charge_count_report_of.
Qed.

Lemma month_rows_snoc entries n dt ls :
  month_rows (entries ++ [(n, dt, ls)])
  = month_rows entries
    ++ [[Csv.CStr n; Csv.CStr dt; Csv.CStr ls;
         Csv.CStr (charge_for (occurrences n entries + 1))]].
Proof.
  pose proof (proj1 (month_rows_from_spec entries) n) as Hcnt.
  unfold month_rows, month_rows_from in *. rewrite fold_left_app. simpl.
  destruct (fold_left _ entries _) as [cnt rows]. simpl in *.
  by rewrite lookup_insert_eq, Hcnt.
Qed.

Lemma status_count_app name st rows rows' :
  status_count name st (rows ++ rows')
  = status_count name st rows + status_count name st rows'.
Proof. unfold status_count. rewrite List.filter_app, length_app. lia. Qed.

Lemma status_count_month_rows name entries :
  status_count name "Free" (month_rows entries)
  = Z.min 2 (occurrences name entries)
  ∧ status_count name "Charge" (month_rows entries)
    = Z.max 0 (occurrences name entries - 2).
Proof.
  induction entries as [|[[n dt] ls] entries [IHf IHc]] using rev_ind; [done|].
  rewrite month_rows_snoc, !status_count_app, IHf, IHc, occurrences_snoc.
  unfold status_count. simpl.
  rewrite charge_for_eqb_Free, charge_for_eqb_Charge.
  destruct (String.eqb_spec n name) as [->|_]; simpl; [|lia].
  destruct (Z.leb_spec (occurrences name entries + 1) 2); simpl; lia.
Qed.

Lemma occurrences_nonneg name entries : 0 ≤ occurrences name entries.
Proof. unfold occurrences. lia. Qed.

Lemma status_count_section name k entries :
  status_count name "Free" (section_rows k entries)
  = Z.min 2 (occurrences name entries)
  ∧ status_count name "Charge" (section_rows k entries)
    = Z.max 0 (occurrences name entries - 2).
Proof.
  destruct (status_count_month_rows name entries) as [Hf Hc].
  unfold section_rows.
  change (?a :: ?b :: month_rows entries ++ [[]])
    with ([a; b] ++ month_rows entries ++ [[]]).
  rewrite !status_count_app, Hf, Hc. unfold status_count. simpl.
  rewrite !andb_false_r. simpl. lia.
Qed.

(** X13.  When every joined date parses with a four-digit year, the full
    report is served, and in every month section of it a student has at most
    two Free rows: with n rows in the month, min(2, n) are Free and
    max(0, n - 2) are Charge, whatever the other months hold. *)
Theorem month_section_two_free (d : db) :
  Forall (λ r, reportable r.1.2 = true) (joined_report d) →
  ∃ resp,
    download_all_catchups d = (Ok resp, d)
    ∧ body resp
      = Csv.getvalue
          ([Csv.CStr "Catch-up Tracker - Full Report"] :: []
           :: concat (map (λ g, section_rows g.1 g.2)
                (grouped (λ r, month_key_of r.1.2) (joined_report d))))
    ∧ ∀ month_key entries student_name,
        (month_key, entries)
          ∈ grouped (λ r, month_key_of r.1.2) (joined_report d) →
        status_count student_name "Free" (section_rows month_key entries)
        = Z.min 2 (occurrences student_name entries)
        ∧ status_count student_name "Charge" (section_rows month_key entries)
          = Z.max 0 (occurrences student_name entries - 2).
Proof.
  intros Hacc. rewrite download_all_catchups_eq.
  rewrite (proj2 (forallb_true_Forall (λ r, reportable r.1.2) _) Hacc).
  eexists. split; [reflexivity|]. split; [done|].
  intros k entries n _. apply status_count_section.
Qed.

(** ** The monthly report against the by-name report *)

Lemma status_count_sections name st
  (groups : list (string * list (string * string * string))) :
  status_count name st (concat (map (λ g, section_rows g.1 g.2) groups))
  = sum_over (λ g, status_count name st (section_rows g.1 g.2)) groups.
Proof.
  induction groups as [|g groups IH]; [done|].
  cbn [map concat sum_over foldr]. rewrite status_count_app, IH. done.
Qed.

Lemma occurrences_app name l k :
  occurrences name (l ++ k) = occurrences name l + occurrences name k.
Proof. unfold occurrences. rewrite List.filter_app, length_app. lia. Qed.

Lemma occurrences_concat name
  (groups : list (string * list (string * string * string))) :
  occurrences name (concat (map snd groups))
  = sum_over (λ g, occurrences name g.2) groups.
Proof.
  induction groups as [|g groups IH]; [done|].
  cbn [map concat sum_over foldr]. by rewrite occurrences_app, IH.
Qed.

Lemma filter_Permutation_length {A} (p : A → bool) (l k : list A) :
  l ≡ₚ k → length (List.filter p l) = length (List.filter p k).
Proof.
  induction 1 as [|x l k _ IH|x y l|l k m _ IH1 _ IH2]; simpl.
  - done.
  - destruct (p x); simpl; by rewrite IH.
  - by destruct (p x), (p y).
  - by rewrite IH1.
Qed.

Lemma occurrences_grouped name (data : list (string * string * string))
  (key : string * string * string → string) :
  sum_over (λ g, occurrences name g.2) (grouped key data)
  = occurrences name data.
Proof.
  rewrite <- occurrences_concat. unfold occurrences. f_equal.
  apply filter_Permutation_length, grouped_values.
Qed.

Lemma sum_quota {A} (a : A → Z) (l : list A) :
  (∀ x, 0 ≤ a x) →
  0 ≤ sum_over a l
  ∧ sum_over (λ x, Z.max 0 (a x - 2)) l ≤ Z.max 0 (sum_over a l - 2)
  ∧ Z.min 2 (sum_over a l) ≤ sum_over (λ x, Z.min 2 (a x)) l
  ∧ sum_over (λ x, Z.min 2 (a x)) l + sum_over (λ x, Z.max 0 (a x - 2)) l
    = sum_over a l.
Proof.
  intros Ha. induction l as [|x l IH]; simpl; [lia|].
  specialize (Ha x). lia.
Qed.

Lemma sum_over_ext {A} (f g : A → Z) (l : list A) :
  (∀ x, f x = g x) → sum_over f l = sum_over g l.
Proof. intros H. induction l as [|x l IH]; simpl; [done|]. by rewrite H, IH. Qed.

(** The joined rows that carry a student's name are that student's rows. *)
Lemma students_named_id name cid (l : list student_row) (c : catchup_row) :
  length (List.filter (λ p : student_row * catchup_row, String.eqb (s_name p.1) name)
            (l ≫= λ s, if s_id s =? cid then [(s, c)] else []))
  = length (List.filter (λ s, s_id s =? cid)
              (List.filter (λ s, String.eqb (s_name s) name) l)).
Proof.
  induction l as [|s l IH]; [done|].
  rewrite bind_cons, List.filter_app, length_app, IH. simpl.
  destruct (Z.eqb_spec (s_id s) cid) as [E|E],
           (String.eqb (s_name s) name) eqn:En; simpl; rewrite ?En; simpl.
  - by rewrite (proj2 (Z.eqb_eq _ _) E).
  - done.
  - by rewrite (proj2 (Z.eqb_neq _ _) E).
  - done.
Qed.

Lemma named_join_rows (d : db) name :
  NoDup (map s_name (students d)) →
  length (List.filter (λ p : student_row * catchup_row, String.eqb (s_name p.1) name)
            (Sql.join_rows d))
  = match resolve name d with
    | Some sid => length (rows_of_student sid d)
    | None => 0%nat
    end.
Proof.
  intros Hname. unfold Sql.join_rows, resolve.
  assert (Hone : (length (List.filter (λ s, String.eqb (s_name s) name)
                            (students d)) ≤ 1)%nat).
  { destruct (existsb (λ s, String.eqb (s_name s) name) (students d)) eqn:Ex.
    - rewrite filter_name_unique by done. lia.
    - rewrite filter_name_absent by done. simpl. lia. }
  destruct (List.filter (λ s, String.eqb (s_name s) name) (students d))
    as [|s0 [|s1 rest]] eqn:Ef; simpl in Hone; [| |lia].
  - simpl. induction (catchups d) as [|c l IH]; [done|].
    rewrite bind_cons, List.filter_app, length_app, IH.
    by rewrite (students_named_id name (c_student_id c)), Ef.
  - simpl. unfold rows_of_student. rewrite length_map.
    induction (catchups d) as [|c l IH]; [done|].
    rewrite bind_cons, List.filter_app, length_app, IH.
    rewrite (students_named_id name (c_student_id c)), Ef. simpl.
    rewrite (Z.eqb_sym (c_student_id c) (s_id s0)).
    by destruct (s_id s0 =? c_student_id c).
Qed.

Lemma occurrences_joined_report (d : db) name :
  schema_ok d →
  occurrences name (joined_report d)
  = match resolve name d with
    | Some sid => Z.of_nat (length (rows_of_student sid d))
    | None => 0
    end.
Proof.
  intros (_ & Hname & _). unfold occurrences, joined_report.
  rewrite filter_map_comm, length_map. unfold Sql.ordered_join.
  rewrite (filter_Permutation_length _ _ (Sql.join_rows d))
    by apply order_by_Permutation.
  replace (List.filter _ (Sql.join_rows d))
    with (List.filter (λ p : student_row * catchup_row,
                         String.eqb (s_name p.1) name) (Sql.join_rows d)).
  - rewrite (named_join_rows d name Hname). by destruct (resolve name d).
  - induction (Sql.join_rows d) as [|[s c] l IH]; simpl; [done|]. by rewrite IH.
Qed.

(** X14.  The monthly report never bills more than the by-name report.  Under
    the schema's constraints and with dates that parse with a four-digit
    year (so that the full report is served), a student has as
    many data rows in the full report as entries in the by-name report; of
    these the full report marks at most as many Charge, and at least as many
    Free, as the by-name report does. *)
Theorem monthly_never_charges_more (d : db) (student_name : string) :
  schema_ok d →
  Forall (λ r, reportable r.1.2 = true) (joined_report d) →
  ∃ rows resp report,
    full_report_rows (joined_report d) = Ok rows
    ∧ download_all_catchups d = (Ok resp, d)
    ∧ body resp = Csv.getvalue rows
    ∧ list_catchups_by_name student_name d = (Ok report, d)
    ∧ status_count student_name "Free" rows
      + status_count student_name "Charge" rows
      = Z.of_nat (length report)
    ∧ status_count student_name "Charge" rows ≤ charge_count "Charge" report
    ∧ charge_count "Free" report ≤ status_count student_name "Free" rows.
Proof.
  intros Hok Hacc.
  rewrite full_report_rows_eq, download_all_catchups_eq,
    list_catchups_by_name_eq.
  rewrite (proj2 (forallb_true_Forall (λ r, reportable r.1.2) _) Hacc).
  do 3 eexists. split; [reflexivity|]. split; [reflexivity|].
  split; [reflexivity|]. split; [reflexivity|].
  set (groups := grouped (λ r, month_key_of r.1.2) (joined_report d)).
  assert (Hst : ∀ st,
            status_count student_name st
              ([Csv.CStr "Catch-up Tracker - Full Report"] :: []
               :: concat (map (λ g, section_rows g.1 g.2) groups))
            = sum_over (λ g, status_count student_name st
                               (section_rows g.1 g.2)) groups).
  { intros st. rewrite <- status_count_sections. done. }
  rewrite !Hst.
  rewrite (sum_over_ext _ (λ g, Z.min 2 (occurrences student_name g.2)))
    by (intros g; apply status_count_section).
  rewrite (sum_over_ext (λ g, status_count student_name "Charge" _)
             (λ g, Z.max 0 (occurrences student_name g.2 - 2)))
    by (intros g; apply status_count_section).
  destruct (sum_quota (λ g : string * list (string * string * string),
                         occurrences student_name g.2) groups)
    as (Hnn & Hch & Hfr & Hsum).
  { intros g. apply occurrences_nonneg. }
  unfold groups in *. rewrite occurrences_grouped in *.
  rewrite (occurrences_joined_report d student_name Hok) in *.
  assert (Hlen : Z.of_nat
                   (length match resolve student_name d with
                           | Some sid => report_of (rows_of_student sid d)
                           | None => []
                           end)
                 = match resolve student_name d with
                   | Some sid => Z.of_nat (length (rows_of_student sid d))
                   | None => 0
                   end).
  { destruct (resolve student_name d); [by rewrite report_of_length | done]. }
  rewrite Hlen. split; [exact Hsum|].
  destruct (resolve student_name d) as [sid|].
  - destruct (charge_count_report_of (rows_of_student sid d)) as [-> ->]. lia.
  - change (charge_count "Charge" []) with 0.
    change (charge_count "Free" []) with 0. lia.
Qed.

(** ** The download's file name *)

Lemma replace_spaces_length s :
  String.length (replace_spaces s) = String.length s.
Proof. induction s as [|c s IH]; simpl; [done | by rewrite IH]. Qed.

Lemma replace_spaces_get s i :
  String.get i (replace_spaces s)
  = (λ c, if Ascii.eqb c " " then "_"%char else c) <$> String.get i s.
Proof.
  revert i. induction s as [|c s IH]; intros [|i]; simpl; done.
Qed.

(** X15.  The by-name download of a registered student whose name encodes
    as latin-1 is offered as an attachment whose file name is the student's
    name with every space replaced by an underscore and every other
    character kept, between the fixed prefix and [.csv]; the name part holds
    no space and encodes as latin-1 like the name. *)
Theorem download_file_name (student_name : string) (d : db) :
  student_name ∈ map s_name (students d) →
  encodes_latin1 student_name = true →
  ∃ resp file_name,
    download_catchups_by_name student_name d = (Ok resp, d)
    ∧ headers resp
      = [("Content-Disposition",
          "attachment; filename=catchups_report_" +:+ file_name +:+ ".csv")]
    ∧ String.length file_name = String.length student_name
    ∧ encodes_latin1 file_name = true
    ∧ (∀ i, String.get i file_name ≠ Some " "%char)
    ∧ (∀ i c, String.get i student_name = Some c → c ≠ " "%char →
              String.get i file_name = Some c)
    ∧ (∀ i, String.get i student_name = Some " "%char →
            String.get i file_name = Some "_"%char).
Proof.
  intros [sid Hsid]%resolve_registered Henc.
  rewrite download_catchups_by_name_eq, Hsid, Henc.
  eexists _, (replace_spaces student_name).
  split; [reflexivity|]. split; [done|]. split; [apply replace_spaces_length|].
  split; [by rewrite encodes_latin1_replace_spaces|].
  split; [|split].
  - intros i. rewrite replace_spaces_get.
    destruct (String.get i student_name) as [c|]; simpl; [|done].
    destruct (Ascii.eqb_spec c " "); [done | congruence].
  - intros i c Hc Hne. rewrite replace_spaces_get, Hc. simpl.
    by destruct (Ascii.eqb_spec c " ").
  - intros i Hc. by rewrite replace_spaces_get, Hc.
Qed.

(** ** Listed students can be looked up *)

(** X16.  Under the schema's constraints every student GET /students lists
    can be queried by the listed name: the by-name report is the report over
    the catch-ups stored under the listed id. *)
Theorem listed_student_has_report (d : db) (listed : list student_json)
  (entry : student_json) :
  schema_ok d →
  list_students d = (Ok listed, d) →
  entry ∈ listed →
  list_catchups_by_name (name entry) d
  = (Ok (report_of (rows_of_student (id entry) d)), d).
Proof.
  intros Hok Hl Hin. simpl in Hl. injection Hl as <-.
  rewrite map_map in Hin.
  apply list_elem_of_fmap in Hin as (s & -> & Hs). simpl.
  by rewrite list_catchups_by_name_eq, (resolve_of_student d s Hok Hs).
Qed.

(** ** [init_db()] *)

(** X17.  [init_db] can be run again and again: after one run both tables
    exist and the catchups table has the [lesson_missed] column, so the
    ALTER statement of a further run raises the error that [init_db]
    swallows, and that run changes nothing. *)
Theorem init_db_idempotent (f : Schema.file) :
  Schema.init_db (Schema.init_db f) = Schema.init_db f
  ∧ is_Some (Schema.students_table (Schema.init_db f))
  ∧ (∃ t, Schema.catchups_table_of (Schema.init_db f) = Some t
          ∧ Schema.has_lesson_missed t = true)
  ∧ Schema.add_lesson_missed (Schema.init_db f) = inl Schema.OperationalError.
Proof.
  destruct f as [[sts|] [[[] recs]|] seqs]; cbv; eauto 10.
Qed.

(** X18.  [init_db] keeps the data of an existing file: the student rows,
    the sequence counters and every catch-up record stay as they are (a
    table created without [lesson_missed] gets the column, its rows reading
    NULL there); tables that are missing are created empty, and on no file
    at all the result is the empty store. *)
Theorem init_db_keeps_data (f : Schema.file) :
  Schema.students_table (Schema.init_db f)
  = Some (default [] (Schema.students_table f))
  ∧ Schema.records <$> Schema.catchups_table_of (Schema.init_db f)
    = Some (default [] (Schema.records <$> Schema.catchups_table_of f))
  ∧ Schema.sequences (Schema.init_db f) = Schema.sequences f
  ∧ Schema.to_db (Schema.init_db Schema.no_file) = Some init_db
  ∧ (∀ d, Schema.to_db f = Some d → Schema.to_db (Schema.init_db f) = Some d).
Proof.
  split; [|split; [|split; [|split]]].
  - by destruct f as [[sts|] [[[] recs]|] seqs].
  - by destruct f as [[sts|] [[[] recs]|] seqs].
  - by destruct f as [[sts|] [[[] recs]|] seqs].
  - reflexivity.
  - intros d. destruct f as [[sts|] [[[] recs]|] seqs]; try done.
Qed.

(** ** A recorded catch-up in the monthly view *)

Lemma joined_after_catchup (d d' : db) (c : catchup_row) r :
  students d' = students d →
  catchups d' = catchups d ++ [c] →
  r ∈ joined d' → r ∈ joined d ∨ r.1.1.2 = c_date c.
Proof.
  intros Hs Hc. unfold joined.
  intros ([s0 c0] & -> & (Hc0 & Hs0 & E)%elem_of_ordered_join)%list_elem_of_fmap.
  rewrite Hs in Hs0. rewrite Hc in Hc0.
  apply elem_of_app in Hc0 as [Hc0| ->%list_elem_of_singleton]; [left | by right].
  apply list_elem_of_fmap. exists (s0, c0). split; [done|].
  by apply elem_of_ordered_join.
Qed.

Lemma joined_length (d : db) :
  NoDup (map s_id (students d)) →
  length (joined d) = length (List.filter (registered d) (catchups d)).
Proof.
  intros Hid. rewrite <- (join_rows_catchups d Hid).
  unfold joined, Sql.ordered_join.
  by rewrite !length_map, order_by_Permutation.
Qed.

(** X19.  Recording a catch-up with a date that parses for a registered
    student, in a store whose monthly view works, keeps the view working:
    GET /catchups/all then holds the new row under the month key of its date,
    and the join has grown by exactly that one row. *)
Theorem recorded_catchup_joins_its_month (d : db) (catchup : CatchUp.t)
  (s : student_row) :
  schema_ok d →
  Sql.fits_int64 (CatchUp.student_id catchup) = true →
  s ∈ students d →
  s_id s = CatchUp.student_id catchup →
  Forall (λ r, accepted r.1.1.2 = true) (joined d) →
  accepted (CatchUp.date catchup) = true →
  ∃ d' monthly rows,
    add_catchup catchup d = (Ok (mk_message "Catch-up recorded"), d')
    ∧ list_all_catchups d' = (Ok monthly, d')
    ∧ (month_key_of (CatchUp.date catchup), rows) ∈ monthly
    ∧ (s_name s, CatchUp.date catchup, CatchUp.student_id catchup,
       CatchUp.lesson_missed catchup) ∈ rows
    ∧ length (joined d') = S (length (joined d)).
Proof.
  intros (Hid & Hname & Hcid) Hfit Hs Hsid Hall Hacc.
  rewrite add_catchup_eq, Hfit.
  set (c := mk_catchup (Sql.next_rowid (catchups_seq d) (map c_id (catchups d)))
              (CatchUp.student_id catchup) (CatchUp.date catchup)
              (CatchUp.lesson_missed catchup)).
  match goal with |- context [(_, ?x)] => set (d' := x) end.
  assert (Hs' : students d' = students d) by done.
  assert (Hc' : catchups d' = catchups d ++ [c]) by done.
  assert (Hin : (s_name s, c_date c, c_student_id c, c_lesson_missed c)
                  ∈ joined d').
  { apply joined_elem_of; [|done|done]. rewrite Hc'.
    apply elem_of_app. right. by apply list_elem_of_singleton. }
  assert (Hall' : forallb (λ r, accepted r.1.1.2) (joined d') = true).
  { apply forallb_true_Forall, Forall_forall. intros r Hr.
    destruct (joined_after_catchup d d' c r Hs' Hc' Hr) as [Hold| ->]; [|done].
    rewrite Forall_forall in Hall. by apply Hall. }
  destruct (grouped_holds (λ r, month_key_of r.1.1.2) (joined d') _ Hin)
    as (rows & Hg & Hr).
  exists d', (grouped (λ r, month_key_of r.1.1.2) (joined d')), rows.
  split; [done|]. rewrite list_all_catchups_eq, Hall'.
  split; [done|]. split; [exact Hg|]. split; [exact Hr|].
  rewrite (joined_length d Hid), (joined_length d') by (by rewrite Hs').
  rewrite Hc', List.filter_app, length_app.
  assert (Hreg : registered d' c = true).
  { unfold registered. apply existsb_exists. exists s.
    split; [rewrite Hs'; by apply list_elem_of_In | by apply Z.eqb_eq]. }
  cbn [List.filter]. rewrite Hreg. simpl.
  replace (List.filter (registered d') (catchups d))
    with (List.filter (registered d) (catchups d)); [lia|].
  unfold registered. by rewrite Hs'.
Qed.

(** ** When the full download fails *)

Lemma reportable_spec s :
  reportable s = true
  ↔ ∃ t, PyDate.strptime_Ymd s = Ok t ∧ 1000 ≤ PyDate.year t.
Proof.
  unfold reportable. destruct (PyDate.strptime_Ymd s) as [t|e].
  - rewrite Z.leb_le. split; [by exists t|]. by intros (t' & [= <-] & H).
  - split; [done|]. by intros (t' & ? & _).
Qed.

Lemma digit_zero c :
  PyDate.is_digit c = true → PyDate.digit_val c = 0 ↔ c = "0"%char.
Proof.
  intros Hc. split; [|by intros ->].
  intros H. rewrite <- (digit_char_val c Hc), H. reflexivity.
Qed.

Lemma iso_reportable s :
  is_iso_date s = true →
  reportable s = false ↔ String.get 0 s = Some "0"%char.
Proof.
  intros (y1&y2&y3&y4&m1&m2&d1&d2&->&Hdig&Hy&Hm&Hd)%iso_date_shape.
  unfold reportable. rewrite iso_date_parse by done.
  cbn [PyDate.year String.get]. rewrite Z.leb_gt.
  repeat (apply Forall_cons in Hdig as [? Hdig]).
  pose proof (is_digit_val y1 ltac:(done)). pose proof (is_digit_val y2 ltac:(done)).
  pose proof (is_digit_val y3 ltac:(done)). pose proof (is_digit_val y4 ltac:(done)).
  pose proof (digit_zero y1 ltac:(done)) as Hz. unfold val4.
  split.
  - intros Hlt. f_equal. apply Hz. lia.
  - intros [= E]. apply Hz in E. lia.
Qed.

(** X21.  GET /catchups/download/all raises [ValueError] exactly when some
    joined date is rejected by [strptime] or has a year below 1000, whose
    month key does not read back under ['%Y-%m'], and succeeds exactly when
    every joined date parses with a four-digit year.  A valid zero-padded
    ISO date is one of the failing dates exactly when it starts with [0]; so
    a store whose joined dates are all such ISO dates, one of them in a year
    below 1000, is served by GET /catchups/all while the download raises. *)
Theorem download_all_fails_iff (d : db) :
  ((download_all_catchups d).1 = Raise ValueError
   ↔ Exists (λ r, reportable r.1.2 = false) (joined_report d))
  ∧ (is_Ok (download_all_catchups d).1 = true
     ↔ Forall (λ r, reportable r.1.2 = true) (joined_report d))
  ∧ (∀ s, reportable s = true
          ↔ ∃ t, PyDate.strptime_Ymd s = Ok t ∧ 1000 ≤ PyDate.year t)
  ∧ (∀ s, is_iso_date s = true →
          reportable s = false ↔ String.get 0 s = Some "0"%char)
  ∧ (Forall (λ r, is_iso_date r.1.2 = true) (joined_report d) →
     Exists (λ r, String.get 0 r.1.2 = Some "0"%char) (joined_report d) →
     is_Ok (list_all_catchups d).1 = true
     ∧ (download_all_catchups d).1 = Raise ValueError).
Proof.
  rewrite list_all_catchups_eq, download_all_catchups_eq. cbn [fst].
  pose proof (forallb_true_Forall (λ r, reportable r.1.2) (joined_report d))
    as Hall.
  pose proof (forallb_false_Exists (λ r, reportable r.1.2) (joined_report d))
    as Hex.
  cbv beta in Hall, Hex.
  split; [|split; [|split; [|split]]].
  - rewrite <- Hex. by destruct (forallb _ _).
  - rewrite <- Hall. by destruct (forallb _ _).
  - apply reportable_spec.
  - apply iso_reportable.
  - intros Hiso Hzero. split.
    + rewrite <- accepted_joined_report.
      rewrite (proj2 (forallb_true_Forall (λ r, accepted r.1.2) _)); [done|].
      eapply Forall_impl; [exact Hiso|]. intros r. apply iso_date_accepted.
    + rewrite (proj2 Hex); [done|].
      rewrite Forall_forall in Hiso.
      apply Exists_exists in Hzero as (r & Hr & Hz).
      apply Exists_exists. exists r. split; [done|].
      by apply iso_reportable; [apply Hiso|].
Qed.

(** ** Reachable stores *)

(** X20.  Every store the service reaches from a fresh file satisfies the
    schema's constraints: student ids, student names and catch-up ids are
    each without repetition. *)
Theorem reachable_store_is_well_formed (history : list request) :
  NoDup (map s_id (students (serve history init_db)))
  ∧ NoDup (map s_name (students (serve history init_db)))
  ∧ NoDup (map c_id (catchups (serve history init_db))).
Proof.
  change (schema_ok (serve history init_db)).
  assert (H : ∀ d, schema_ok d → schema_ok (serve history d)).
  { induction history as [|r h IH]; intros d Hd; [done|].
    apply (IH (handle r d)), handle_schema_ok, Hd. }
  apply H. repeat split; constructor.
Qed.

Lemma recorded_catchup_joins_its_month_witness :
  schema_ok (serve ana_history init_db)
  ∧ Sql.fits_int64 1 = true
  ∧ mk_student 1 "Ana" ∈ students (serve ana_history init_db)
  ∧ s_id (mk_student 1 "Ana") = 1
  ∧ Forall (λ r, accepted r.1.1.2 = true) (joined (serve ana_history init_db))
  ∧ accepted "2024-04-02" = true
  ∧ ∃ d' monthly rows,
      add_catchup (CatchUp.mk 1 "2024-04-02" "L4") (serve ana_history init_db)
      = (Ok (mk_message "Catch-up recorded"), d')
      ∧ list_all_catchups d' = (Ok monthly, d')
      ∧ (month_key_of "2024-04-02", rows) ∈ monthly
      ∧ ("Ana", "2024-04-02", 1, "L4") ∈ rows.
Proof.
  assert (H1 : schema_ok (serve ana_history init_db))
    by (unfold schema_ok; compute_done).
  assert (H2 : Sql.fits_int64 1 = true) by reflexivity.
  assert (H3 : mk_student 1 "Ana" ∈ students (serve ana_history init_db))
    by (vm_compute; left).
  assert (H4 : s_id (mk_student 1 "Ana") = 1) by reflexivity.
  assert (H5 : Forall (λ r, accepted r.1.1.2 = true)
                 (joined (serve ana_history init_db)))
    by (apply forallb_true_Forall; vm_compute; reflexivity).
  assert (H6 : accepted "2024-04-02" = true) by reflexivity.
  split; [exact H1|]. split; [exact H2|]. split; [exact H3|].
  split; [exact H4|]. split; [exact H5|]. split; [exact H6|].
  destruct (recorded_catchup_joins_its_month (serve ana_history init_db)
              (CatchUp.mk 1 "2024-04-02" "L4") (mk_student 1 "Ana")
              H1 H2 H3 H4 H5 H6)
    as (d' & monthly & rows & E1 & E2 & Hg & Hr & _).
  exists d', monthly, rows.
  split; [exact E1|]. split; [exact E2|]. split; [exact Hg | exact Hr].
Defined.

(** ** The further properties on sample histories *)

Example early_catchup_is_adopted :
  (list_catchups_by_name "Bob"
     (handle (POST_students (Student.mk "Bob"))
             (serve early_catchup_history init_db))).1
  = Ok [mk_catchup_json 1 "2024-03-02" "early" "Free"].
Proof. reflexivity. Qed.

Example busy_student_counts :
  (charge_count "Charge" <$>
     match (list_catchups_by_name "Ana" (serve busy_history init_db)).1 with
     | Ok report => Some report
     | Raise _ => None
     end) = Some 4
  ∧ (status_count "Ana" "Charge" <$>
       match full_report_rows (joined_report (serve busy_history init_db)) with
       | Ok rows => Some rows
       | Raise _ => None
       end) = Some 2.
Proof. split; vm_compute; reflexivity. Qed.

Lemma resolve_permanent_witness :
  resolve "Ana" (serve ana_history init_db) = Some 1
  ∧ resolve "Ana" (serve jan_feb_history (serve ana_history init_db)) = Some 1.
Proof.
  assert (H1 : resolve "Ana" (serve ana_history init_db) = Some 1)
    by reflexivity.
  split; [exact H1|].
  exact (resolve_permanent jan_feb_history "Ana" (serve ana_history init_db) 1 H1).
Defined.

Lemma by_name_report_grows_witness :
  resolve "Ana" (serve ana_history init_db) = Some 1
  ∧ ∃ before after,
      list_catchups_by_name "Ana" (serve ana_history init_db)
      = (Ok before, serve ana_history init_db)
      ∧ list_catchups_by_name "Ana"
          (serve jan_feb_history (serve ana_history init_db))
        = (Ok after, serve jan_feb_history (serve ana_history init_db))
      ∧ before `prefix_of` after.
Proof.
  assert (H1 : resolve "Ana" (serve ana_history init_db) = Some 1)
    by reflexivity.
  split; [exact H1|].
  destruct (by_name_report_grows jan_feb_history "Ana"
              (serve ana_history init_db) 1 H1)
    as (before & after & E1 & E2 & Hpre & _).
  exists before, after. split; [exact E1|]. split; [exact E2 | exact Hpre].
Defined.

Lemma register_new_student_witness :
  resolve "Bob" (serve early_catchup_history init_db) = None
  ∧ ∃ sid,
      resolve "Bob" (handle (POST_students (Student.mk "Bob"))
                            (serve early_catchup_history init_db)) = Some sid
      ∧ list_catchups_by_name "Bob"
          (handle (POST_students (Student.mk "Bob"))
                  (serve early_catchup_history init_db))
        = (Ok (report_of (rows_of_student sid
                            (serve early_catchup_history init_db))),
           handle (POST_students (Student.mk "Bob"))
                  (serve early_catchup_history init_db)).
Proof.
  assert (H1 : resolve "Bob" (serve early_catchup_history init_db) = None)
    by reflexivity.
  split; [exact H1|].
  destruct (register_new_student (Student.mk "Bob")
              (serve early_catchup_history init_db) H1)
    as (sid & Hres & _ & _ & Hrep & _).
  exists sid. split; [exact Hres | exact Hrep].
Defined.

Lemma months_partition_joined_witness :
  list_all_catchups (serve jan_feb_history init_db)
  = (Ok [("2024-01", [("Ana", "2024-01-08", 1, "L1");
                      ("Bob", "2024-01-09", 2, "B1");
                      ("Ana", "2024-01-22", 1, "L2")]);
         ("2024-02", [("Ana", "2024-02-05", 1, "L3")])],
     serve jan_feb_history init_db)
  ∧ concat (map snd [("2024-01", [("Ana", "2024-01-08", 1, "L1");
                                   ("Bob", "2024-01-09", 2, "B1");
                                   ("Ana", "2024-01-22", 1, "L2")]);
                      ("2024-02", [("Ana", "2024-02-05", 1, "L3")])])
    ≡ₚ joined (serve jan_feb_history init_db).
Proof.
  assert (H1 : list_all_catchups (serve jan_feb_history init_db)
               = (Ok [("2024-01", [("Ana", "2024-01-08", 1, "L1");
                                   ("Bob", "2024-01-09", 2, "B1");
                                   ("Ana", "2024-01-22", 1, "L2")]);
                      ("2024-02", [("Ana", "2024-02-05", 1, "L3")])],
                  serve jan_feb_history init_db))
    by (vm_compute; reflexivity).
  split; [exact H1|].
  exact (proj1 (months_partition_joined _ _ H1)).
Defined.

Lemma joined_rows_are_registered_catchups_witness :
  schema_ok (serve early_catchup_history init_db)
  ∧ length (joined (serve early_catchup_history init_db))
    = length (List.filter (registered (serve early_catchup_history init_db))
                          (catchups (serve early_catchup_history init_db))).
Proof.
  assert (H1 : schema_ok (serve early_catchup_history init_db))
    by (unfold schema_ok; compute_done).
  split; [exact H1|].
  exact (proj2 (joined_rows_are_registered_catchups _ H1)).
Defined.

Lemma bad_date_breaks_monthly_views_witness :
  schema_ok (serve ana_history init_db)
  ∧ Sql.fits_int64 1 = true
  ∧ mk_student 1 "Ana" ∈ students (serve ana_history init_db)
  ∧ s_id (mk_student 1 "Ana") = 1
  ∧ accepted "next week" = false
  ∧ ∃ d',
      add_catchup (CatchUp.mk 1 "next week" "L9") (serve ana_history init_db)
      = (Ok (mk_message "Catch-up recorded"), d')
      ∧ (list_all_catchups d').1 = Raise ValueError
      ∧ (download_all_catchups d').1 = Raise ValueError.
Proof.
  assert (H1 : schema_ok (serve ana_history init_db))
    by (unfold schema_ok; compute_done).
  assert (H2 : Sql.fits_int64 1 = true) by reflexivity.
  assert (H3 : mk_student 1 "Ana" ∈ students (serve ana_history init_db))
    by (vm_compute; left).
  assert (H4 : s_id (mk_student 1 "Ana") = 1) by reflexivity.
  assert (H5 : accepted "next week" = false) by reflexivity.
  split; [exact H1|]. split; [exact H2|]. split; [exact H3|].
  split; [exact H4|]. split; [exact H5|].
  destruct (bad_date_breaks_monthly_views (serve ana_history init_db)
              (CatchUp.mk 1 "next week" "L9") (mk_student 1 "Ana")
              H1 H2 H3 H4 H5)
    as (d' & report & E & Hall & Hdl & _).
  exists d'. split; [exact E|]. split; [exact Hall | exact Hdl].
Defined.

Lemma monthly_failure_is_permanent_witness :
  (list_all_catchups (serve bad_date_history init_db)).1 = Raise ValueError
  ∧ (list_all_catchups (serve ana_history (serve bad_date_history init_db))).1
    = Raise ValueError.
Proof.
  assert (H1 : (list_all_catchups (serve bad_date_history init_db)).1
               = Raise ValueError) by (vm_compute; reflexivity).
  split; [exact H1|].
  exact (proj1 (monthly_failure_is_permanent ana_history
                  (serve bad_date_history init_db) H1)).
Defined.

Lemma download_all_sections_chronological_witness :
  Forall (λ r, is_iso_date r.1.2 = true)
         (joined_report (serve jan_feb_history init_db))
  ∧ Forall (λ r, reportable r.1.2 = true)
           (joined_report (serve jan_feb_history init_db))
  ∧ chronological
      (map fst (grouped (λ r, month_key_of r.1.2)
                  (joined_report (serve jan_feb_history init_db)))).
Proof.
  assert (H1 : Forall (λ r, is_iso_date r.1.2 = true)
                 (joined_report (serve jan_feb_history init_db)))
    by (apply forallb_true_Forall; vm_compute; reflexivity).
  assert (H2 : Forall (λ r, reportable r.1.2 = true)
                 (joined_report (serve jan_feb_history init_db)))
    by (apply forallb_true_Forall; vm_compute; reflexivity).
  split; [exact H1|]. split; [exact H2|].
  destruct (download_all_sections_chronological _ H1 H2)
    as (resp & _ & _ & Hc).
  exact Hc.
Defined.

Lemma month_section_two_free_witness :
  Forall (λ r, reportable r.1.2 = true)
         (joined_report (serve busy_history init_db))
  ∧ ∃ resp,
      download_all_catchups (serve busy_history init_db)
      = (Ok resp, serve busy_history init_db).
Proof.
  assert (H1 : Forall (λ r, reportable r.1.2 = true)
                 (joined_report (serve busy_history init_db)))
    by (apply forallb_true_Forall; vm_compute; reflexivity).
  split; [exact H1|].
  destruct (month_section_two_free _ H1) as (resp & E & _).
  exists resp. exact E.
Defined.

Lemma monthly_never_charges_more_witness :
  schema_ok (serve busy_history init_db)
  ∧ Forall (λ r, reportable r.1.2 = true)
           (joined_report (serve busy_history init_db))
  ∧ ∃ rows resp report,
      download_all_catchups (serve busy_history init_db)
      = (Ok resp, serve busy_history init_db)
      ∧ body resp = Csv.getvalue rows
      ∧ list_catchups_by_name "Ana" (serve busy_history init_db)
        = (Ok report, serve busy_history init_db)
      ∧ status_count "Ana" "Charge" rows ≤ charge_count "Charge" report.
Proof.
  assert (H1 : schema_ok (serve busy_history init_db))
    by (unfold schema_ok; compute_done).
  assert (H2 : Forall (λ r, reportable r.1.2 = true)
                 (joined_report (serve busy_history init_db)))
    by (apply forallb_true_Forall; vm_compute; reflexivity).
  split; [exact H1|]. split; [exact H2|].
  destruct (monthly_never_charges_more (serve busy_history init_db) "Ana" H1 H2)
    as (rows & resp & report & _ & E1 & E2 & E3 & _ & Hle & _).
  exists rows, resp, report.
  split; [exact E1|]. split; [exact E2|]. split; [exact E3 | exact Hle].
Defined.

Lemma download_file_name_witness :
  "Ana Maria Lopez" ∈ map s_name (students (serve spaced_name_history init_db))
  ∧ encodes_latin1 "Ana Maria Lopez" = true
  ∧ ∃ resp file_name,
      download_catchups_by_name "Ana Maria Lopez"
        (serve spaced_name_history init_db)
      = (Ok resp, serve spaced_name_history init_db)
      ∧ headers resp
        = [("Content-Disposition",
            "attachment; filename=catchups_report_" +:+ file_name +:+ ".csv")]
      ∧ ∀ i, String.get i file_name ≠ Some " "%char.
Proof.
  assert (H1 : "Ana Maria Lopez"
                 ∈ map s_name (students (serve spaced_name_history init_db)))
    by compute_done.
  assert (H2 : encodes_latin1 "Ana Maria Lopez" = true) by reflexivity.
  split; [exact H1|]. split; [exact H2|].
  destruct (download_file_name "Ana Maria Lopez"
              (serve spaced_name_history init_db) H1 H2)
    as (resp & fn & E & Hh & _ & _ & Hns & _).
  exists resp, fn. split; [exact E|]. split; [exact Hh | exact Hns].
Defined.

Lemma listed_student_has_report_witness :
  schema_ok (serve ana_history init_db)
  ∧ list_students (serve ana_history init_db)
    = (Ok [mk_student_json 1 "Ana"], serve ana_history init_db)
  ∧ mk_student_json 1 "Ana" ∈ [mk_student_json 1 "Ana"]
  ∧ list_catchups_by_name "Ana" (serve ana_history init_db)
    = (Ok (report_of (rows_of_student 1 (serve ana_history init_db))),
       serve ana_history init_db).
Proof.
  assert (H1 : schema_ok (serve ana_history init_db))
    by (unfold schema_ok; compute_done).
  assert (H2 : list_students (serve ana_history init_db)
               = (Ok [mk_student_json 1 "Ana"], serve ana_history init_db))
    by reflexivity.
  assert (H3 : mk_student_json 1 "Ana" ∈ [mk_student_json 1 "Ana"]) by left.
  split; [exact H1|]. split; [exact H2|]. split; [exact H3|].
  exact (listed_student_has_report (serve ana_history init_db)
           [mk_student_json 1 "Ana"] (mk_student_json 1 "Ana") H1 H2 H3).
Defined.
